(** * Redaction post-processor (post_processor/v3/post_processor_9.py)

    A shallow embedding of [PostProcessor.get_filtered_predictions] and
    [PostProcessor.get_entities], with the Python, pandas, [re], [os.path]
    and OpenCV primitives they call, and the properties of the selection /
    redaction / bundling core stated in the specification.

    - Python strings are [string]s, exceptions are values of [exn], the
      insertion-ordered [dict]s are association lists.
    - A [DataFrame] is the list of its rows, or no columns at all for
      [pd.DataFrame()]; the columns hold strings and integers, and the
      dtype of [page_id] is a parameter ([PageIdType]).
    - The merged prediction dictionary returned by
      [pp.post_process_predictions] is the input of [get_entities]; the
      files of the resource directory, the PNG/base64 encoder and the
      identifiers drawn from [uuid.uuid4] are read from an [Env]; the
      paths handed to [cv2.imread] are recorded in a [World].
    - The regular-expression engine is a parameter ([ReEngine]); a
      reference engine for the syntax of the shipped patterns is given.
    - An image is the list of its pixel rows; [cv2.rectangle] fills the
      rectangle clipped to the image, and fails on a corner coordinate
      that is not a C [int]. *)

From Stdlib Require Import List String Ascii ZArith Bool Arith Lia Permutation.
From Stdlib Require Import DecimalString DecimalZ.
Import ListNotations.

Set Implicit Arguments.
Open Scope string_scope.
Open Scope list_scope.

(* ================================================================== *)
(** * Python strings *)
(* ================================================================== *)

(** Python [str] values are embedded as [string]; a character is a code
    point below 256. *)
Module Py.

(** [c.isspace()] on the code points below 256: TAB..CR, FS..US, SPACE,
    NEL (0x85) and NBSP (0xA0). *)
Definition isspace (c : ascii) : bool :=
  let n := nat_of_ascii c in
  ((9 <=? n)%nat && (n <=? 13)%nat) || ((28 <=? n)%nat && (n <=? 32)%nat)
  || (n =? 133)%nat || (n =? 160)%nat.

(** [s.lstrip()] *)
Fixpoint lstrip (s : string) : string :=
  match s with
  | String c s' => if isspace c then lstrip s' else s
  | EmptyString => EmptyString
  end.

(** [s.rstrip()] *)
Fixpoint rstrip (s : string) : string :=
  match s with
  | String c s' =>
      match rstrip s' with
      | EmptyString => if isspace c then EmptyString else String c EmptyString
      | r => String c r
      end
  | EmptyString => EmptyString
  end.

(** [s.strip()] *)
Definition strip (s : string) : string := rstrip (lstrip s).

(** [sub in s] *)
Fixpoint contains (sub s : string) : bool :=
  String.prefix sub s ||
  match s with
  | String _ s' => contains sub s'
  | EmptyString => false
  end.

(** [sep.join(parts)] *)
Definition join (sep : string) (parts : list string) : string :=
  String.concat sep parts.

(** The body of [s.split(sep)] for a non-empty [sep]: [skip] counts the
    characters of an already recognised separator still to be dropped,
    [cur] is the piece read so far. *)
Fixpoint split_from (sep s : string) (skip : nat) (cur : string) : list string :=
  match s with
  | EmptyString => [cur]
  | String c s' =>
      match skip with
      | S k => split_from sep s' k cur
      | O =>
          if String.prefix sep s
          then cur :: split_from sep s' (String.length sep - 1) EmptyString
          else split_from sep s' 0 (cur ++ String c EmptyString)
      end
  end.

(** [s.rfind(c)] for a one-character [c]: the last index of [c], or -1. *)
Fixpoint rfind_from (c : ascii) (s : string) (i : Z) (last : Z) : Z :=
  match s with
  | EmptyString => last
  | String x s' => rfind_from c s' (i + 1) (if Ascii.eqb x c then i else last)
  end.

Definition rfind (c : ascii) (s : string) : Z := rfind_from c s 0 (-1).

(** [s[i:j]] for [0 <= i], [0 <= j]. *)
Definition slice (s : string) (i j : Z) : string :=
  String.substring (Z.to_nat i) (Z.to_nat j - Z.to_nat i) s.

(** [s[i:]] for [0 <= i]. *)
Definition slice_from (s : string) (i : Z) : string :=
  String.substring (Z.to_nat i) (String.length s - Z.to_nat i) s.

(** [all(ch == c for ch in s)] *)
Fixpoint all_char (c : ascii) (s : string) : bool :=
  match s with
  | EmptyString => true
  | String x s' => Ascii.eqb x c && all_char c s'
  end.

(** [posixpath.splitext]: the extension starts at the last dot of the last
    path component, unless that component consists of leading dots only up
    to that dot. *)
Definition splitext (p : string) : string * string :=
  let sepIndex := rfind "/" p in
  let dotIndex := rfind "." p in
  if (sepIndex <? dotIndex)%Z then
    if all_char "." (slice p (sepIndex + 1) dotIndex)
    then (p, EmptyString)
    else (slice p 0 dotIndex, slice_from p dotIndex)
  else (p, EmptyString).

(** [s.endswith(c)] for a one-character [c] *)
Fixpoint endswith_char (c : ascii) (s : string) : bool :=
  match s with
  | EmptyString => false
  | String x EmptyString => Ascii.eqb x c
  | String _ s' => endswith_char c s'
  end.

(** [posixpath.join(a, b)] *)
Definition path_join (a b : string) : string :=
  if String.prefix "/" b then b
  else if String.eqb a "" || endswith_char "/" a then a ++ b
  else a ++ "/" ++ b.

(** [str(z)] for a Python [int] *)
Definition str_of_int (z : Z) : string := NilEmpty.string_of_int (Z.to_int z).

End Py.

(* ================================================================== *)
(** * Regular expressions *)
(* ================================================================== *)

(** [Series.str.contains(pattern, regex=True)] first compiles the pattern
    ([re.compile], which raises [re.error] on a malformed pattern) and then
    tests every value with [pattern.search].  The program is stated over
    any engine with these two operations. *)
Class ReEngine : Type := {
  re_pattern : Type;
  re_compile : string -> option re_pattern;
  re_search : re_pattern -> string -> bool
}.

(** A reference engine for a fragment of the [re] syntax (a [str]
    pattern compiled without flags): literals, [.], classes with ranges,
    the escapes [\d \w \s \b \B \A \Z] and their complements, the
    character escapes [\a \f \n \r \t \v \xhh \uhhhh \Uhhhhhhhh], octal
    escapes and escaped punctuation, the anchors [^ $], groups
    [(...)] and [(?:...)], the look-aheads [(?=...)] and [(?!...)],
    alternation and the quantifiers [* + ? {n} {n,} {,m} {n,m}], greedy
    or lazy.  The patterns shipped in the module lie in this fragment.

    Outside the fragment, where [compile] answers [None] whatever
    [re.compile] does: back-references, named groups, look-behind,
    conditional groups, comments [(?#...)], inline flags, [\N{...}],
    the possessive quantifiers and atomic groups of Python 3.11, and
    repetition counts from [2**32 - 1] on (an [OverflowError] in
    Python). *)
Module PyRe.

Inductive regex : Type :=
| Eps
| Chr (p : ascii -> bool)
| Bol
| Eol
| Eos
| WordB (positive : bool)
| Look (positive : bool) (r : regex)
| Seq (r1 r2 : regex)
| Alt (r1 r2 : regex)
| Star (r : regex).

Definition code (c : ascii) : nat := nat_of_ascii c.
Definition between (lo hi : nat) (c : ascii) : bool :=
  (lo <=? code c)%nat && (code c <=? hi)%nat.

(** The code point of a character, and the characters with a given code
    point or with a code point in a range. *)
Definition ncode (c : ascii) : N := N_of_ascii c.
Definition lit (n : N) (c : ascii) : bool := N.eqb (ncode c) n.
Definition range (lo hi : N) (c : ascii) : bool :=
  (N.leb lo (ncode c) && N.leb (ncode c) hi)%bool.

Definition is_digit (c : ascii) : bool := between 48 57 c.
Definition is_octal (c : ascii) : bool := between 48 55 c.
Definition is_ascii_letter (c : ascii) : bool :=
  between 65 90 c || between 97 122 c.

(** [\w] on code points below 256: alphanumerics and the underscore. *)
Definition is_word (c : ascii) : bool :=
  is_digit c || between 65 90 c || between 97 122 c || (code c =? 95)%nat
  || (code c =? 170)%nat || between 178 179 c || (code c =? 181)%nat
  || between 185 186 c || between 188 190 c || between 192 214 c
  || between 216 246 c || between 248 255 c.

(** The assertions that consume nothing ([AT] codes): a quantifier has
    nothing to repeat on them. *)
Definition is_zero (r : regex) : bool :=
  match r with Bol | Eol | Eos | WordB _ => true | _ => false end.

Fixpoint power (r : regex) (n : nat) : regex :=
  match n with O => Eps | S k => Seq r (power r k) end.

Fixpoint upto (r : regex) (n : nat) : regex :=
  match n with O => Eps | S k => Alt Eps (Seq r (upto r k)) end.

(** ** Parsing *)

Local Open Scope char_scope.

(** The decimal digits at the head of [s]. *)
Fixpoint read_nat (s : list ascii) (acc : option N) : option N * list ascii :=
  match s with
  | c :: s' =>
      if is_digit c
      then read_nat s' (Some (10 * match acc with Some a => a | None => 0 end
                              + (ncode c - 48))%N)
      else (acc, s)
  | [] => (acc, s)
  end.

Definition hex_val (c : ascii) : option N :=
  if is_digit c then Some (ncode c - 48)%N
  else if between 97 102 c then Some (ncode c - 87)%N
  else if between 65 70 c then Some (ncode c - 55)%N
  else None.

(** Exactly [n] hexadecimal digits. *)
Fixpoint read_hex (n : nat) (s : list ascii) (acc : N) : option (N * list ascii) :=
  match n with
  | O => Some (acc, s)
  | S n' =>
      match s with
      | c :: s' =>
          match hex_val c with
          | Some v => read_hex n' s' (16 * acc + v)%N
          | None => None
          end
      | [] => None
      end
  end.

(** At most [n] octal digits. *)
Fixpoint read_octal (n : nat) (s : list ascii) (acc : N) : N * list ascii :=
  match n, s with
  | S n', c :: s' =>
      if is_octal c then read_octal n' s' (8 * acc + (ncode c - 48))%N
      else (acc, s)
  | _, _ => (acc, s)
  end.

(** What an escape stands for: a character, a set of characters, or an
    assertion. *)
Inductive escape : Type :=
| ELit (c : N)
| ESet (p : ascii -> bool)
| EAt (r : regex).

(** The escape whose backslash has just been read, outside or inside a
    class. *)
Definition parse_escape (in_class : bool) (s : list ascii)
  : option (escape * list ascii) :=
  match s with
  | [] => None
  | c :: s' =>
      match c with
      | "d" => Some (ESet is_digit, s')
      | "D" => Some (ESet (fun x => negb (is_digit x)), s')
      | "w" => Some (ESet is_word, s')
      | "W" => Some (ESet (fun x => negb (is_word x)), s')
      | "s" => Some (ESet Py.isspace, s')
      | "S" => Some (ESet (fun x => negb (Py.isspace x)), s')
      | "n" => Some (ELit 10, s')
      | "t" => Some (ELit 9, s')
      | "r" => Some (ELit 13, s')
      | "f" => Some (ELit 12, s')
      | "v" => Some (ELit 11, s')
      | "a" => Some (ELit 7, s')
      | "b" => if in_class then Some (ELit 8, s') else Some (EAt (WordB true), s')
      | "B" => if in_class then None else Some (EAt (WordB false), s')
      | "A" => if in_class then None else Some (EAt Bol, s')
      | "Z" => if in_class then None else Some (EAt Eos, s')
      | "x" => option_map (fun nr => (ELit (fst nr), snd nr)) (read_hex 2 s' 0)
      | "u" => option_map (fun nr => (ELit (fst nr), snd nr)) (read_hex 4 s' 0)
      | "U" =>
          match read_hex 8 s' 0 with
          | Some (n, rest) =>
              if (n <=? 1114111)%N then Some (ELit n, rest) else None
          | None => None
          end
      | _ =>
          if is_digit c then
            if in_class then
              if is_octal c then
                let (n, rest) := read_octal 2 s' (ncode c - 48)%N in
                if (n <=? 255)%N then Some (ELit n, rest) else None
              else None
            else if Ascii.eqb c "0" then
              let (n, rest) := read_octal 2 s' 0%N in Some (ELit n, rest)
            else
              match s' with
              | d1 :: d2 :: rest =>
                  if is_octal c && is_octal d1 && is_octal d2 then
                    let n := (64 * (ncode c - 48) + 8 * (ncode d1 - 48)
                              + (ncode d2 - 48))%N in
                    if (n <=? 255)%N then Some (ELit n, rest) else None
                  else None
              | _ => None
              end
          else if is_ascii_letter c then None
          else Some (ELit (ncode c), s')
      end
  end.

(** One item of a class: an escape or the character itself. *)
Definition class_item (c : ascii) (s : list ascii) : option (escape * list ascii) :=
  if Ascii.eqb c "\" then parse_escape true s else Some (ELit (ncode c), s).

Definition item_set (e : escape) : ascii -> bool :=
  match e with
  | ELit n => lit n
  | ESet p => p
  | EAt _ => fun _ => false
  end.

(** The items of a class after the opening bracket, up to the closing one.
    [first] is set while a closing bracket still counts as a literal; an
    item followed by [-] opens a range unless the bracket closes there,
    and both ends of a range are characters. *)
Fixpoint parse_class (fuel : nat) (s : list ascii) (first : bool)
    (acc : ascii -> bool) : option ((ascii -> bool) * list ascii) :=
  match fuel with
  | O => None
  | S f =>
      match s with
      | [] => None
      | c :: s' =>
          if Ascii.eqb c "]" && negb first then Some (acc, s')
          else
            match class_item c s' with
            | None => None
            | Some (lo, s1) =>
                match s1 with
                | "-" :: [] => None
                | "-" :: "]" :: s3 =>
                    Some (fun x => acc x || item_set lo x || Ascii.eqb x "-", s3)
                | "-" :: h :: s3 =>
                    match lo, class_item h s3 with
                    | ELit a, Some (ELit b, s4) =>
                        if (b <? a)%N then None
                        else parse_class f s4 false
                               (fun x => acc x || range a b x)
                    | _, _ => None
                    end
                | _ => parse_class f s1 false (fun x => acc x || item_set lo x)
                end
            end
      end
  end.

(** The counted repetition whose brace has just been read: the bounds
    [{n}], [{n,}], [{,m}], [{n,m}] and [{,}]; anything else leaves the brace
    a literal. *)
Definition read_repeat (s : list ascii) : option (N * option N * list ascii) :=
  match s with
  | "}" :: _ => None
  | _ =>
      match read_nat s None with
      | (lo, "," :: s1) =>
          match read_nat s1 None with
          | (hi, "}" :: s2) =>
              Some (match lo with Some n => n | None => 0%N end, hi, s2)
          | _ => None
          end
      | (Some n, "}" :: s1) => Some (n, Some n, s1)
      | _ => None
      end
  end.

Definition is_quant_start (s : list ascii) : bool :=
  match s with
  | "*" :: _ | "+" :: _ | "?" :: _ => true
  | "{" :: s' =>
      match read_repeat s' with Some _ => true | None => false end
  | _ => false
  end.

(** A quantifier after the atom [r], if any; a quantifier on an assertion
    or on another quantifier is an error. *)
Definition parse_quant (r : regex) (s : list ascii) : option (regex * list ascii) :=
  let finish (q : regex) (rest : list ascii) :=
    if is_zero r then None else
    let rest' := match rest with "?" :: t => t | _ => rest end in
    if is_quant_start rest' then None else Some (q, rest') in
  match s with
  | "*" :: s' => finish (Star r) s'
  | "+" :: s' => finish (Seq r (Star r)) s'
  | "?" :: s' => finish (Alt Eps r) s'
  | "{" :: s' =>
      match read_repeat s' with
      | Some (n, Some m, rest) =>
          if (m <? n)%N then None
          else if (4294967295 <=? m)%N then None
          else finish (Seq (power r (N.to_nat n)) (upto r (N.to_nat (m - n)))) rest
      | Some (n, None, rest) =>
          if (4294967295 <=? n)%N then None
          else finish (Seq (power r (N.to_nat n)) (Star r)) rest
      | None => Some (r, s)
      end
  | _ => Some (r, s)
  end.

Definition of_escape (e : escape) : regex :=
  match e with
  | ELit n => Chr (lit n)
  | ESet p => Chr p
  | EAt r => r
  end.

Fixpoint parse_alt (fuel : nat) (s : list ascii) : option (regex * list ascii) :=
  match fuel with
  | O => None
  | S f =>
      match parse_branch f s with
      | Some (r, "|" :: s') =>
          match parse_alt f s' with
          | Some (r', s'') => Some (Alt r r', s'')
          | None => None
          end
      | other => other
      end
  end
with parse_branch (fuel : nat) (s : list ascii) : option (regex * list ascii) :=
  match fuel with
  | O => None
  | S f =>
      match s with
      | [] | ")" :: _ | "|" :: _ => Some (Eps, s)
      | _ =>
          match parse_atom f s with
          | Some (a, s') =>
              match parse_quant a s' with
              | Some (r, s'') =>
                  match parse_branch f s'' with
                  | Some (r', s3) => Some (Seq r r', s3)
                  | None => None
                  end
              | None => None
              end
          | None => None
          end
      end
  end
with parse_atom (fuel : nat) (s : list ascii) : option (regex * list ascii) :=
  match fuel with
  | O => None
  | S f =>
      match s with
      | [] => None
      | "(" :: "?" :: "=" :: s' =>
          match parse_alt f s' with
          | Some (r, ")" :: s'') => Some (Look true r, s'')
          | _ => None
          end
      | "(" :: "?" :: "!" :: s' =>
          match parse_alt f s' with
          | Some (r, ")" :: s'') => Some (Look false r, s'')
          | _ => None
          end
      | "(" :: s' =>
          let body := match s' with
                      | "?" :: ":" :: t => Some t
                      | "?" :: _ => None
                      | _ => Some s'
                      end in
          match body with
          | Some b =>
              match parse_alt f b with
              | Some (r, ")" :: s'') => Some (Seq r Eps, s'')
              | _ => None
              end
          | None => None
          end
      | "[" :: "^" :: s' =>
          match parse_class f s' true (fun _ => false) with
          | Some (p, s'') => Some (Chr (fun x => negb (p x)), s'')
          | None => None
          end
      | "[" :: s' =>
          match parse_class f s' true (fun _ => false) with
          | Some (p, s'') => Some (Chr p, s'')
          | None => None
          end
      | "\" :: s' =>
          match parse_escape false s' with
          | Some (e, s'') => Some (of_escape e, s'')
          | None => None
          end
      | "*" :: _ | "+" :: _ | "?" :: _ => None
      | "{" :: s' =>
          if is_quant_start s then None else Some (Chr (Ascii.eqb "{"), s')
      | "." :: s' => Some (Chr (fun x => negb (Ascii.eqb x "010")), s')
      | "^" :: s' => Some (Bol, s')
      | "$" :: s' => Some (Eol, s')
      | c :: s' => Some (Chr (Ascii.eqb c), s')
      end
  end.

Local Close Scope char_scope.

Definition compile (pat : string) : option regex :=
  let s := list_ascii_of_string pat in
  match parse_alt (3 * List.length s + 3) s with
  | Some (r, []) => Some r
  | _ => None
  end.

(** ** Matching *)

Definition word_at (s : list ascii) : bool :=
  match s with c :: _ => is_word c | [] => false end.

(** [matches r before after k]: some match of [r] starting between
    [before] (the text already passed, nearest character first) and
    [after] can be continued by [k]. *)
Fixpoint matches (r : regex) (before after : list ascii)
    (k : list ascii -> list ascii -> bool) {struct r} : bool :=
  match r with
  | Eps => k before after
  | Chr p =>
      match after with
      | c :: after' => p c && k (c :: before) after'
      | [] => false
      end
  | Bol => match before with [] => k before after | _ => false end
  | Eol =>
      match after with
      | [] => k before after
      | [c] => Ascii.eqb c "010" && k before after
      | _ => false
      end
  | Eos => match after with [] => k before after | _ => false end
  | WordB positive =>
      Bool.eqb (xorb (word_at before) (word_at after)) positive && k before after
  | Look positive r1 =>
      Bool.eqb (matches r1 before after (fun _ _ => true)) positive
      && k before after
  | Seq r1 r2 => matches r1 before after (fun b a => matches r2 b a k)
  | Alt r1 r2 => matches r1 before after k || matches r2 before after k
  | Star r1 =>
      (fix loop (n : nat) (b a : list ascii) {struct n} : bool :=
         k b a ||
         match n with
         | O => false
         | S n' =>
             matches r1 b a
               (fun b' a' => (List.length a' <? List.length a)%nat && loop n' b' a')
         end) (List.length after) before after
  end.

(** [pattern.search(s) is not None]: a match starting at some position. *)
Fixpoint search_from (r : regex) (before after : list ascii) : bool :=
  matches r before after (fun _ _ => true) ||
  match after with
  | c :: after' => search_from r (c :: before) after'
  | [] => false
  end.

Definition search (r : regex) (s : string) : bool :=
  search_from r [] (list_ascii_of_string s).

End PyRe.

#[export] Instance py_re : ReEngine := {|
  re_pattern := PyRe.regex;
  re_compile := PyRe.compile;
  re_search := PyRe.search
|}.

(* ================================================================== *)
(** * Data model *)
(* ================================================================== *)

(** The dtype of the [page_id] column.  The table is built by [doc_to_df]
    and [pp.post_process_predictions], which are outside this module, and
    the code uses a page id in three ways only: compared with another page
    id ([in processed_page_ids], dictionary keys), formatted by an f-string,
    and, as a dictionary key, compared with the [str] looked up by the
    bundle builder. *)
Class PageIdType : Type := {
  PageId : Type;
  pid_eqb : PageId -> PageId -> bool;
  pid_eqb_eq : forall a b, pid_eqb a b = true <-> a = b;
  pid_str : PageId -> string;
  pid_str_inj : forall a b, pid_str a = pid_str b -> a = b;
  pid_eq_str : PageId -> string -> bool;
  pid_eq_str_inj :
    forall a b s, pid_eq_str a s = true -> pid_eq_str b s = true -> a = b
}.

(** The exceptions met in the module: Python's own, [re.error] and
    [cv2.error]. *)
Inductive exn : Type :=
| KeyError (key : string)
| IndexError
| ValueError
| ReError (pattern : string)
| Cv2Error.

Inductive result (A : Type) : Type :=
| Ok (a : A)
| Raise (e : exn).
Arguments Ok {A} a.
Arguments Raise {A} e.

Definition rbind {A B : Type} (m : result A) (f : A -> result B) : result B :=
  match m with
  | Ok a => f a
  | Raise e => Raise e
  end.

Fixpoint rmapM {A B : Type} (f : A -> result B) (l : list A) : result (list B) :=
  match l with
  | [] => Ok []
  | a :: l' => rbind (f a) (fun b => rbind (rmapM f l') (fun bs => Ok (b :: bs)))
  end.

(** Decoded page image: rows of BGR pixels. *)
Definition Pixel : Type := (N * N * N)%type.
Definition Image : Type := list (list Pixel).

(** [CustomEntity] as built by [get_entities]. *)
Record CustomEntity : Type := {
  pageIndex : string;
  redactedData : string;
  image : string
}.

(** Insertion-ordered Python [dict]. *)
Section Dict.
Variables K V : Type.
Variable eqb : K -> K -> bool.

Definition dict : Type := list (K * V).

(** [d[k] = v] *)
Fixpoint dict_set (k : K) (v : V) (d : dict) : dict :=
  match d with
  | [] => [(k, v)]
  | (k', v') :: d' =>
      if eqb k' k then (k', v) :: d' else (k', v') :: dict_set k v d'
  end.

(** The entry whose key satisfies [is_key], if any. *)
Fixpoint dict_find (is_key : K -> bool) (d : dict) : option V :=
  match d with
  | [] => None
  | (k', v') :: d' => if is_key k' then Some v' else dict_find is_key d'
  end.

Definition dict_get (k : K) (d : dict) : option V :=
  dict_find (fun k' => eqb k' k) d.

Definition dict_keys (d : dict) : list K := map fst d.
End Dict.

(** What the run reads from outside: [cv2.imread] on the files of the
    resource directory ([None] for a missing or undecodable file), the PNG
    encoder followed by base64, and the values drawn from [uuid.uuid4]. *)
Record Env : Type := {
  imread : string -> option Image;
  imencode_b64 : Image -> string;
  uuid4 : nat -> string
}.

(** What the run leaves behind: the paths handed to [cv2.imread], in call
    order, and the number of identifiers drawn. *)
Record World : Type := {
  reads : list string;
  uuids : nat
}.

Definition M (A : Type) : Type := World -> World * result A.

Definition ret {A : Type} (a : A) : M A := fun w => (w, Ok a).
Definition raise {A : Type} (e : exn) : M A := fun w => (w, Raise e).
Definition bind {A B : Type} (m : M A) (f : A -> M B) : M B :=
  fun w =>
    match m w with
    | (w', Ok a) => f a w'
    | (w', Raise e) => (w', Raise e)
    end.
Definition lift {A : Type} (r : result A) : M A := fun w => (w, r).

Declare Scope monad_scope.
Delimit Scope monad_scope with monad.
Notation "x <- m ;; k" := (bind m (fun x => k))
  (at level 61, m at next level, right associativity) : monad_scope.
Notation "' p <- m ;; k" := (bind m (fun x => match x with p => k end))
  (at level 61, p pattern, m at next level, right associativity) : monad_scope.

(** A [for] loop threading the variables it assigns. *)
Fixpoint foldM {A S : Type} (f : S -> A -> M S) (s : S) (l : list A) : M S :=
  match l with
  | [] => ret s
  | a :: l' => bind (f s a) (fun s' => foldM f s' l')
  end.

Fixpoint mapM {A B : Type} (f : A -> M B) (l : list A) : M (list B) :=
  match l with
  | [] => ret []
  | a :: l' => bind (f a) (fun b => bind (mapM f l') (fun bs => ret (b :: bs)))
  end.

Section Program.

Context {RE : ReEngine} {PID : PageIdType}.

(** A row of the merged prediction table. *)
Record Row : Type := {
  label : string;
  text : string;
  xmin : Z;
  ymin : Z;
  xmax : Z;
  ymax : Z;
  page_id : PageId;
  doc_id : string;
  id : string
}.

Definition row_eqb (a b : Row) : bool :=
  String.eqb (label a) (label b) && String.eqb (text a) (text b)
  && Z.eqb (xmin a) (xmin b) && Z.eqb (ymin a) (ymin b)
  && Z.eqb (xmax a) (xmax b) && Z.eqb (ymax a) (ymax b)
  && pid_eqb (page_id a) (page_id b)
  && String.eqb (doc_id a) (doc_id b) && String.eqb (id a) (id b).

(** A pandas [DataFrame]: [pd.DataFrame()] has no columns at all, every
    other frame here carries the columns of [Row]. *)
Inductive DataFrame : Type :=
| NoColumns
| Frame (rows : list Row).

(** [df.iterrows()] *)
Definition iterrows (df : DataFrame) : list Row :=
  match df with
  | NoColumns => []
  | Frame rows => rows
  end.

(** [pd.concat(frames)] *)
Fixpoint concat_frames (frames : list DataFrame) : DataFrame :=
  match frames with
  | [] => NoColumns
  | NoColumns :: fs => concat_frames fs
  | Frame rows :: fs => Frame (rows ++ iterrows (concat_frames fs))
  end.

Definition pd_concat (frames : list DataFrame) : result DataFrame :=
  match frames with
  | [] => Raise ValueError
  | _ => Ok (concat_frames frames)
  end.

(** Rows of [l] that are not equal to an earlier one. *)
Fixpoint dedup_from (seen : list Row) (l : list Row) : list Row :=
  match l with
  | [] => []
  | r :: l' =>
      if existsb (row_eqb r) seen then dedup_from seen l'
      else r :: dedup_from (r :: seen) l'
  end.

(** [df.drop_duplicates()]: all columns compared, first occurrence kept. *)
Definition drop_duplicates (df : DataFrame) : DataFrame :=
  match df with
  | NoColumns => NoColumns
  | Frame rows => Frame (dedup_from [] rows)
  end.

Definition set_text (r : Row) (t : string) : Row :=
  {| label := label r; text := t; xmin := xmin r; ymin := ymin r;
     xmax := xmax r; ymax := ymax r; page_id := page_id r;
     doc_id := doc_id r; id := id r |}.

Definition set_id (r : Row) (i : string) : Row :=
  {| label := label r; text := text r; xmin := xmin r; ymin := ymin r;
     xmax := xmax r; ymax := ymax r; page_id := page_id r;
     doc_id := doc_id r; id := i |}.

(** Attributes of the post-processor instance and the two module-level
    criteria. *)
Record Config : Type := {
  has_labelling_model : bool;
  img_extension : string;
  _resource_dir : string;
  labels_to_redact : option (list string);
  text_patterns_to_redact : option (list string)
}.

(** Truthiness of [None] or a list. *)
Definition truthy {A : Type} (o : option (list A)) : bool :=
  match o with
  | Some (_ :: _) => true
  | _ => false
  end.

Definition items {A : Type} (o : option (list A)) : list A :=
  match o with
  | Some l => l
  | None => []
  end.

(** [s in labels] *)
Definition isin (s : string) (labels : list string) : bool :=
  existsb (String.eqb s) labels.

Variable cfg : Config.

(** ** [PostProcessor.redact_region] *)

Fixpoint map_indexed {A B : Type} (f : Z -> A -> B) (i : Z) (l : list A) : list B :=
  match l with
  | [] => []
  | a :: l' => f i a :: map_indexed f (i + 1) l'
  end.

Definition in_span (a b i : Z) : bool :=
  ((Z.min a b <=? i) && (i <=? Z.max a b))%Z.

(** The filled black rectangle between the two corners, clipped to the
    image: what [cv2.rectangle] with thickness [-1] draws. *)
Definition fill_rectangle (image : Image) (xmin ymin xmax ymax : Z) : Image :=
  map_indexed
    (fun y line =>
       map_indexed
         (fun x px =>
            if in_span xmin xmax x && in_span ymin ymax y
            then (0, 0, 0)%N else px)
         0%Z line)
    0%Z image.

(** The corner coordinates are converted to C [int]s; a Python integer
    that is not one makes the call fail. *)
Definition in_c_int (z : Z) : bool :=
  ((-2147483648 <=? z) && (z <=? 2147483647))%Z.

(** [cv2.rectangle(image, pt1, pt2, (0, 0, 0), -1)]: raises [cv2.error]
    when a coordinate is outside the range of a C [int], and draws the
    filled rectangle on [image] otherwise. *)
Definition cv2_rectangle (image : Image) (pt1 pt2 : Z * Z) : result Image :=
  if in_c_int (fst pt1) && in_c_int (snd pt1)
     && in_c_int (fst pt2) && in_c_int (snd pt2)
  then Ok (fill_rectangle image (fst pt1) (snd pt1) (fst pt2) (snd pt2))
  else Raise Cv2Error.

(** The rectangle is drawn on [image] itself, which is returned. *)
Definition redact_region (image : Image) (xmin ymin xmax ymax : Z)
  : result Image :=
  rbind (cv2_rectangle image (xmin, ymin) (xmax, ymax))
    (fun image => Ok image).

(** ** [PostProcessor.get_filtered_predictions] *)

(** One element of the list comprehension: the rows whose text contains a
    match of [pattern]. *)
Definition rows_matching (rows : list Row) (pattern : string) : result DataFrame :=
  match re_compile pattern with
  | None => Raise (ReError pattern)
  | Some p => Ok (Frame (filter (fun r => re_search p (text r)) rows))
  end.

(** The value returned for a frame whose text column holds [rows]
    (already stripped). *)
Definition filtered_of (rows : list Row) : result DataFrame :=
  let label_filtered :=
    if truthy (labels_to_redact cfg)
    then Frame (filter (fun r => isin (label r) (items (labels_to_redact cfg))) rows)
    else NoColumns in
  rbind
    (if truthy (text_patterns_to_redact cfg)
     then rbind (rmapM (rows_matching rows) (items (text_patterns_to_redact cfg)))
            (fun frames =>
               rbind (pd_concat frames) (fun c => Ok (drop_duplicates c)))
     else Ok NoColumns)
    (fun pattern_filtered =>
       rbind (pd_concat [label_filtered; pattern_filtered])
         (fun c => Ok (drop_duplicates c))).

(** The call returns the pair of the caller's frame as the call leaves it
    (the first statement assigns the stripped text column to it) and the
    value returned or the exception raised. *)
Definition get_filtered_predictions (doc_predictions : DataFrame)
  : DataFrame * result DataFrame :=
  match doc_predictions with
  | NoColumns => (NoColumns, Raise (KeyError "text"))
  | Frame rows =>
      let rows' := map (fun r => set_text r (Py.strip (text r))) rows in
      (Frame rows', filtered_of rows')
  end.

(** ** [PostProcessor.get_entities] *)

Variable env : Env.

Local Open Scope monad_scope.

Definition cv2_imread (path : string) : M (option Image) :=
  fun w => ({| reads := reads w ++ [path]; uuids := uuids w |},
            Ok (imread env path)).

Definition uuid4_str : M string :=
  fun w => ({| reads := reads w; uuids := S (uuids w) |},
            Ok (uuid4 env (uuids w))).

(** [docs[doc]["id"] = docs[doc]["label"].apply(lambda row: str(uuid.uuid4()))] *)
Definition assign_ids (df : DataFrame) : M DataFrame :=
  match df with
  | NoColumns => raise (KeyError "label")
  | Frame rows =>
      rows' <- mapM (fun r => i <- uuid4_str ;; ret (set_id r i)) rows ;;
      ret (Frame rows')
  end.

(** The file name computed in the pre-loading loop (lines 99-103). *)
Definition preload_filename (doc : string) (page_id : PageId) : string :=
  let filename := (doc ++ "+" ++ pid_str page_id ++ img_extension cfg)%string in
  if negb (Py.contains ".pdf" filename) then
    let filename_without_extension := fst (Py.splitext doc) in
    (filename_without_extension ++ "+" ++ pid_str page_id ++ img_extension cfg)%string
  else filename.

(** The cache key computed in the redaction loop (lines 114-119). *)
Definition redact_filename (doc : string) (row : Row) : string :=
  let filename :=
    (doc ++ "+" ++ pid_str (page_id row) ++ img_extension cfg)%string in
  let processed_filename := filename in
  if negb (Py.contains ".pdf" filename) then
    let filename_without_extension := fst (Py.splitext doc) in
    (filename_without_extension ++ "+" ++ pid_str (page_id row)
       ++ img_extension cfg)%string
  else processed_filename.

Definition Images : Type := dict string Image.
Definition Texts : Type := dict PageId string.

(** Body of the pre-loading loop; the state is
    [(redacted_images_per_page, processed_page_ids)]. *)
Definition preload_row (doc : string) (st : Images * list PageId) (row : Row)
  : M (Images * list PageId) :=
  let '(redacted_images_per_page, processed_page_ids) := st in
  let page_id := page_id row in
  if negb (existsb (pid_eqb page_id) processed_page_ids) then
    let filename := preload_filename doc page_id in
    let img_path := Py.path_join (_resource_dir cfg) filename in
    image <- cv2_imread img_path ;;
    match image with
    | Some im =>
        ret (dict_set String.eqb filename im redacted_images_per_page,
             page_id :: processed_page_ids)
    | None => ret st
    end
  else ret st.

(** Body of the redaction loop; the state is
    [(redacted_images_per_page, redacted_text_per_page)]. *)
Definition redact_row (doc : string) (st : Images * Texts) (row : Row)
  : M (Images * Texts) :=
  let '(redacted_images_per_page, redacted_text_per_page) := st in
  let processed_filename := redact_filename doc row in
  match dict_get String.eqb processed_filename redacted_images_per_page with
  | None => raise (KeyError processed_filename)
  | Some im =>
      match redact_region im (xmin row) (ymin row) (xmax row) (ymax row) with
      | Raise e => raise e
      | Ok im' =>
          let images' :=
            dict_set String.eqb processed_filename im'
              redacted_images_per_page in
          let page_id := page_id row in
          let text_to_redact := text row in
          match dict_get pid_eqb page_id redacted_text_per_page with
          | Some t =>
              ret (images',
                   dict_set pid_eqb page_id (t ++ " | " ++ text_to_redact)%string
                     redacted_text_per_page)
          | None =>
              ret (images',
                   dict_set pid_eqb page_id text_to_redact redacted_text_per_page)
          end
      end
  end.

(** Body of [for doc in docs]: the image cache and the processed set start
    empty for every key, the text map is carried over. *)
Definition process_doc (st : Images * Texts) (entry : string * DataFrame)
  : M (Images * Texts) :=
  let '(doc, df) := entry in
  let redacted_text_per_page := snd st in
  df1 <- assign_ids df ;;
  loaded <- foldM (preload_row doc) ([], []) (iterrows df1) ;;
  filtered_predictions <- lift (snd (get_filtered_predictions df1)) ;;
  foldM (redact_row doc) (fst loaded, redacted_text_per_page)
    (iterrows filtered_predictions).

(** [s.split(sep)] *)
Definition py_split (sep s : string) : result (list string) :=
  if String.eqb sep "" then Raise ValueError
  else Ok (Py.split_from sep s 0 "").

(** [l[i]] *)
Definition py_index (l : list string) (i : nat) : result string :=
  match nth_error l i with
  | Some x => Ok x
  | None => Raise IndexError
  end.

(** [filename.split('+')[1].split(self.img_extension)[0]] *)
Definition page_index_of (filename : string) : result string :=
  rbind (py_split "+" filename) (fun parts =>
  rbind (py_index parts 1) (fun tail =>
  rbind (py_split (img_extension cfg) tail) (fun pieces =>
  py_index pieces 0))).

(** Body of the bundle loop. *)
Definition make_bundle (redacted_text_per_page : Texts) (item : string * Image)
  : result CustomEntity :=
  let '(filename, redacted_image) := item in
  rbind (page_index_of filename) (fun page_index =>
  let concatenated_redacted_text :=
    match dict_find (fun k => pid_eq_str k page_index) redacted_text_per_page with
    | Some t => t
    | None => ""
    end in
  Ok {| pageIndex := page_index;
        redactedData := concatenated_redacted_text;
        image := imencode_b64 env redacted_image |}).

(** The loop over the keys of [docs]. *)
Definition run_docs (docs : list (string * DataFrame)) : M (Images * Texts) :=
  foldM process_doc ([], []) docs.

(** [get_entities], from the dictionary returned by
    [pp.post_process_predictions] (keys in iteration order). *)
Definition get_entities (docs : list (string * DataFrame)) : M (list CustomEntity) :=
  if negb (has_labelling_model cfg) then ret []
  else
    st <- run_docs docs ;;
    lift (rmapM (make_bundle (snd st)) (fst st)).

End Program.

Unset Implicit Arguments.

(* ================================================================== *)
(** * Vocabulary of the properties *)
(* ================================================================== *)

(** The loops of the program on their variables alone, and the notions the
    specification speaks of. *)
Section Vocabulary.

Context {RE : ReEngine} {PID : PageIdType}.
Variable cfg : Config.
Variable env : Env.

(** ** The filter *)

(** The row's text contains a match of the pattern (false for a pattern
    that does not compile). *)
Definition matches_pattern (pat : string) (r : Row) : bool :=
  match re_compile pat with
  | Some p => re_search p (text r)
  | None => false
  end.

(** The row's label is in the enabled label set. *)
Definition label_selected (r : Row) : bool :=
  truthy (labels_to_redact cfg) && isin (label r) (items (labels_to_redact cfg)).

(** The row's text contains a match of a pattern of the enabled list. *)
Definition pattern_selected (r : Row) : bool :=
  truthy (text_patterns_to_redact cfg)
  && existsb (fun pat => matches_pattern pat r) (items (text_patterns_to_redact cfg)).

(** The row meets the redaction criteria. *)
Definition selected (r : Row) : bool := label_selected r || pattern_selected r.

(** [text] column stripped, as the first statement of the filter leaves it. *)
Definition stripped (rows : list Row) : list Row :=
  map (fun r => set_text r (Py.strip (text r))) rows.

(** The rows of the frame returned by the filter when every pattern
    compiles, written without frames. *)
Definition filtered_rows (rows : list Row) : list Row :=
  dedup_from []
    ((if truthy (labels_to_redact cfg) then filter label_selected rows else [])
     ++ (if truthy (text_patterns_to_redact cfg)
         then dedup_from []
                (flat_map (fun pat => filter (matches_pattern pat) rows)
                   (items (text_patterns_to_redact cfg)))
         else [])).

(** Every pattern of an enabled pattern list compiles. *)
Definition patterns_compile : Prop :=
  truthy (text_patterns_to_redact cfg) = true ->
  Forall (fun pat => re_compile pat <> None) (items (text_patterns_to_redact cfg)).

(** The selections the filter concatenates: the label set when enabled,
    then one per pattern, in list order. *)
Definition criteria : list (Row -> bool) :=
  (if truthy (labels_to_redact cfg) then [label_selected] else [])
  ++ (if truthy (text_patterns_to_redact cfg)
      then map matches_pattern (items (text_patterns_to_redact cfg))
      else []).

(** The rows of [table] taken criterion by criterion: those meeting the
    first criterion, then those meeting the second but not the first, and
    so on, each time in the order of [table].  [earlier] tells the rows
    already taken. *)
Fixpoint grouped (earlier : Row -> bool) (gs : list (Row -> bool))
    (table : list Row) : list Row :=
  match gs with
  | [] => []
  | g :: gs' =>
      filter (fun r => g r && negb (earlier r)) table
      ++ grouped (fun r => earlier r || g r) gs' table
  end.

(** [sub] can be read off [l] from left to right. *)
Fixpoint is_subsequence (sub l : list Row) : bool :=
  match sub, l with
  | [], _ => true
  | _ :: _, [] => false
  | a :: sub', x :: l' =>
      if row_eqb a x then is_subsequence sub' l' else is_subsequence sub l'
  end.

(** ** The text column *)

(** The string begins, resp. ends, with a whitespace character. *)
Definition starts_with_space (s : string) : bool :=
  match s with
  | String c _ => Py.isspace c
  | EmptyString => false
  end.

Fixpoint ends_with_space (s : string) : bool :=
  match s with
  | EmptyString => false
  | String c EmptyString => Py.isspace c
  | String _ s' => ends_with_space s'
  end.

(** The columns other than [text] agree. *)
Definition same_other_columns (r r' : Row) : Prop :=
  label r' = label r /\ xmin r' = xmin r /\ ymin r' = ymin r
  /\ xmax r' = xmax r /\ ymax r' = ymax r /\ page_id r' = page_id r
  /\ doc_id r' = doc_id r /\ id r' = id r.

(** ** File names and pre-loading *)

(** The character [c] occurs in [s]. *)
Fixpoint occurs (c : ascii) (s : string) : bool :=
  match s with
  | EmptyString => false
  | String x s' => Ascii.eqb x c || occurs c s'
  end.

(** The path handed to [cv2.imread] for a page. *)
Definition img_path (doc : string) (p : PageId) : string :=
  Py.path_join (_resource_dir cfg) (preload_filename cfg doc p).

(** The table after the [id] column is assigned, [n] identifiers having
    been drawn before. *)
Fixpoint with_ids (n : nat) (rows : list Row) : list Row :=
  match rows with
  | [] => []
  | r :: rows' => set_id r (uuid4 env n) :: with_ids (S n) rows'
  end.

(** [cv2.imread] returns an image for the file of the page. *)
Definition loadable (doc : string) (p : PageId) : bool :=
  match imread env (img_path doc p) with
  | Some _ => true
  | None => false
  end.

(** One iteration of the pre-loading loop on its two variables. *)
Definition preload_step (doc : string) (st : Images * list PageId) (row : Row)
  : Images * list PageId :=
  if existsb (pid_eqb (page_id row)) (snd st) then st
  else
    match imread env (img_path doc (page_id row)) with
    | Some im =>
        (dict_set String.eqb (preload_filename cfg doc (page_id row)) im (fst st),
         page_id row :: snd st)
    | None => st
    end.

(** The paths it hands to [cv2.imread]. *)
Fixpoint preload_reads (doc : string) (processed : list PageId) (rows : list Row)
  : list string :=
  match rows with
  | [] => []
  | r :: rows' =>
      if existsb (pid_eqb (page_id r)) processed
      then preload_reads doc processed rows'
      else img_path doc (page_id r)
           :: preload_reads doc
                (if loadable doc (page_id r) then page_id r :: processed
                 else processed)
                rows'
  end.

(** The cache and the processed set after the loop over [rows]. *)
Definition preloaded (doc : string) (rows : list Row) : Images * list PageId :=
  fold_left (preload_step doc) rows ([], []).

(** The keys of the cache are the file names of the processed page ids. *)
Definition keys_follow (doc : string) (st : Images * list PageId) : Prop :=
  forall k, In k (dict_keys (fst st))
            <-> exists p, In p (snd st) /\ k = preload_filename cfg doc p.

(** The world after the pre-loading loop of a document. *)
Definition after_preload (doc : string) (rows : list Row) (w : World) : World :=
  {| reads := reads w ++ preload_reads doc [] rows;
     uuids := uuids w + List.length rows |}.

(** ** Redaction and the text map *)

(** The rows the filter returns for the table of a document, [n]
    identifiers having been drawn before (when every pattern compiles). *)
Definition redacted_rows (n : nat) (rows : list Row) : list Row :=
  filtered_rows (stripped (with_ids n rows)).

(** The redaction loop on the text map. *)
Definition add_text (texts : Texts) (r : Row) : Texts :=
  match dict_get pid_eqb (page_id r) texts with
  | Some t => dict_set pid_eqb (page_id r) (t ++ " | " ++ text r)%string texts
  | None => dict_set pid_eqb (page_id r) (text r) texts
  end.

(** The redaction loop on the cache, for rows whose key is present and
    whose rectangle is drawn. *)
Definition redact_image (doc : string) (images : Images) (r : Row) : Images :=
  match dict_get String.eqb (redact_filename cfg doc r) images with
  | Some im =>
      dict_set String.eqb (redact_filename cfg doc r)
        (fill_rectangle im (xmin r) (ymin r) (xmax r) (ymax r)) images
  | None => images
  end.

(** The four coordinates of the row are C [int]s. *)
Definition drawable (r : Row) : bool :=
  in_c_int (xmin r) && in_c_int (ymin r) && in_c_int (xmax r)
  && in_c_int (ymax r).

(** [k in redacted_images_per_page] *)
Definition has_key (k : string) (images : Images) : bool :=
  existsb (String.eqb k) (dict_keys images).

(** The cache key of the first row whose page is not in the cache. *)
Fixpoint first_missing (doc : string) (images : Images) (rows : list Row)
  : option string :=
  match rows with
  | [] => None
  | r :: rows' =>
      if has_key (redact_filename cfg doc r) images
      then first_missing doc images rows'
      else Some (redact_filename cfg doc r)
  end.

(** The exception of the first row the redaction loop fails at: the
    cache lookup comes first, then the call of [cv2.rectangle]. *)
Fixpoint first_fault (doc : string) (images : Images) (rows : list Row)
  : option exn :=
  match rows with
  | [] => None
  | r :: rows' =>
      if has_key (redact_filename cfg doc r) images
      then if drawable r then first_fault doc images rows' else Some Cv2Error
      else Some (KeyError (redact_filename cfg doc r))
  end.

(** The texts of the rows of one page, in row order. *)
Definition page_texts (p : PageId) (rows : list Row) : list string :=
  map text (filter (fun r => pid_eqb (page_id r) p) rows).

(** What the text map holds for a page once the redaction loop has gone
    through [rows]. *)
Definition text_entry (p : PageId) (rows : list Row) : option string :=
  match page_texts p rows with
  | [] => None
  | ts => Some (Py.join " | " ts)
  end.

(** The texts of the rows whose page id equals the string [s]. *)
Definition texts_for (s : string) (rows : list Row) : list string :=
  map text (filter (fun r => pid_eq_str (page_id r) s) rows).

(** [redacted_text_per_page.get(page_index, "")] *)
Definition lookup_text (texts : Texts) (s : string) : string :=
  match dict_find (fun k => pid_eq_str k s) texts with
  | Some t => t
  | None => ""%string
  end.

(** ** Pixels and pages *)

(** The fill colour of [redact_region]. *)
Definition black : Pixel := (0, 0, 0)%N.

(** [image[y][x]] for a pixel inside the image. *)
Definition pixel_at (image : Image) (x y : Z) : option Pixel :=
  if ((x <? 0) || (y <? 0))%Z then None
  else
    match nth_error image (Z.to_nat y) with
    | Some line => nth_error line (Z.to_nat x)
    | None => None
    end.

(** The pixel lies in the rectangle of the row. *)
Definition covers (r : Row) (x y : Z) : bool :=
  in_span (xmin r) (xmax r) x && in_span (ymin r) (ymax r) y.

(** The rectangles of [rows] filled one after the other. *)
Definition redact_rows (image : Image) (rows : list Row) : Image :=
  fold_left
    (fun im r => fill_rectangle im (xmin r) (ymin r) (xmax r) (ymax r))
    rows image.

(** The page ids of [l] not in [seen], each at its first occurrence. *)
Fixpoint distinct_from (seen l : list PageId) : list PageId :=
  match l with
  | [] => []
  | p :: l' =>
      if existsb (pid_eqb p) seen then distinct_from seen l'
      else p :: distinct_from (p :: seen) l'
  end.

(** The page ids of the table whose file loads, in order of first
    appearance. *)
Definition loaded_pages (doc : string) (rows : list Row) : list PageId :=
  distinct_from [] (filter (loadable doc) (map page_id rows)).

(** The image [cv2.imread] returns for a page (for a page that loads). *)
Definition source_image (doc : string) (p : PageId) : Image :=
  match imread env (img_path doc p) with
  | Some im => im
  | None => []
  end.

(** The rows of a page. *)
Definition rows_of_page (p : PageId) (rows : list Row) : list Row :=
  filter (fun r => pid_eqb (page_id r) p) rows.

(** Every matched row of every document sits on a page that loads, and
    every document has columns. *)
Definition pages_available (docs : list (string * DataFrame)) : Prop :=
  forall doc df, In (doc, df) docs ->
    exists rows,
      df = Frame rows
      /\ forall r, In r rows ->
                   selected (set_text r (Py.strip (text r))) = true ->
                   loadable doc (page_id r) = true.

(** The rectangle of every matched row of every document has corners
    that are C [int]s. *)
Definition rectangles_drawable (docs : list (string * DataFrame)) : Prop :=
  forall doc rows r, In (doc, Frame rows) docs -> In r rows ->
    selected (set_text r (Py.strip (text r))) = true -> drawable r = true.

(** The path is the one derived for a page id of one of the tables. *)
Definition path_of_docs (docs : list (string * DataFrame)) (path : string) : Prop :=
  exists doc rows r,
    In (doc, Frame rows) docs /\ In r rows
    /\ path = Py.path_join (_resource_dir cfg)
                (preload_filename cfg doc (page_id r)).

End Vocabulary.

(* ================================================================== *)
(** * The two page-id dtypes *)
(* ================================================================== *)

Lemma str_of_int_inj (a b : Z) : Py.str_of_int a = Py.str_of_int b -> a = b.
Proof.
  unfold Py.str_of_int. intros H.
  apply DecimalZ.to_int_inj.
  assert (E : Some (Z.to_int a) = Some (Z.to_int b)).
  { rewrite <- !NilEmpty.isi. now rewrite H. }
  now inversion E.
Qed.

Lemma str_eq_str_inj (a b s : string) :
  String.eqb a s = true -> String.eqb b s = true -> a = b.
Proof.
  intros Ha Hb. apply String.eqb_eq in Ha, Hb. congruence.
Qed.

(** [page_id] held as [str]. *)
Definition str_page_id : PageIdType := {|
  PageId := string;
  pid_eqb := String.eqb;
  pid_eqb_eq := String.eqb_eq;
  pid_str := fun s => s;
  pid_str_inj := fun a b H => H;
  pid_eq_str := String.eqb;
  pid_eq_str_inj := str_eq_str_inj
|}.

(** [page_id] held as [int]: [str(page_id)] is its decimal writing, and an
    [int] key never equals a [str]. *)
Definition int_page_id : PageIdType := {|
  PageId := Z;
  pid_eqb := Z.eqb;
  pid_eqb_eq := Z.eqb_eq;
  pid_str := Py.str_of_int;
  pid_str_inj := str_of_int_inj;
  pid_eq_str := fun _ _ => false;
  pid_eq_str_inj := fun a b s (H : false = true) _ =>
                      False_ind (a = b) (Bool.diff_false_true H)
|}.

(* ================================================================== *)
(** * A concrete run *)
(* ================================================================== *)

(** The shipped criteria, two scanned pages of [inv.pdf] and one of
    [a.pdf] in the resource directory, string page ids. *)
Module Scenario.

#[local] Existing Instance str_page_id.

Definition white : Image :=
  [[(255, 255, 255); (255, 255, 255)]; [(255, 255, 255); (255, 255, 255)]]%N.

Definition cfg0 : Config := {|
  has_labelling_model := true;
  img_extension := ".png";
  _resource_dir := "/res";
  labels_to_redact := None;
  text_patterns_to_redact := Some ["^\d{3} \d{3} \d{3}$"; "\b\d{9}\b"]
|}.

(** Both criteria disabled. *)
Definition cfg_off : Config := {|
  has_labelling_model := true;
  img_extension := ".png";
  _resource_dir := "/res";
  labels_to_redact := None;
  text_patterns_to_redact := None
|}.

(** A pattern list with an unbalanced parenthesis. *)
Definition cfg_bad : Config := {|
  has_labelling_model := true;
  img_extension := ".png";
  _resource_dir := "/res";
  labels_to_redact := None;
  text_patterns_to_redact := Some ["("]
|}.

Definition is_black (px : Pixel) : bool :=
  match px with
  | (0, 0, 0)%N => true
  | _ => false
  end.

Definition env0 : Env := {|
  imread := fun path =>
    if String.eqb path "/res/inv.pdf+0.png" then Some white
    else if String.eqb path "/res/inv.pdf+1.png" then Some white
    else if String.eqb path "/res/a.pdf+0.png" then Some white
    else None;
  imencode_b64 := fun im =>
    if existsb (existsb is_black) im then "redacted" else "clean";
  uuid4 := fun n => Py.str_of_int (Z.of_nat n)
|}.

Definition w0 : World := {| reads := []; uuids := 0 |}.

Definition row (t p i : string) (x0 y0 x1 y1 : Z) : Row :=
  {| label := "O"; text := t; xmin := x0; ymin := y0; xmax := x1; ymax := y1;
     page_id := p; doc_id := "inv.pdf"; id := i |}.

Definition r_nine : Row := row "123456789" "0" "" 0 0 0 0.
Definition r_hello : Row := row "hello" "0" "" 1 1 1 1.
Definition r_spaced : Row := row "123 456 789" "0" "" 1 0 1 0.
Definition r_other : Row := row "x" "1" "" 0 0 0 0.
Definition r_lost : Row := row "123456789" "7" "" 0 0 0 0.
Definition r_lost' : Row := row "no match" "7" "" 0 0 0 0.

(** A matched row of page 0 whose [xmax] is [2**31]. *)
Definition r_wide : Row := row "123456789" "0" "" 0 0 2147483648 0.

Definition table : list Row := [r_nine; r_hello; r_spaced; r_other].

Definition docs1 : list (string * DataFrame) := [("inv.pdf", Frame table)].

(** The only row of [a.pdf], on its page 0. *)
Definition r_first : Row :=
  {| label := "O"; text := "111111111"; xmin := 0; ymin := 0; xmax := 0;
     ymax := 0; page_id := "0"; doc_id := "a.pdf"; id := "" |}.

(** A document whose id holds a ["+"], its only row, and the file of its
    page 0. *)
Definition r_plus : Row :=
  {| label := "O"; text := "123456789"; xmin := 0; ymin := 0; xmax := 0;
     ymax := 0; page_id := "0"; doc_id := "a+b.pdf"; id := "" |}.

Definition env_plus : Env := {|
  imread := fun path =>
    if String.eqb path "/res/a+b.pdf+0.png" then Some white else None;
  imencode_b64 := imencode_b64 env0;
  uuid4 := uuid4 env0
|}.

Definition docs2 : list (string * DataFrame) :=
  [("a.pdf", Frame [r_first])] ++ [("inv.pdf", Frame table)].

(** What [get_entities] returns on [docs1] and on [docs2], and the world
    it leaves. *)
Definition bundle_page1 : CustomEntity :=
  {| pageIndex := "1"; redactedData := ""; image := "clean" |}.

Definition bundles1 : list CustomEntity :=
  [{| pageIndex := "0"; redactedData := "123 456 789 | 123456789";
      image := "redacted" |}; bundle_page1].

Definition bundles2 : list CustomEntity :=
  [{| pageIndex := "0";
      redactedData := "111111111 | 123 456 789 | 123456789";
      image := "redacted" |}; bundle_page1].

Definition w1 : World :=
  {| reads := ["/res/inv.pdf+0.png"; "/res/inv.pdf+1.png"]; uuids := 4 |}.

Definition w2 : World :=
  {| reads := ["/res/a.pdf+0.png"; "/res/inv.pdf+0.png"; "/res/inv.pdf+1.png"];
     uuids := 5 |}.

End Scenario.

(* ================================================================== *)
(** * Strings: basic facts *)
(* ================================================================== *)

Section StringFacts.

Lemma append_assoc (a b c : string) : ((a ++ b) ++ c = a ++ (b ++ c))%string.
Proof. induction a as [|x a IH]; simpl; [reflexivity | now rewrite IH]. Qed.

Lemma append_nil_r (a : string) : (a ++ "")%string = a.
Proof. induction a as [|x a IH]; simpl; [reflexivity | now rewrite IH]. Qed.

Lemma length_append (a b : string) :
  String.length (a ++ b) = String.length a + String.length b.
Proof. induction a as [|x a IH]; simpl; [reflexivity | now rewrite IH]. Qed.

Lemma append_inv_head (a b c : string) : (a ++ b = a ++ c)%string -> b = c.
Proof.
  induction a as [|x a IH]; simpl; intros H; [exact H|].
  injection H as H. auto.
Qed.

Lemma append_inv_tail (a b c : string) : (a ++ c = b ++ c)%string -> a = b.
Proof.
  revert b. induction a as [|x a IH]; intros [|y b] H; simpl in H.
  - reflexivity.
  - apply (f_equal String.length) in H. simpl in H.
    rewrite length_append in H. lia.
  - apply (f_equal String.length) in H. simpl in H.
    rewrite length_append in H. lia.
  - injection H as Hx H. subst y. f_equal. auto.
Qed.

End StringFacts.

(* ================================================================== *)
(** * [os.path.splitext] *)
(* ================================================================== *)

Section Splitext.

Lemma rfind_from_spec (c : ascii) (s : string) (i last : Z) :
  Py.rfind_from c s i last = last \/
  ((i <= Py.rfind_from c s i last < i + Z.of_nat (String.length s))%Z /\
   String.get (Z.to_nat (Py.rfind_from c s i last - i)) s = Some c).
Proof.
  revert i last. induction s as [|x s IH]; intros i last; simpl.
  - now left.
  - destruct (IH (i + 1)%Z (if Ascii.eqb x c then i else last)) as [E | [Hr Hg]].
    + rewrite E. destruct (Ascii.eqb x c) eqn:Exc.
      * right. split; [lia|].
        replace (i - i)%Z with 0%Z by lia. simpl.
        apply Ascii.eqb_eq in Exc. now subst.
      * now left.
    + right. split; [lia|].
      set (r := Py.rfind_from c s (i + 1) (if Ascii.eqb x c then i else last)) in *.
      replace (Z.to_nat (r - i)) with (S (Z.to_nat (r - (i + 1)))) by lia.
      exact Hg.
Qed.

Lemma substring_split (s : string) (n : nat) :
  n <= String.length s ->
  (String.substring 0 n s ++ String.substring n (String.length s - n) s)%string = s.
Proof.
  revert n. induction s as [|x s IH]; intros [|n] Hn; simpl in *.
  - reflexivity.
  - lia.
  - f_equal. clear. induction s as [|y s IH]; simpl; [reflexivity | now rewrite IH].
  - f_equal. apply IH. lia.
Qed.

Lemma substring_get (s : string) (n : nat) (c : ascii) :
  String.get n s = Some c ->
  exists t, String.substring n (String.length s - n) s = String c t.
Proof.
  revert n. induction s as [|x s IH]; intros [|n] Hg; simpl in *; try discriminate.
  - injection Hg as ->. eauto.
  - now apply IH.
Qed.

(** The two halves returned by [splitext] make up its argument. *)
Lemma splitext_append (p : string) :
  (fst (Py.splitext p) ++ snd (Py.splitext p))%string = p.
Proof.
  unfold Py.splitext.
  destruct (Py.rfind "/" p <? Py.rfind "." p)%Z eqn:Hlt; simpl;
    [|apply append_nil_r].
  destruct (Py.all_char "." _); simpl; [apply append_nil_r|].
  unfold Py.slice, Py.slice_from.
  destruct (rfind_from_spec "." p 0 (-1)) as [E | [Hr _]];
    fold (Py.rfind "." p) in *.
  - destruct (rfind_from_spec "/" p 0 (-1)) as [E' | [Hr' _]];
      fold (Py.rfind "/" p) in *; apply Z.ltb_lt in Hlt; lia.
  - replace (Z.to_nat (Py.rfind "." p) - Z.to_nat 0) with (Z.to_nat (Py.rfind "." p))
      by (simpl; lia).
    apply substring_split. lia.
Qed.

(** The extension is empty or starts with a dot. *)
Lemma splitext_ext (p : string) :
  snd (Py.splitext p) = ""%string \/
  exists t, snd (Py.splitext p) = String "."%char t.
Proof.
  unfold Py.splitext.
  destruct (Py.rfind "/" p <? Py.rfind "." p)%Z eqn:Hlt; simpl; [|now left].
  destruct (Py.all_char "." _); simpl; [now left|].
  right. unfold Py.slice_from.
  destruct (rfind_from_spec "." p 0 (-1)) as [E | [Hr Hg]];
    fold (Py.rfind "." p) in *.
  - destruct (rfind_from_spec "/" p 0 (-1)) as [E' | [Hr' _]];
      fold (Py.rfind "/" p) in *; apply Z.ltb_lt in Hlt; lia.
  - rewrite Z.sub_0_r in Hg. now apply substring_get.
Qed.

End Splitext.

(* ================================================================== *)
(** * [str.strip] *)
(* ================================================================== *)

Section Strip.

Lemma lstrip_head (s : string) :
  Py.lstrip s = ""%string \/
  exists c t, Py.lstrip s = String c t /\ Py.isspace c = false.
Proof.
  induction s as [|c s IH]; simpl; [now left|].
  destruct (Py.isspace c) eqn:E; [exact IH|].
  right. eauto.
Qed.

Lemma lstrip_fixed (c : ascii) (t : string) :
  Py.isspace c = false -> Py.lstrip (String c t) = String c t.
Proof. intros H. simpl. now rewrite H. Qed.

Lemma rstrip_head (c : ascii) (t : string) :
  Py.isspace c = false -> exists t', Py.rstrip (String c t) = String c t'.
Proof.
  intros H. simpl. destruct (Py.rstrip t); [rewrite H|]; eauto.
Qed.

Lemma rstrip_idem (s : string) : Py.rstrip (Py.rstrip s) = Py.rstrip s.
Proof.
  induction s as [|c s IH]; simpl; [reflexivity|].
  destruct (Py.rstrip s) as [|d r] eqn:E.
  - destruct (Py.isspace c) eqn:Ec; simpl; [reflexivity | now rewrite Ec].
  - change (Py.rstrip (String c (String d r))) with
      (match Py.rstrip (String d r) with
       | EmptyString => if Py.isspace c then EmptyString else String c EmptyString
       | r' => String c r'
       end).
    now rewrite IH.
Qed.

(** Stripping a stripped string changes nothing. *)
Lemma strip_idem (s : string) : Py.strip (Py.strip s) = Py.strip s.
Proof.
  unfold Py.strip.
  destruct (lstrip_head s) as [E | (c & t & E & Hc)]; rewrite E.
  - reflexivity.
  - destruct (rstrip_head c t Hc) as [t' Ht']. rewrite Ht'.
    rewrite (lstrip_fixed c t' Hc), <- Ht'. apply rstrip_idem.
Qed.

End Strip.

(* ================================================================== *)
(** * Rows, duplicates and the filter *)
(* ================================================================== *)

Section FilterFacts.

Context {RE : ReEngine} {PID : PageIdType}.

Lemma row_eqb_eq (a b : Row) : row_eqb a b = true <-> a = b.
Proof.
  unfold row_eqb. split.
  - intros H. repeat (apply andb_prop in H; destruct H as [H ?]).
    destruct a, b; simpl in *.
    repeat match goal with
           | E : String.eqb _ _ = true |- _ => apply String.eqb_eq in E
           | E : Z.eqb _ _ = true |- _ => apply Z.eqb_eq in E
           | E : pid_eqb _ _ = true |- _ => apply pid_eqb_eq in E
           end.
    congruence.
  - intros <-. rewrite !String.eqb_refl, !Z.eqb_refl.
    now rewrite (proj2 (pid_eqb_eq (page_id a) (page_id a)) eq_refl).
Qed.

Lemma seen_In (r : Row) (seen : list Row) :
  existsb (row_eqb r) seen = true <-> In r seen.
Proof.
  rewrite existsb_exists. split.
  - intros (x & Hx & E). apply row_eqb_eq in E. now subst.
  - intros H. exists r. split; [exact H | now apply row_eqb_eq].
Qed.

Lemma seen_not_In (r : Row) (seen : list Row) :
  existsb (row_eqb r) seen = false <-> ~ In r seen.
Proof.
  rewrite <- seen_In. destruct (existsb (row_eqb r) seen); split; intros H;
    try discriminate; try reflexivity; congruence.
Qed.

Lemma dedup_from_In (seen l : list Row) (r : Row) :
  In r (dedup_from seen l) <-> In r l /\ ~ In r seen.
Proof.
  revert seen. induction l as [|x l IH]; intros seen; simpl; [tauto|].
  destruct (existsb (row_eqb x) seen) eqn:E.
  - apply seen_In in E. rewrite IH. split.
    + tauto.
    + intros [[-> | H] Hn]; tauto.
  - apply seen_not_In in E. simpl. rewrite IH. simpl. split.
    + intros [-> | [H Hn]]; tauto.
    + intros [[-> | H] Hn]; [now left|].
      destruct (row_eqb x r) eqn:Exr.
      * apply row_eqb_eq in Exr. now left.
      * right. split; [exact H|]. intros [-> | Hs]; [|tauto].
        assert (row_eqb r r = true) by now apply row_eqb_eq. congruence.
Qed.

Lemma dedup_from_NoDup (seen l : list Row) : NoDup (dedup_from seen l).
Proof.
  revert seen. induction l as [|x l IH]; intros seen; simpl; [constructor|].
  destruct (existsb (row_eqb x) seen); [apply IH|].
  constructor; [|apply IH].
  rewrite dedup_from_In. simpl. tauto.
Qed.

End FilterFacts.

Section FilterSpec.

Context {RE : ReEngine} {PID : PageIdType}.
Variable cfg : Config.

Lemma rmapM_rows_matching_ok (rows : list Row) (pats : list string) :
  Forall (fun pat => re_compile pat <> None) pats ->
  rmapM (rows_matching rows) pats =
  Ok (map (fun pat => Frame (filter (matches_pattern pat) rows)) pats).
Proof.
  induction 1 as [|pat pats Hc _ IH]; simpl; [reflexivity|].
  unfold rows_matching at 1. unfold matches_pattern at 1.
  destruct (re_compile pat) eqn:E; [|congruence]. simpl.
  rewrite IH. reflexivity.
Qed.

Lemma rmapM_rows_matching_bad (rows : list Row) (good : list string)
    (bad : string) (rest : list string) :
  Forall (fun pat => re_compile pat <> None) good ->
  re_compile bad = None ->
  rmapM (rows_matching rows) (good ++ bad :: rest) = Raise (ReError bad).
Proof.
  induction 1 as [|pat pats Hc _ IH]; intros Hb; simpl.
  - unfold rows_matching. now rewrite Hb.
  - unfold rows_matching at 1.
    destruct (re_compile pat) eqn:E; [|congruence]. simpl.
    now rewrite IH.
Qed.

Lemma rmapM_rows_matching_inv (rows : list Row) (pats : list string)
    (frames : list DataFrame) :
  rmapM (rows_matching rows) pats = Ok frames ->
  Forall (fun pat => re_compile pat <> None) pats.
Proof.
  revert frames. induction pats as [|pat pats IH]; intros frames H; [constructor|].
  simpl in H. unfold rows_matching at 1 in H.
  destruct (re_compile pat) eqn:E; [|discriminate]. simpl in H.
  destruct (rmapM (rows_matching rows) pats) eqn:E'; [|discriminate].
  constructor; [congruence | eauto].
Qed.

Lemma iterrows_concat_frames (f : string -> list Row) (pats : list string) :
  iterrows (concat_frames (map (fun pat => Frame (f pat)) pats)) = flat_map f pats.
Proof.
  induction pats as [|pat pats IH]; simpl; [reflexivity | now rewrite IH].
Qed.

Lemma filter_label_selected (rows : list Row) :
  truthy (labels_to_redact cfg) = true ->
  filter (fun r => isin (label r) (items (labels_to_redact cfg))) rows
  = filter (label_selected cfg) rows.
Proof.
  intros H. apply filter_ext. intros r. unfold label_selected. now rewrite H.
Qed.

(** The value returned by the filter when every pattern compiles. *)
Lemma filtered_of_ok (rows : list Row) :
  patterns_compile cfg ->
  filtered_of cfg rows =
  Ok (if truthy (labels_to_redact cfg) || truthy (text_patterns_to_redact cfg)
      then Frame (filtered_rows cfg rows) else NoColumns).
Proof.
  unfold patterns_compile, filtered_of, filtered_rows. intros Hc.
  destruct (truthy (text_patterns_to_redact cfg)) eqn:Ep.
  - rewrite (rmapM_rows_matching_ok rows _ (Hc eq_refl)).
    destruct (text_patterns_to_redact cfg) as [[|pat pats]|]; try discriminate.
    cbn [items]. set (ps := pat :: pats) in *.
    assert (Hcat : pd_concat (map (fun pat => Frame (filter (matches_pattern pat) rows)) ps)
                   = Ok (Frame (flat_map (fun pat => filter (matches_pattern pat) rows) ps))).
    { unfold ps. cbn [map pd_concat concat_frames flat_map].
      now rewrite iterrows_concat_frames. }
    cbn [rbind]. rewrite Hcat. cbn [rbind drop_duplicates].
    destruct (truthy (labels_to_redact cfg)) eqn:El; cbn.
    + rewrite app_nil_r, (filter_label_selected rows El). reflexivity.
    + now rewrite app_nil_r.
  - cbn [rbind]. destruct (truthy (labels_to_redact cfg)) eqn:El; cbn.
    + rewrite (filter_label_selected rows El). reflexivity.
    + reflexivity.
Qed.

Lemma filtered_of_inv (rows : list Row) (f : DataFrame) :
  filtered_of cfg rows = Ok f -> patterns_compile cfg.
Proof.
  unfold filtered_of, patterns_compile. intros H Ht. rewrite Ht in H.
  destruct (rmapM (rows_matching rows) (items (text_patterns_to_redact cfg))) eqn:E.
  - eapply rmapM_rows_matching_inv; eauto.
  - discriminate.
Qed.

Lemma filtered_of_rows (rows : list Row) (f : DataFrame) :
  filtered_of cfg rows = Ok f -> iterrows f = filtered_rows cfg rows.
Proof.
  intros H. pose proof (filtered_of_inv rows f H) as Hc.
  rewrite (filtered_of_ok rows Hc) in H. injection H as <-.
  destruct (truthy (labels_to_redact cfg)) eqn:El;
    destruct (truthy (text_patterns_to_redact cfg)) eqn:Ep; try reflexivity.
  unfold filtered_rows. now rewrite El, Ep.
Qed.

Lemma filtered_rows_In (rows : list Row) (r : Row) :
  In r (filtered_rows cfg rows) <-> In r rows /\ selected cfg r = true.
Proof.
  unfold filtered_rows, selected, pattern_selected.
  rewrite dedup_from_In, in_app_iff. simpl.
  destruct (truthy (labels_to_redact cfg)) eqn:El;
    destruct (truthy (text_patterns_to_redact cfg)) eqn:Ep; simpl;
    rewrite ?dedup_from_In, ?filter_In, ?in_flat_map, ?orb_true_iff,
      ?existsb_exists; simpl.
  - split.
    + intros [[[Hi Hs] | [(pat & Hp & Hf) _]] _].
      * tauto.
      * apply filter_In in Hf. split; [tauto|]. right. exists pat. tauto.
    + intros [Hi [Hs | (pat & Hp & Hm)]]; split; auto.
      right. split; auto. exists pat. rewrite filter_In. tauto.
  - unfold label_selected. rewrite El. simpl. split.
    + intros [[[Hi Hs] | []] _]. tauto.
    + intros [Hi [Hs | Hs]]; [tauto | discriminate].
  - unfold label_selected. rewrite El. simpl. split.
    + intros [[[] | [(pat & Hp & Hf) _]] _].
      apply filter_In in Hf. split; [tauto|]. right. exists pat. tauto.
    + intros [Hi [Hs | (pat & Hp & Hm)]]; [discriminate|]. split; auto.
      right. split; auto. exists pat. rewrite filter_In. tauto.
  - unfold label_selected. rewrite El. simpl. split.
    + intros [[[] | []] _].
    + intros [_ [Hs | Hs]]; discriminate.
Qed.

Lemma filtered_rows_NoDup (rows : list Row) : NoDup (filtered_rows cfg rows).
Proof. apply dedup_from_NoDup. Qed.

End FilterSpec.

(* ================================================================== *)
(** * Order of the filter result *)
(* ================================================================== *)

Section FilterOrder.

Context {RE : ReEngine} {PID : PageIdType}.
Variable cfg : Config.

Lemma dedup_from_ext (S S' l : list Row) :
  (forall x, In x l -> (In x S <-> In x S')) ->
  dedup_from S l = dedup_from S' l.
Proof.
  revert S S'. induction l as [|x l IH]; intros S S' H; simpl; [reflexivity|].
  assert (E : existsb (row_eqb x) S = existsb (row_eqb x) S').
  { destruct (existsb (row_eqb x) S') eqn:E'.
    - apply seen_In. apply H; [now left | now apply seen_In].
    - apply seen_not_In. rewrite H by now left. now apply seen_not_In. }
  rewrite E. destruct (existsb (row_eqb x) S').
  - apply IH. intros y Hy. apply H. now right.
  - f_equal. apply IH. intros y Hy. simpl. rewrite (H y) by now right. tauto.
Qed.

Lemma dedup_from_app (S A B : list Row) :
  dedup_from S (A ++ B) = dedup_from S A ++ dedup_from (A ++ S) B.
Proof.
  revert S. induction A as [|x A IH]; intros S; simpl; [reflexivity|].
  destruct (existsb (row_eqb x) S) eqn:E.
  - rewrite IH. f_equal. apply dedup_from_ext. intros y _.
    apply seen_In in E. simpl. rewrite !in_app_iff. split; [tauto|].
    intros [-> | H]; tauto.
  - simpl. rewrite IH. f_equal. f_equal. apply dedup_from_ext. intros y _.
    simpl. rewrite !in_app_iff. simpl. tauto.
Qed.

Lemma dedup_from_seen (S l : list Row) :
  dedup_from S l
  = filter (fun r => negb (existsb (row_eqb r) S)) (dedup_from [] l).
Proof.
  assert (G : forall T, dedup_from (T ++ S) l
              = filter (fun r => negb (existsb (row_eqb r) S)) (dedup_from T l)).
  { induction l as [|x l IH]; intros T; simpl; [reflexivity|].
    rewrite existsb_app.
    destruct (existsb (row_eqb x) T) eqn:ET; simpl.
    - apply IH.
    - destruct (existsb (row_eqb x) S) eqn:ES; simpl.
      + rewrite <- IH. apply dedup_from_ext. intros y _.
        apply seen_In in ES. simpl. rewrite !in_app_iff. split; [tauto|].
        intros [-> | H]; tauto.
      + f_equal. apply (IH (x :: T)). }
  exact (G []).
Qed.

Lemma dedup_from_filter (g : Row -> bool) (S l : list Row) :
  dedup_from S (filter g l) = filter g (dedup_from S l).
Proof.
  revert S. induction l as [|x l IH]; intros S; simpl; [reflexivity|].
  destruct (g x) eqn:Eg; simpl.
  - destruct (existsb (row_eqb x) S); simpl; [apply IH|].
    rewrite Eg. f_equal. apply IH.
  - destruct (existsb (row_eqb x) S); simpl; [apply IH|].
    rewrite Eg, <- IH. apply dedup_from_ext. intros y Hy.
    apply filter_In in Hy. simpl. split; [tauto|].
    intros [-> | H]; [|exact H]. destruct Hy. congruence.
Qed.

Lemma dedup_from_idem (S l : list Row) :
  dedup_from S (dedup_from [] l) = dedup_from S l.
Proof.
  rewrite (dedup_from_seen S (dedup_from [] l)), (dedup_from_seen S l).
  f_equal.
  assert (H : forall T U, (forall x, In x T -> In x U) ->
                          dedup_from T (dedup_from U l) = dedup_from U l).
  { induction l as [|x l IH]; intros T U HTU; simpl; [reflexivity|].
    destruct (existsb (row_eqb x) U) eqn:EU; [now apply IH|].
    simpl. assert (ET : existsb (row_eqb x) T = false).
    { apply seen_not_In. apply seen_not_In in EU. auto. }
    rewrite ET. f_equal. apply IH. intros y [-> | Hy]; [now left|].
    right. auto. }
  apply H. tauto.
Qed.

Lemma dedup_inner (S A B : list Row) :
  dedup_from S (A ++ dedup_from [] B) = dedup_from S (A ++ B).
Proof.
  rewrite !dedup_from_app. f_equal. apply dedup_from_idem.
Qed.

Lemma filter_and {A : Type} (f g : A -> bool) (l : list A) :
  filter f (filter g l) = filter (fun a => g a && f a) l.
Proof.
  induction l as [|a l IH]; simpl; [reflexivity|].
  destruct (g a); simpl; [|exact IH].
  destruct (f a); [now rewrite IH | exact IH].
Qed.

Lemma grouped_spec (D : list Row) (gs : list (Row -> bool)) :
  forall (S : list Row) (earlier : Row -> bool),
    (forall r, In r D -> (In r S <-> earlier r = true)) ->
    dedup_from S (flat_map (fun g => filter g D) gs)
    = grouped earlier gs (dedup_from [] D).
Proof.
  induction gs as [|g gs IH]; intros S earlier HS; simpl; [reflexivity|].
  rewrite dedup_from_app. f_equal.
  - rewrite dedup_from_seen, dedup_from_filter, filter_and.
    apply filter_ext_in. intros r Hr.
    apply dedup_from_In in Hr. destruct Hr as [Hr _].
    f_equal. destruct (earlier r) eqn:Ee.
    + apply (HS r Hr) in Ee. apply seen_In in Ee. now rewrite Ee.
    + destruct (existsb (row_eqb r) S) eqn:Es; [|reflexivity].
      apply seen_In in Es. apply (HS r Hr) in Es. congruence.
  - apply IH. intros r Hr. rewrite in_app_iff, filter_In, orb_true_iff.
    rewrite (HS r Hr). tauto.
Qed.

Lemma flat_map_map {A B C : Type} (f : A -> B) (h : B -> list C) (l : list A) :
  flat_map h (map f l) = flat_map (fun a => h (f a)) l.
Proof. induction l as [|a l IH]; simpl; [reflexivity | now rewrite IH]. Qed.

(** The filter result in grouped form. *)
Lemma filtered_rows_grouped (rows : list Row) :
  filtered_rows cfg rows
  = grouped (fun _ => false) (criteria cfg) (dedup_from [] rows).
Proof.
  rewrite <- (grouped_spec rows (criteria cfg) [] (fun _ => false))
    by (intros r _; simpl; split; [tauto | discriminate]).
  unfold filtered_rows, criteria. rewrite flat_map_app.
  destruct (truthy (labels_to_redact cfg));
    destruct (truthy (text_patterns_to_redact cfg)); simpl;
    rewrite ?dedup_inner, ?dedup_from_idem, ?flat_map_map, ?app_nil_r;
    reflexivity.
Qed.

End FilterOrder.

(* ================================================================== *)
(** * Dictionaries *)
(* ================================================================== *)

Section DictFacts.

Variables K V : Type.
Variable eqb : K -> K -> bool.
Hypothesis eqb_eq : forall a b, eqb a b = true <-> a = b.

Lemma eqb_refl_true (a : K) : eqb a a = true.
Proof. now apply eqb_eq. Qed.

Lemma dict_keys_set (k : K) (v : V) (d : dict K V) :
  forall x, In x (dict_keys (dict_set eqb k v d)) <-> x = k \/ In x (dict_keys d).
Proof.
  unfold dict_keys. induction d as [|[k' v'] d IH]; intros x; simpl.
  - intuition.
  - destruct (eqb k' k) eqn:E; simpl.
    + apply eqb_eq in E. subst. intuition.
    + rewrite IH. intuition.
Qed.

(** Assigning to a key already present keeps the keys and their order. *)
Lemma dict_keys_set_present (k : K) (v : V) (d : dict K V) :
  In k (dict_keys d) -> dict_keys (dict_set eqb k v d) = dict_keys d.
Proof.
  unfold dict_keys. induction d as [|[k' v'] d IH]; simpl; [tauto|].
  intros H. destruct (eqb k' k) eqn:E; simpl; [reflexivity|].
  f_equal. apply IH. destruct H as [-> | H]; [|exact H].
  rewrite eqb_refl_true in E. discriminate.
Qed.

Lemma dict_get_In (k : K) (d : dict K V) :
  In k (dict_keys d) <-> dict_get eqb k d <> None.
Proof.
  unfold dict_keys, dict_get. induction d as [|[k' v'] d IH]; simpl.
  - tauto.
  - destruct (eqb k' k) eqn:E.
    + apply eqb_eq in E. subst. split; [discriminate | now left].
    + rewrite <- IH. split; [|tauto].
      intros [-> | H]; [|exact H]. rewrite eqb_refl_true in E. discriminate.
Qed.

Lemma dict_get_set_same (k : K) (v : V) (d : dict K V) :
  dict_get eqb k (dict_set eqb k v d) = Some v.
Proof.
  unfold dict_get. induction d as [|[k' v'] d IH]; simpl.
  - now rewrite eqb_refl_true.
  - destruct (eqb k' k) eqn:E; simpl; rewrite E; [reflexivity | exact IH].
Qed.

Lemma dict_get_set_other (k k0 : K) (v : V) (d : dict K V) :
  k <> k0 -> dict_get eqb k (dict_set eqb k0 v d) = dict_get eqb k d.
Proof.
  intros Hne. unfold dict_get. induction d as [|[k' v'] d IH]; simpl.
  - destruct (eqb k0 k) eqn:E; [|reflexivity].
    apply eqb_eq in E. congruence.
  - destruct (eqb k' k0) eqn:E; simpl.
    + apply eqb_eq in E. subst k'.
      destruct (eqb k0 k) eqn:E'; [|reflexivity].
      apply eqb_eq in E'. congruence.
    + destruct (eqb k' k); [reflexivity | exact IH].
Qed.

(** Looking up by a test that one key at most passes. *)
Lemma dict_find_unique (is_key : K -> bool) (p : K) (d : dict K V) :
  is_key p = true ->
  (forall k, In k (dict_keys d) -> is_key k = true -> k = p) ->
  dict_find is_key d = dict_get eqb p d.
Proof.
  intros Hp. unfold dict_get, dict_keys.
  induction d as [|[k' v'] d IH]; simpl; intros Hu; [reflexivity|].
  destruct (is_key k') eqn:E.
  - rewrite (Hu k' (or_introl eq_refl) E), eqb_refl_true. reflexivity.
  - destruct (eqb k' p) eqn:E'.
    + apply eqb_eq in E'. congruence.
    + apply IH. intros k Hk. apply Hu. now right.
Qed.

Lemma dict_find_none (is_key : K -> bool) (d : dict K V) :
  (forall k, In k (dict_keys d) -> is_key k = false) ->
  dict_find is_key d = None.
Proof.
  unfold dict_keys. induction d as [|[k' v'] d IH]; simpl; intros H; [reflexivity|].
  rewrite (H k' (or_introl eq_refl)). apply IH. intros k Hk. apply H. now right.
Qed.

End DictFacts.

(* ================================================================== *)
(** * Derived file names *)
(* ================================================================== *)

Section Filenames.

Context {RE : ReEngine} {PID : PageIdType}.
Variable cfg : Config.

(** Either rule yields [stem + "+" + str(page_id) + ext] for a [stem] that
    starts [doc]; what is left of [doc] is empty or begins with a dot. *)
Lemma preload_filename_shape (doc : string) (p : PageId) :
  exists stem rest,
    preload_filename cfg doc p
    = (stem ++ "+" ++ pid_str p ++ img_extension cfg)%string
    /\ (stem ++ rest)%string = doc
    /\ (rest = ""%string \/ exists t, rest = String "."%char t).
Proof.
  unfold preload_filename.
  destruct (negb (Py.contains ".pdf" _)).
  - exists (fst (Py.splitext doc)), (snd (Py.splitext doc)).
    split; [reflexivity|]. split; [apply splitext_append | apply splitext_ext].
  - exists doc, ""%string. split; [reflexivity|].
    split; [apply append_nil_r | now left].
Qed.

(** Distinct page ids of one document get distinct file names. *)
Lemma preload_filename_inj (doc : string) (p q : PageId) :
  preload_filename cfg doc p = preload_filename cfg doc q -> p = q.
Proof.
  destruct (preload_filename_shape doc p) as (s1 & r1 & -> & D1 & R1).
  destruct (preload_filename_shape doc q) as (s2 & r2 & -> & D2 & R2).
  intros H.
  assert (E : (s1 ++ "+" ++ pid_str p = s2 ++ "+" ++ pid_str q)%string).
  { apply (append_inv_tail _ _ (img_extension cfg)).
    now rewrite !append_assoc. }
  assert (G : forall a b ra rb x y,
             (a ++ ra = b ++ rb)%string ->
             (ra = ""%string \/ exists t, ra = String "."%char t) ->
             (rb = ""%string \/ exists t, rb = String "."%char t) ->
             (a ++ String "+"%char x = b ++ String "+"%char y)%string ->
             x = y).
  { clear. induction a as [|c a IH]; intros [|d b] ra rb x y Hd Ha Hb He;
      simpl in *.
    - congruence.
    - injection He as <- He. subst ra.
      destruct Ha as [Ha | [t Ha]]; discriminate.
    - injection He as -> He. subst rb.
      destruct Hb as [Hb | [t Hb]]; discriminate.
    - injection He as <- He. injection Hd as Hd. eauto. }
  apply pid_str_inj.
  apply (G s1 s2 r1 r2); auto. congruence.
Qed.

Lemma prefix_char_head (a c : ascii) (s s' : string) :
  String.prefix (String a "") (String c s)
  = String.prefix (String a "") (String c s').
Proof.
  cbn [String.prefix]. destruct (ascii_dec a c); [|reflexivity].
  now destruct s, s'.
Qed.

Lemma prefix_slash_filename (doc : string) (p : PageId) :
  String.prefix "/" (preload_filename cfg doc p) = String.prefix "/" doc.
Proof.
  destruct (preload_filename_shape doc p) as (s & r & -> & <- & R).
  destruct s as [|c s].
  - destruct R as [-> | [t ->]]; reflexivity.
  - apply prefix_char_head.
Qed.

(** ... and distinct paths. *)
Lemma img_path_inj (doc : string) (p q : PageId) :
  img_path cfg doc p = img_path cfg doc q -> p = q.
Proof.
  unfold img_path, Py.path_join.
  rewrite !prefix_slash_filename. intros H.
  apply (preload_filename_inj doc).
  destruct (String.prefix "/" doc); [exact H|].
  destruct (_ || _).
  - now apply append_inv_head in H.
  - apply append_inv_head in H. now injection H.
Qed.

End Filenames.

(* ================================================================== *)
(** * The loops of [get_entities] *)
(* ================================================================== *)

Section Loops.

Context {RE : ReEngine} {PID : PageIdType}.
Variable cfg : Config.
Variable env : Env.

Lemma pid_eqb_refl (p : PageId) : pid_eqb p p = true.
Proof. now apply pid_eqb_eq. Qed.

Lemma processed_In (p : PageId) (processed : list PageId) :
  existsb (pid_eqb p) processed = true <-> In p processed.
Proof.
  rewrite existsb_exists. split.
  - intros (x & Hx & E). apply pid_eqb_eq in E. now subst.
  - intros H. exists p. split; [exact H | apply pid_eqb_refl].
Qed.

(** ** Identifiers *)

Lemma with_ids_page_ids (n : nat) (rows : list Row) :
  map page_id (with_ids env n rows) = map page_id rows.
Proof.
  revert n. induction rows as [|r rows IH]; intros n; simpl;
    [reflexivity | now rewrite IH].
Qed.

Lemma assign_ids_frame (rows : list Row) (w : World) :
  assign_ids env (Frame rows) w
  = ({| reads := reads w; uuids := uuids w + List.length rows |},
     Ok (Frame (with_ids env (uuids w) rows))).
Proof.
  unfold assign_ids, bind.
  assert (G : forall rows w,
             mapM (fun r => bind (uuid4_str env) (fun i => ret (set_id r i))) rows w
             = ({| reads := reads w; uuids := uuids w + List.length rows |},
                Ok (with_ids env (uuids w) rows))).
  { clear. induction rows as [|r rows IH]; intros [rd n]; simpl.
    - unfold ret. now rewrite Nat.add_0_r.
    - unfold bind at 1. unfold bind at 1. unfold uuid4_str at 1, ret at 1.
      simpl. unfold bind. rewrite IH. simpl. unfold ret.
      now rewrite Nat.add_succ_r. }
  rewrite G. reflexivity.
Qed.

(** ** Pre-loading *)

Lemma preload_run (doc : string) (rows : list Row) :
  forall (st : Images * list PageId) (w : World),
    foldM (preload_row cfg env doc) st rows w
    = ({| reads := reads w ++ preload_reads cfg env doc (snd st) rows;
          uuids := uuids w |},
       Ok (fold_left (preload_step cfg env doc) rows st)).
Proof.
  induction rows as [|r rows IH]; intros [images processed] [rd n]; simpl.
  - unfold ret. now rewrite app_nil_r.
  - unfold bind at 1. unfold preload_row, preload_step, loadable. simpl.
    destruct (existsb (pid_eqb (page_id r)) processed); simpl.
    + unfold ret at 1. rewrite IH. reflexivity.
    + unfold bind at 1, cv2_imread. simpl. fold (img_path cfg doc (page_id r)).
      destruct (imread env (img_path cfg doc (page_id r))); unfold ret at 1;
        rewrite IH; simpl; now rewrite <- app_assoc.
Qed.

Lemma preload_step_processed (doc : string) (st : Images * list PageId)
    (row : Row) (p : PageId) :
  In p (snd (preload_step cfg env doc st row))
  <-> In p (snd st) \/ (page_id row = p /\ loadable cfg env doc p = true).
Proof.
  unfold preload_step, loadable.
  destruct (existsb (pid_eqb (page_id row)) (snd st)) eqn:E.
  - apply processed_In in E. split; [tauto|]. intros [H | [<- _]]; assumption.
  - destruct (imread env (img_path cfg doc (page_id row))) eqn:Ei; simpl.
    + split.
      * intros [<- | H]; [right | now left]. now rewrite Ei.
      * intros [H | [H _]]; tauto.
    + split; [tauto|]. intros [H | [<- H]]; [exact H|].
      rewrite Ei in H. discriminate.
Qed.

Lemma preload_step_keys (doc : string) (st : Images * list PageId) (row : Row) :
  keys_follow cfg doc st -> keys_follow cfg doc (preload_step cfg env doc st row).
Proof.
  unfold keys_follow, preload_step. intros H k.
  destruct (existsb (pid_eqb (page_id row)) (snd st)); [apply H|].
  destruct (imread env (img_path cfg doc (page_id row))); [|apply H].
  simpl. rewrite (dict_keys_set _ _ String.eqb String.eqb_eq), H. split.
  - intros [-> | (p & Hp & ->)]; eauto.
  - intros (p & [<- | Hp] & ->); eauto.
Qed.

Lemma preload_fold_inv (doc : string) (rows : list Row) :
  forall st,
    keys_follow cfg doc st ->
    keys_follow cfg doc (fold_left (preload_step cfg env doc) rows st)
    /\ forall p, In p (snd (fold_left (preload_step cfg env doc) rows st))
                 <-> In p (snd st)
                     \/ exists r, In r rows /\ page_id r = p
                                  /\ loadable cfg env doc p = true.
Proof.
  induction rows as [|r rows IH]; intros st H; simpl.
  - split; [exact H|]. intros p. split; [tauto|].
    intros [Hp | (x & [] & _)]. exact Hp.
  - destruct (IH _ (preload_step_keys doc st r H)) as [Hk Hp].
    split; [exact Hk|]. intros p. rewrite Hp, preload_step_processed. split.
    + intros [[Hs | [E L]] | (x & Hx & E & L)]; eauto 7.
    + intros [Hs | (x & [<- | Hx] & E & L)]; eauto 7.
Qed.

(** A file name is a key of the cache exactly when some row of the table
    names its page and the file could be read. *)
Lemma preloaded_keys (doc : string) (rows : list Row) (p : PageId) :
  In (preload_filename cfg doc p) (dict_keys (fst (preloaded cfg env doc rows)))
  <-> (exists r, In r rows /\ page_id r = p) /\ loadable cfg env doc p = true.
Proof.
  destruct (preload_fold_inv doc rows ([], [])) as [Hk Hp].
  { intros k. simpl. split; [tauto | intros (q & [] & _)]. }
  unfold preloaded. split.
  - intros H. apply Hk in H. destruct H as (q & Hq & E).
    apply preload_filename_inj in E. subst q.
    apply Hp in Hq. destruct Hq as [[] | (r & Hr & E & L)]. eauto.
  - intros [(r & Hr & E) L]. apply Hk. exists p. split; [|reflexivity].
    apply Hp. right. eauto.
Qed.

(** Every key of the cache is the file name of a page of the table. *)
Lemma preloaded_keys_inv (doc : string) (rows : list Row) (k : string) :
  In k (dict_keys (fst (preloaded cfg env doc rows))) ->
  exists r, In r rows /\ k = preload_filename cfg doc (page_id r)
            /\ loadable cfg env doc (page_id r) = true.
Proof.
  destruct (preload_fold_inv doc rows ([], [])) as [Hk Hp].
  { intros x. simpl. split; [tauto | intros (q & [] & _)]. }
  unfold preloaded. intros H. apply Hk in H. destruct H as (q & Hq & ->).
  apply Hp in Hq. destruct Hq as [[] | (r & Hr & <- & L)]. eauto.
Qed.

(** ** Redaction *)

Lemma has_key_In (k : string) (images : Images) :
  has_key k images = true <-> In k (dict_keys images).
Proof.
  unfold has_key. rewrite existsb_exists. split.
  - intros (x & Hx & E). apply String.eqb_eq in E. now subst.
  - intros H. exists k. split; [exact H | apply String.eqb_refl].
Qed.

Lemma has_key_get (k : string) (images : Images) :
  has_key k images = true <-> dict_get String.eqb k images <> None.
Proof.
  rewrite has_key_In. apply (dict_get_In _ _ String.eqb String.eqb_eq).
Qed.

Lemma redact_image_keys (doc : string) (images : Images) (r : Row) :
  dict_keys (redact_image cfg doc images r) = dict_keys images.
Proof.
  unfold redact_image.
  destruct (dict_get String.eqb (redact_filename cfg doc r) images) eqn:E;
    [|reflexivity].
  apply (dict_keys_set_present _ _ String.eqb String.eqb_eq).
  apply (dict_get_In _ _ String.eqb String.eqb_eq). congruence.
Qed.

Lemma redact_images_keys (doc : string) (rows : list Row) (images : Images) :
  dict_keys (fold_left (redact_image cfg doc) rows images) = dict_keys images.
Proof.
  revert images. induction rows as [|r rows IH]; intros images; simpl;
    [reflexivity|].
  now rewrite IH, redact_image_keys.
Qed.

Lemma first_fault_keys (doc : string) (rows : list Row) (a b : Images) :
  dict_keys a = dict_keys b -> first_fault cfg doc a rows = first_fault cfg doc b rows.
Proof.
  intros E. induction rows as [|r rows IH]; simpl; [reflexivity|].
  unfold has_key. now rewrite E, IH.
Qed.

Lemma redact_region_eq (im : Image) (x0 y0 x1 y1 : Z) :
  redact_region im x0 y0 x1 y1
  = if in_c_int x0 && in_c_int y0 && in_c_int x1 && in_c_int y1
    then Ok (fill_rectangle im x0 y0 x1 y1)
    else Raise Cv2Error.
Proof.
  unfold redact_region, cv2_rectangle. cbn [fst snd].
  now destruct (in_c_int x0 && in_c_int y0 && in_c_int x1 && in_c_int y1).
Qed.

Lemma redact_region_drawable (im : Image) (r : Row) :
  redact_region im (xmin r) (ymin r) (xmax r) (ymax r)
  = if drawable r
    then Ok (fill_rectangle im (xmin r) (ymin r) (xmax r) (ymax r))
    else Raise Cv2Error.
Proof. apply redact_region_eq. Qed.

(** The redaction loop: it stops at the first row whose page is missing
    from the cache ([KeyError]) or whose rectangle [cv2.rectangle] refuses
    ([cv2.error]), and reads no file. *)
Lemma redact_run (doc : string) (rows : list Row) :
  forall (images : Images) (texts : Texts) (w : World),
    foldM (redact_row cfg doc) (images, texts) rows w
    = (w, match first_fault cfg doc images rows with
          | Some e => Raise e
          | None => Ok (fold_left (redact_image cfg doc) rows images,
                        fold_left add_text rows texts)
          end).
Proof.
  induction rows as [|r rows IH]; intros images texts w; simpl; [reflexivity|].
  unfold bind at 1. unfold redact_row at 1.
  destruct (has_key (redact_filename cfg doc r) images) eqn:Hk.
  - pose proof (proj1 (has_key_get _ _) Hk) as Hg.
    destruct (dict_get String.eqb (redact_filename cfg doc r) images) as [im|] eqn:Eg;
      [|congruence].
    rewrite redact_region_drawable.
    destruct (drawable r) eqn:Hd; [|reflexivity].
    assert (Ei : redact_image cfg doc images r
                 = dict_set String.eqb (redact_filename cfg doc r)
                     (fill_rectangle im (xmin r) (ymin r) (xmax r) (ymax r)) images)
      by (unfold redact_image; now rewrite Eg).
    assert (Ek : first_fault cfg doc (redact_image cfg doc images r) rows
                 = first_fault cfg doc images rows)
      by (apply first_fault_keys, redact_image_keys).
    unfold add_text.
    destruct (dict_get pid_eqb (page_id r) texts); unfold ret at 1;
      rewrite IH, <- Ei, Ek; reflexivity.
  - assert (Eg : dict_get String.eqb (redact_filename cfg doc r) images = None).
    { destruct (dict_get String.eqb (redact_filename cfg doc r) images) eqn:E;
        [|reflexivity].
      assert (has_key (redact_filename cfg doc r) images = true)
        by (apply has_key_get; congruence).
      congruence. }
    rewrite Eg. reflexivity.
Qed.

Lemma first_missing_none (doc : string) (images : Images) (rows : list Row) :
  first_missing cfg doc images rows = None
  <-> forall r, In r rows -> In (redact_filename cfg doc r) (dict_keys images).
Proof.
  induction rows as [|r rows IH]; simpl.
  - split; [intros _ x [] | reflexivity].
  - destruct (has_key (redact_filename cfg doc r) images) eqn:Hk.
    + apply has_key_In in Hk. rewrite IH. split.
      * intros H x [<- | Hx]; auto.
      * intros H x Hx. apply H. now right.
    + split; [discriminate|]. intros H.
      assert (has_key (redact_filename cfg doc r) images = true)
        by (apply has_key_In, H; now left).
      congruence.
Qed.

(** The loop goes through exactly when every row finds its page in the
    cache and has a rectangle that can be drawn. *)
Lemma first_fault_none (doc : string) (images : Images) (rows : list Row) :
  first_fault cfg doc images rows = None
  <-> forall r, In r rows ->
        In (redact_filename cfg doc r) (dict_keys images) /\ drawable r = true.
Proof.
  induction rows as [|r rows IH]; simpl.
  - split; [intros _ x [] | reflexivity].
  - destruct (has_key (redact_filename cfg doc r) images) eqn:Hk.
    + destruct (drawable r) eqn:Hd.
      * apply has_key_In in Hk. rewrite IH. split.
        -- intros H x [<- | Hx]; auto.
        -- intros H x Hx. apply H. now right.
      * split; [discriminate|]. intros H.
        destruct (H r (or_introl eq_refl)) as [_ H']. congruence.
    + split; [discriminate|]. intros H.
      assert (has_key (redact_filename cfg doc r) images = true)
        by (apply has_key_In, H; now left).
      congruence.
Qed.

Lemma first_fault_missing (doc : string) (images : Images) (rows : list Row) :
  first_fault cfg doc images rows = None ->
  first_missing cfg doc images rows = None.
Proof.
  intros H. apply first_missing_none. intros r Hr.
  now apply (proj1 (first_fault_none doc images rows) H).
Qed.

(** The exception the loop stops with names the row it stopped at. *)
Lemma first_fault_some (doc : string) (images : Images) (rows : list Row)
    (e : exn) :
  first_fault cfg doc images rows = Some e ->
  (exists r, In r rows /\ ~ In (redact_filename cfg doc r) (dict_keys images)
             /\ e = KeyError (redact_filename cfg doc r))
  \/ (e = Cv2Error
      /\ exists r, In r rows /\ In (redact_filename cfg doc r) (dict_keys images)
                   /\ drawable r = false).
Proof.
  induction rows as [|r rows IH]; simpl; [discriminate|].
  destruct (has_key (redact_filename cfg doc r) images) eqn:Hk.
  - destruct (drawable r) eqn:Hd.
    + intros H. destruct (IH H) as [(x & Hx & Hn & E) | (E & x & Hx & Hi & Hd')].
      * left. eauto 6.
      * right. split; [exact E|]. eauto 6.
    + intros [= <-]. right. split; [reflexivity|].
      exists r. apply has_key_In in Hk. auto.
  - intros [= <-]. left. exists r. split; [now left|]. split; [|reflexivity].
    intros Hin. apply has_key_In in Hin. congruence.
Qed.

End Loops.

(* ================================================================== *)
(** * The text map *)
(* ================================================================== *)

Section TextMap.

Context {RE : ReEngine} {PID : PageIdType}.

Lemma join_snoc (sep : string) (ts : list string) (t : string) :
  ts <> [] ->
  Py.join sep (ts ++ [t]) = (Py.join sep ts ++ sep ++ t)%string.
Proof.
  unfold Py.join. induction ts as [|x ts IH]; intros H; [congruence|].
  destruct ts as [|y ts]; [reflexivity|].
  change (String.concat sep ((x :: y :: ts) ++ [t]))
    with (x ++ sep ++ String.concat sep ((y :: ts) ++ [t]))%string.
  rewrite IH by discriminate.
  change (String.concat sep (x :: y :: ts))
    with (x ++ sep ++ String.concat sep (y :: ts))%string.
  now rewrite !append_assoc.
Qed.

Lemma page_texts_app (p : PageId) (a b : list Row) :
  page_texts p (a ++ b) = page_texts p a ++ page_texts p b.
Proof. unfold page_texts. now rewrite filter_app, map_app. Qed.

Lemma add_text_entry (texts : Texts) (done : list Row) (r : Row) :
  (forall p, dict_get pid_eqb p texts = text_entry p done) ->
  forall p, dict_get pid_eqb p (add_text texts r) = text_entry p (done ++ [r]).
Proof.
  intros H p. unfold add_text, text_entry. rewrite page_texts_app.
  unfold page_texts at 2. simpl.
  destruct (pid_eqb (page_id r) p) eqn:E.
  - apply pid_eqb_eq in E. subst p. rewrite (H (page_id r)). unfold text_entry.
    destruct (page_texts (page_id r) done) as [|t ts] eqn:Et; simpl.
    + apply (dict_get_set_same _ _ pid_eqb pid_eqb_eq).
    + rewrite (dict_get_set_same _ _ pid_eqb pid_eqb_eq). f_equal.
      symmetry. apply (join_snoc " | " (t :: ts)). discriminate.
  - simpl. rewrite app_nil_r.
    assert (Hne : p <> page_id r).
    { intros ->. rewrite pid_eqb_refl in E. discriminate. }
    destruct (dict_get pid_eqb (page_id r) texts);
      rewrite (dict_get_set_other _ _ pid_eqb pid_eqb_eq) by exact Hne;
      apply H.
Qed.

Lemma texts_fold (rows : list Row) :
  forall (done : list Row) (texts : Texts),
    (forall p, dict_get pid_eqb p texts = text_entry p done) ->
    forall p, dict_get pid_eqb p (fold_left add_text rows texts)
              = text_entry p (done ++ rows).
Proof.
  induction rows as [|r rows IH]; intros done texts H p; simpl.
  - now rewrite app_nil_r.
  - rewrite (IH (done ++ [r]) (add_text texts r)).
    + now rewrite <- app_assoc.
    + now apply add_text_entry.
Qed.

Lemma text_entry_some (p : PageId) (rows : list Row) :
  text_entry p rows <> None -> exists r, In r rows /\ page_id r = p.
Proof.
  unfold text_entry, page_texts.
  destruct (filter (fun r => pid_eqb (page_id r) p) rows) as [|r l] eqn:E;
    [simpl; congruence|].
  intros _. assert (Hr : In r (filter (fun r => pid_eqb (page_id r) p) rows))
    by (rewrite E; now left).
  apply filter_In in Hr. destruct Hr as [Hr Hp]. apply pid_eqb_eq in Hp. eauto.
Qed.

Lemma filter_none {A : Type} (f : A -> bool) (l : list A) :
  (forall x, In x l -> f x = false) -> filter f l = [].
Proof.
  induction l as [|a l IH]; intros H; simpl; [reflexivity|].
  rewrite (H a (or_introl eq_refl)). apply IH. intros x Hx. apply H. now right.
Qed.

(** What the bundle builder finds under a page index. *)
Lemma lookup_text_spec (texts : Texts) (rows : list Row) (s : string) :
  (forall p, dict_get pid_eqb p texts = text_entry p rows) ->
  lookup_text texts s = Py.join " | " (texts_for s rows).
Proof.
  intros H. unfold lookup_text, texts_for.
  destruct (existsb (fun r => pid_eq_str (page_id r) s) rows) eqn:Ex.
  - apply existsb_exists in Ex. destruct Ex as (r0 & Hr0 & Hs0).
    set (p := page_id r0) in *.
    assert (Ef : filter (fun r => pid_eq_str (page_id r) s) rows
                 = filter (fun r => pid_eqb (page_id r) p) rows).
    { apply filter_ext. intros r.
      destruct (pid_eq_str (page_id r) s) eqn:E1.
      - symmetry. apply pid_eqb_eq. exact (pid_eq_str_inj _ _ _ E1 Hs0).
      - destruct (pid_eqb (page_id r) p) eqn:E2; [|reflexivity].
        apply pid_eqb_eq in E2. congruence. }
    rewrite Ef.
    rewrite (dict_find_unique _ _ pid_eqb pid_eqb_eq _ p texts Hs0).
    + rewrite H. unfold text_entry, page_texts.
      destruct (filter (fun r => pid_eqb (page_id r) p) rows) as [|x l] eqn:E;
        [|reflexivity].
      assert (Hin : In r0 (filter (fun r => pid_eqb (page_id r) p) rows)).
      { apply filter_In. split; [exact Hr0 | apply pid_eqb_refl]. }
      rewrite E in Hin. destruct Hin.
    + intros k _ Hk. exact (pid_eq_str_inj _ _ _ Hk Hs0).
  - assert (Hno : forall r, In r rows -> pid_eq_str (page_id r) s = false).
    { intros r Hr. destruct (pid_eq_str (page_id r) s) eqn:E; [|reflexivity].
      assert (existsb (fun r => pid_eq_str (page_id r) s) rows = true)
        by (apply existsb_exists; eauto).
      congruence. }
    rewrite dict_find_none.
    + now rewrite (filter_none _ rows Hno).
    + intros k Hk. apply (dict_get_In _ _ pid_eqb pid_eqb_eq) in Hk.
      rewrite H in Hk. apply text_entry_some in Hk.
      destruct Hk as (r & Hr & <-). auto.
Qed.

End TextMap.

(* ================================================================== *)
(** * One document, then all of them *)
(* ================================================================== *)

Section Run.

Context {RE : ReEngine} {PID : PageIdType}.
Variable cfg : Config.
Variable env : Env.

Lemma preload_step_ids (doc : string) (st : Images * list PageId) (r : Row)
    (i : string) :
  preload_step cfg env doc st (set_id r i) = preload_step cfg env doc st r.
Proof. reflexivity. Qed.

Lemma preloaded_ids (doc : string) (n : nat) (rows : list Row) :
  preloaded cfg env doc (with_ids env n rows) = preloaded cfg env doc rows.
Proof.
  unfold preloaded. generalize (@nil (string * Image), @nil PageId).
  revert n. induction rows as [|r rows IH]; intros n st; simpl;
    [reflexivity | now rewrite IH].
Qed.

Lemma preload_reads_ids (doc : string) (n : nat) (rows : list Row) :
  forall processed,
    preload_reads cfg env doc processed (with_ids env n rows)
    = preload_reads cfg env doc processed rows.
Proof.
  revert n. induction rows as [|r rows IH]; intros n processed; simpl;
    [reflexivity | now rewrite !IH].
Qed.


Lemma with_ids_inv (n : nat) (rows : list Row) (r' : Row) :
  In r' (with_ids env n rows) -> exists r i, In r rows /\ r' = set_id r i.
Proof.
  revert n. induction rows as [|x rows IH]; intros n; simpl; [tauto|].
  intros [<- | H]; [eauto|]. destruct (IH (S n) H) as (r & i & Hr & E). eauto.
Qed.

(** One iteration of the loop over [docs], written out. *)
Lemma process_doc_frame (st : Images * Texts) (doc : string) (rows : list Row)
    (w : World) :
  process_doc cfg env st (doc, Frame rows) w
  = (after_preload cfg env doc rows w,
     match filtered_of cfg (stripped (with_ids env (uuids w) rows)) with
     | Raise e => Raise e
     | Ok f =>
         match first_fault cfg doc (fst (preloaded cfg env doc rows)) (iterrows f) with
         | Some e => Raise e
         | None =>
             Ok (fold_left (redact_image cfg doc) (iterrows f)
                   (fst (preloaded cfg env doc rows)),
                 fold_left add_text (iterrows f) (snd st))
         end
     end).
Proof.
  unfold process_doc. unfold bind at 1. rewrite assign_ids_frame.
  unfold bind at 1. cbn [iterrows]. rewrite preload_run.
  cbn [reads uuids snd]. rewrite preload_reads_ids.
  fold (preloaded cfg env doc (with_ids env (uuids w) rows)).
  rewrite preloaded_ids. unfold bind at 1, lift.
  cbn [get_filtered_predictions snd]. fold (stripped (with_ids env (uuids w) rows)).
  unfold after_preload.
  destruct (filtered_of cfg (stripped (with_ids env (uuids w) rows))) as [f|e];
    [|reflexivity].
  now rewrite redact_run.
Qed.

Lemma process_doc_nocolumns (st : Images * Texts) (doc : string) (w : World) :
  process_doc cfg env st (doc, NoColumns) w = (w, Raise (KeyError "label")).
Proof. reflexivity. Qed.

Lemma foldM_app {A S : Type} (f : S -> A -> M S) (a b : list A) (s : S) (w : World) :
  foldM f s (a ++ b) w = bind (foldM f s a) (fun s' => foldM f s' b) w.
Proof.
  revert s w. induction a as [|x a IH]; intros s w; simpl.
  - unfold bind, ret. reflexivity.
  - unfold bind in *. destruct (f s x w) as [w1 [s1|e]];
      [apply IH | reflexivity].
Qed.

(** A successful run over [prev ++ [(doc, df)]]: the run over [prev]
    succeeded, [df] has columns, the filter returned, and the final state
    is the one built for [doc]. *)
Lemma run_docs_last (prev : list (string * DataFrame)) (doc : string)
    (df : DataFrame) (w w' : World) (images : Images) (texts : Texts) :
  run_docs cfg env (prev ++ [(doc, df)]) w = (w', Ok (images, texts)) ->
  exists w1 st_prev rows,
    run_docs cfg env prev w = (w1, Ok st_prev)
    /\ df = Frame rows
    /\ w' = after_preload cfg env doc rows w1
    /\ patterns_compile cfg
    /\ first_missing cfg doc (fst (preloaded cfg env doc rows))
         (redacted_rows cfg env (uuids w1) rows) = None
    /\ images = fold_left (redact_image cfg doc) (redacted_rows cfg env (uuids w1) rows)
                  (fst (preloaded cfg env doc rows))
    /\ texts = fold_left add_text (redacted_rows cfg env (uuids w1) rows) (snd st_prev).
Proof.
  unfold run_docs. rewrite foldM_app. unfold bind.
  destruct (foldM (process_doc cfg env) ([], []) prev w) as [w1 [st_prev|e]];
    [|discriminate].
  cbn [foldM]. unfold bind.
  destruct df as [|rows]; [rewrite process_doc_nocolumns; discriminate|].
  rewrite process_doc_frame.
  destruct (filtered_of cfg (stripped (with_ids env (uuids w1) rows))) as [f|e] eqn:Ef;
    [|discriminate].
  destruct (first_fault cfg doc _ (iterrows f)) eqn:Em; [discriminate|].
  apply first_fault_missing in Em.
  unfold ret. intros [= <- <- <-].
  exists w1, st_prev, rows. unfold redacted_rows.
  rewrite <- (filtered_of_rows cfg _ f Ef).
  repeat split; try reflexivity; try assumption.
  eapply filtered_of_inv; eauto.
Qed.

Lemma rmapM_Forall2 {A B : Type} (f : A -> result B) (l : list A) (bs : list B) :
  rmapM f l = Ok bs -> Forall2 (fun a b => f a = Ok b) l bs.
Proof.
  revert bs. induction l as [|a l IH]; intros bs; simpl.
  - intros [= <-]. constructor.
  - destruct (f a) as [b|e] eqn:E; simpl; [|discriminate].
    destruct (rmapM f l) as [bs'|e]; simpl; [|discriminate].
    intros [= <-]. constructor; auto.
Qed.

(** What a bundle is made of. *)
Lemma make_bundle_inv (texts : Texts) (k : string) (im : Image) (b : CustomEntity) :
  make_bundle cfg env texts (k, im) = Ok b ->
  page_index_of cfg k = Ok (pageIndex b)
  /\ redactedData b = lookup_text texts (pageIndex b)
  /\ image b = imencode_b64 env im.
Proof.
  unfold make_bundle. destruct (page_index_of cfg k) as [s|e]; simpl;
    [|discriminate].
  intros [= <-]. simpl. auto.
Qed.

(** A run that returns went through the loop over [docs] and built one
    bundle per entry of the final cache, in order. *)
Lemma get_entities_inv (docs : list (string * DataFrame)) (w w' : World)
    (bundles : list CustomEntity) :
  has_labelling_model cfg = true ->
  get_entities cfg env docs w = (w', Ok bundles) ->
  exists images texts,
    run_docs cfg env docs w = (w', Ok (images, texts))
    /\ Forall2 (fun item b => make_bundle cfg env texts item = Ok b) images bundles.
Proof.
  unfold get_entities. intros ->. cbn [negb]. unfold bind, lift.
  destruct (run_docs cfg env docs w) as [w1 [[images texts]|e]]; [|discriminate].
  cbn [fst snd]. intros [= <- H]. exists images, texts. split; [reflexivity|].
  now apply rmapM_Forall2.
Qed.

End Run.

(* ================================================================== *)
(** * Page index extraction *)
(* ================================================================== *)

Section PageIndex.

Context {RE : ReEngine} {PID : PageIdType}.
Variable cfg : Config.

Lemma occurs_append (c : ascii) (a b : string) :
  occurs c (a ++ b) = occurs c a || occurs c b.
Proof.
  induction a as [|x a IH]; simpl; [reflexivity|].
  now rewrite IH, orb_assoc.
Qed.

Lemma prefix_append (sep t : string) : String.prefix sep (sep ++ t) = true.
Proof.
  induction sep as [|a sep IH]; [now destruct t|].
  cbn [String.prefix String.append].
  destruct (ascii_dec a a); [exact IH | congruence].
Qed.

Lemma prefix_head_neq (c0 x : ascii) (sep' s : string) :
  Ascii.eqb x c0 = false -> String.prefix (String c0 sep') (String x s) = false.
Proof.
  intros H. cbn [String.prefix].
  destruct (ascii_dec c0 x) as [E | E]; [|reflexivity].
  subst. rewrite Ascii.eqb_refl in H. discriminate.
Qed.

Lemma split_from_skip (sep a t cur : string) :
  Py.split_from sep (a ++ t) (String.length a) cur = Py.split_from sep t 0 cur.
Proof. induction a as [|x a IH]; [reflexivity | exact IH]. Qed.

(** Up to the first separator, when its first character does not occur
    before. *)
Lemma split_from_first (c0 : ascii) (sep' s t : string) :
  occurs c0 s = false ->
  forall cur,
    Py.split_from (String c0 sep') (s ++ String c0 sep' ++ t) 0 cur
    = (cur ++ s)%string :: Py.split_from (String c0 sep') t 0 "".
Proof.
  induction s as [|x s IH]; intros Ho cur.
  - change ("" ++ String c0 sep' ++ t)%string with (String c0 (sep' ++ t)).
    cbn [Py.split_from].
    change (String c0 (sep' ++ t)) with (String c0 sep' ++ t)%string.
    rewrite prefix_append, append_nil_r.
    cbn [String.length]. rewrite Nat.sub_succ, Nat.sub_0_r.
    now rewrite split_from_skip.
  - cbn [occurs] in Ho. apply orb_false_iff in Ho. destruct Ho as [Hx Ho].
    change (String x s ++ String c0 sep' ++ t)%string
      with (String x (s ++ String c0 sep' ++ t)).
    cbn [Py.split_from]. rewrite (prefix_head_neq c0 x sep' _ Hx).
    rewrite (IH Ho). now rewrite append_assoc.
Qed.

Lemma split_from_none (c0 : ascii) (sep' s : string) :
  occurs c0 s = false ->
  forall cur, Py.split_from (String c0 sep') s 0 cur = [(cur ++ s)%string].
Proof.
  induction s as [|x s IH]; intros Ho cur.
  - now rewrite append_nil_r.
  - cbn [occurs] in Ho. apply orb_false_iff in Ho. destruct Ho as [Hx Ho].
    cbn [Py.split_from]. rewrite (prefix_head_neq c0 x sep' _ Hx).
    rewrite (IH Ho). now rewrite append_assoc.
Qed.

(** The page index read off a file name is [str(page_id)] when the
    document id and [str(page_id)] followed by the extension hold no
    ["+"], and the first character of the extension (its dot) does not
    occur in [str(page_id)]. *)
Lemma page_index_of_preload_filename (doc : string) (p : PageId)
    (c0 : ascii) (e' : string) :
  img_extension cfg = String c0 e' ->
  occurs "+" doc = false ->
  occurs "+" (pid_str p ++ img_extension cfg) = false ->
  occurs c0 (pid_str p) = false ->
  page_index_of cfg (preload_filename cfg doc p) = Ok (pid_str p).
Proof.
  intros He Hd Hp Hc.
  destruct (preload_filename_shape cfg doc p) as (stem & rest & -> & <- & _).
  rewrite occurs_append in Hd. apply orb_false_iff in Hd. destruct Hd as [Hs _].
  unfold page_index_of, py_split. cbn [String.eqb rbind].
  change (stem ++ "+" ++ pid_str p ++ img_extension cfg)%string
    with (stem ++ String "+" "" ++ (pid_str p ++ img_extension cfg))%string.
  rewrite (split_from_first "+" "" stem _ Hs).
  rewrite (split_from_none "+" "" _ Hp).
  cbn [py_index nth_error rbind String.append].
  rewrite He. cbn [String.eqb rbind].
  replace (pid_str p ++ String c0 e')%string
    with (pid_str p ++ String c0 e' ++ "")%string
    by (now rewrite (append_nil_r (String c0 e'))).
  rewrite (split_from_first c0 e' (pid_str p) "" Hc).
  reflexivity.
Qed.

End PageIndex.

(* ================================================================== *)
(** * Properties of the bundles *)
(* ================================================================== *)

Section Bundles.

Context {RE : ReEngine} {PID : PageIdType}.
Variable cfg : Config.
Variable env : Env.

Lemma Forall2_In_r {A B : Type} (R : A -> B -> Prop) (l : list A) (bs : list B) :
  Forall2 R l bs -> forall b, In b bs -> exists a, In a l /\ R a b.
Proof.
  induction 1 as [|a b l bs HR _ IH]; intros x; simpl; [tauto|].
  intros [<- | Hx]; [eauto|]. destruct (IH x Hx) as (y & Hy & Ry). eauto.
Qed.

Lemma Forall2_In_l {A B : Type} (R : A -> B -> Prop) (l : list A) (bs : list B) :
  Forall2 R l bs -> forall a, In a l -> exists b, In b bs /\ R a b.
Proof.
  induction 1 as [|a b l bs HR _ IH]; intros x; simpl; [tauto|].
  intros [<- | Hx]; [eauto|]. destruct (IH x Hx) as (y & Hy & Ry). eauto.
Qed.

Lemma dict_keys_In {V : Type} (k : string) (d : dict string V) :
  In k (dict_keys d) <-> exists v, In (k, v) d.
Proof.
  unfold dict_keys. rewrite in_map_iff. split.
  - intros ([k' v] & E & H). simpl in E. subst. eauto.
  - intros [v H]. exists (k, v). auto.
Qed.

Lemma run_docs_nil (w : World) :
  run_docs cfg env [] w = (w, Ok ([], [])).
Proof. reflexivity. Qed.

(** [C1] For the document whose cache is live when the bundles are built
    (the last key of [docs], the only one in a per-document call), on a
    run that returns: one bundle is built from each entry of the cache, in
    cache order; the file name of a page is a key of the cache iff some
    row of the full table carries its page id and [cv2.imread] returned an
    image for its file; and, for page ids that the page-index extraction
    recovers from their file name, a page has a bundle (a bundle whose
    [pageIndex] is its page id) iff its file name is a key of the cache. *)
Theorem C1_bundle_iff_cached_iff_loaded
    (prev : list (string * DataFrame)) (doc : string) (df : DataFrame)
    (w w' : World) (bundles : list CustomEntity) :
  has_labelling_model cfg = true ->
  get_entities cfg env (prev ++ [(doc, df)]) w = (w', Ok bundles) ->
  exists cache texts,
    run_docs cfg env (prev ++ [(doc, df)]) w = (w', Ok (cache, texts))
    /\ Forall2 (fun item b => make_bundle cfg env texts item = Ok b) cache bundles
    /\ (forall p,
          In (preload_filename cfg doc p) (dict_keys cache)
          <-> (exists r, In r (iterrows df) /\ page_id r = p)
              /\ loadable cfg env doc p = true)
    /\ ((forall r, In r (iterrows df) ->
                   page_index_of cfg (preload_filename cfg doc (page_id r))
                   = Ok (pid_str (page_id r))) ->
        forall p,
          In (pid_str p) (map pageIndex bundles)
          <-> In (preload_filename cfg doc p) (dict_keys cache)).
Proof.
  intros Hm Hrun.
  destruct (get_entities_inv cfg env _ w w' bundles Hm Hrun)
    as (cache & texts & Hdocs & HF).
  exists cache, texts. split; [exact Hdocs|]. split; [exact HF|].
  destruct (run_docs_last cfg env prev doc df w w' cache texts Hdocs)
    as (w1 & st_prev & rows & _ & -> & _ & _ & _ & Hc & _).
  cbn [iterrows] in *.
  assert (Hk : dict_keys cache = dict_keys (fst (preloaded cfg env doc rows)))
    by (rewrite Hc; apply redact_images_keys).
  assert (Hload : forall p,
             In (preload_filename cfg doc p) (dict_keys cache)
             <-> (exists r, In r rows /\ page_id r = p)
                 /\ loadable cfg env doc p = true)
    by (intros p; rewrite Hk; apply preloaded_keys).
  split; [exact Hload|]. intros Hidx p. split.
  - intros Hin. apply in_map_iff in Hin. destruct Hin as (b & Eb & Hb).
    destruct (Forall2_In_r _ _ _ HF b Hb) as ([k im] & Hitem & Hmk).
    apply make_bundle_inv in Hmk. destruct Hmk as (Hpi & _ & _).
    assert (Hkin : In k (dict_keys cache)) by (apply dict_keys_In; eauto).
    pose proof Hkin as Hpre. rewrite Hk in Hpre.
    apply preloaded_keys_inv in Hpre. destruct Hpre as (r & Hr & -> & _).
    rewrite (Hidx r Hr), Eb in Hpi. injection Hpi as Hpi.
    apply pid_str_inj in Hpi. now subst p.
  - intros Hin. pose proof (proj1 (Hload p) Hin) as [(r & Hr & <-) _].
    apply dict_keys_In in Hin. destruct Hin as [im Him].
    destruct (Forall2_In_l _ _ _ HF _ Him) as (b & Hb & Hmk).
    apply make_bundle_inv in Hmk. destruct Hmk as (Hpi & _ & _).
    rewrite (Hidx r Hr) in Hpi. injection Hpi as Hpi.
    apply in_map_iff. exists b. split; [now symmetry | exact Hb].
Qed.

Lemma get_entities_no_model (docs : list (string * DataFrame)) (w : World) :
  has_labelling_model cfg = false -> get_entities cfg env docs w = (w, Ok []).
Proof. unfold get_entities. now intros ->. Qed.

(** [C6] The file name computed for a page in the pre-loading loop is the
    cache key computed for a row of that page in the redaction loop; hence
    the key of a row whose page was pre-loaded is found in the cache. *)
Theorem C6_same_filename_at_preload_and_redaction (doc : string) :
  (forall row : Row,
      preload_filename cfg doc (page_id row) = redact_filename cfg doc row)
  /\ (forall (rows : list Row) (r row : Row),
         In r rows -> page_id row = page_id r ->
         loadable cfg env doc (page_id r) = true ->
         dict_get String.eqb (redact_filename cfg doc row)
           (fst (preloaded cfg env doc rows)) <> None).
Proof.
  split; [reflexivity|].
  intros rows r row Hr Hp Hl.
  apply (dict_get_In _ _ String.eqb String.eqb_eq).
  change (redact_filename cfg doc row) with (preload_filename cfg doc (page_id row)).
  apply preloaded_keys. rewrite Hp. eauto.
Qed.

Lemma add_text_extends (texts : Texts) (r : Row) (p : PageId) (t : string) :
  dict_get pid_eqb p texts = Some t ->
  exists t', dict_get pid_eqb p (add_text texts r) = Some (t ++ t')%string.
Proof.
  intros H. unfold add_text.
  destruct (pid_eqb (page_id r) p) eqn:E.
  - apply pid_eqb_eq in E. subst p. rewrite H.
    rewrite (dict_get_set_same _ _ pid_eqb pid_eqb_eq). eauto.
  - assert (Hne : p <> page_id r).
    { intros ->. rewrite pid_eqb_refl in E. discriminate. }
    exists ""%string. rewrite append_nil_r.
    destruct (dict_get pid_eqb (page_id r) texts);
      now rewrite (dict_get_set_other _ _ pid_eqb pid_eqb_eq) by exact Hne.
Qed.

Lemma add_texts_extend (rows : list Row) :
  forall (texts : Texts) (p : PageId) (t : string),
    dict_get pid_eqb p texts = Some t ->
    exists t', dict_get pid_eqb p (fold_left add_text rows texts)
               = Some (t ++ t')%string.
Proof.
  induction rows as [|r rows IH]; intros texts p t H; simpl.
  - exists ""%string. now rewrite append_nil_r.
  - destruct (add_text_extends texts r p t H) as [t1 H1].
    destruct (IH _ p _ H1) as [t2 H2].
    exists (t1 ++ t2)%string. now rewrite <- append_assoc.
Qed.

Lemma bundles_page_indices (texts : Texts) (images : Images)
    (bundles : list CustomEntity) :
  Forall2 (fun item b => make_bundle cfg env texts item = Ok b) images bundles ->
  rmapM (page_index_of cfg) (dict_keys images) = Ok (map pageIndex bundles).
Proof.
  induction 1 as [|[k im] b images bundles Hmk _ IH]; [reflexivity|].
  apply make_bundle_inv in Hmk. destruct Hmk as (Hpi & _ & _).
  unfold dict_keys in *. cbn [map fst rmapM]. rewrite Hpi, IH. reflexivity.
Qed.

(** [C9] When [docs] holds several keys, the cache behind the bundles is
    the one pre-loaded for the last key alone (its keys are those of a
    pre-load of that document from an empty cache, and the page indices of
    the bundles are read off these keys, in order), whereas every entry
    the text map held after the earlier documents is still there, with
    the last document's texts appended. *)
Theorem C9_cache_of_last_document_texts_of_all
    (prev : list (string * DataFrame)) (doc : string) (df : DataFrame)
    (w w' : World) (bundles : list CustomEntity) :
  has_labelling_model cfg = true ->
  get_entities cfg env (prev ++ [(doc, df)]) w = (w', Ok bundles) ->
  exists w1 images_prev texts_prev images texts,
    run_docs cfg env prev w = (w1, Ok (images_prev, texts_prev))
    /\ run_docs cfg env (prev ++ [(doc, df)]) w = (w', Ok (images, texts))
    /\ dict_keys images = dict_keys (fst (preloaded cfg env doc (iterrows df)))
    /\ rmapM (page_index_of cfg) (dict_keys images) = Ok (map pageIndex bundles)
    /\ (forall b, In b bundles -> redactedData b = lookup_text texts (pageIndex b))
    /\ (forall p t, dict_get pid_eqb p texts_prev = Some t ->
                    exists t', dict_get pid_eqb p texts = Some (t ++ t')%string).
Proof.
  intros Hm Hrun.
  destruct (get_entities_inv cfg env _ w w' bundles Hm Hrun)
    as (images & texts & Hdocs & HF).
  destruct (run_docs_last cfg env prev doc df w w' images texts Hdocs)
    as (w1 & [images_prev texts_prev] & rows & Hprev & -> & _ & _ & _ & Hi & Ht).
  exists w1, images_prev, texts_prev, images, texts.
  repeat split; try assumption.
  - rewrite Hi. apply redact_images_keys.
  - eapply bundles_page_indices; eauto.
  - intros b Hb. destruct (Forall2_In_r _ _ _ HF b Hb) as ([k im] & _ & Hmk).
    now apply make_bundle_inv in Hmk.
  - intros p t H. rewrite Ht. now apply add_texts_extend.
Qed.

End Bundles.

(* ================================================================== *)
(** * Integer page ids *)
(* ================================================================== *)

Section IntPageIds.

Context {RE : ReEngine}.
Variable cfg : Config.
Variable env : Env.

(** When the [page_id] column holds integers, the text map is keyed by
    integers and the bundle builder looks it up with a [str]: nothing is
    found, and every bundle carries an empty [redactedData]. *)
Lemma int_page_ids_redacted_data_empty
    (docs : list (string * DataFrame (PID := int_page_id))) (w w' : World)
    (bundles : list CustomEntity) (b : CustomEntity) :
  get_entities (PID := int_page_id) cfg env docs w = (w', Ok bundles) ->
  In b bundles ->
  redactedData b = ""%string.
Proof.
  intros Hrun Hb.
  destruct (has_labelling_model cfg) eqn:Hm.
  2:{ rewrite (get_entities_no_model _ _ _ _ Hm) in Hrun.
      injection Hrun as _ <-. destruct Hb. }
  destruct (get_entities_inv cfg env _ w w' bundles Hm Hrun)
    as (cache & texts & _ & HF).
  destruct (Forall2_In_r _ _ _ HF b Hb) as ([k im] & _ & Hmk).
  apply make_bundle_inv in Hmk. destruct Hmk as (_ & -> & _).
  unfold lookup_text. now rewrite dict_find_none.
Qed.

End IntPageIds.

(* ================================================================== *)
(** * Properties of the filter *)
(* ================================================================== *)

Section FilterClaims.

Context {RE : ReEngine} {PID : PageIdType}.
Variable cfg : Config.

Lemma rstrip_no_trailing_space (s : string) : ends_with_space (Py.rstrip s) = false.
Proof.
  induction s as [|c s IH]; [reflexivity|].
  cbn [Py.rstrip]. destruct (Py.rstrip s) as [|d r].
  - destruct (Py.isspace c) eqn:E; [reflexivity | exact E].
  - exact IH.
Qed.

Lemma strip_no_leading_space (s : string) : starts_with_space (Py.strip s) = false.
Proof.
  unfold Py.strip.
  destruct (lstrip_head s) as [E | (c & t & E & Hc)]; rewrite E; [reflexivity|].
  destruct (rstrip_head c t Hc) as [t' ->]. exact Hc.
Qed.

(** [C10] Whatever the call returns or raises, it leaves the caller's
    table with every [text] value replaced by its [strip()] (which neither
    begins nor ends with whitespace) and every other column as it was. *)
Theorem C10_filter_strips_text_column_in_place (rows : list Row) :
  exists rows',
    fst (get_filtered_predictions cfg (Frame rows)) = Frame rows'
    /\ Forall2
         (fun r r' =>
            text r' = Py.strip (text r)
            /\ starts_with_space (text r') = false
            /\ ends_with_space (text r') = false
            /\ same_other_columns r r')
         rows rows'.
Proof.
  exists (stripped rows). split; [reflexivity|].
  induction rows as [|r rows IH]; simpl; constructor; [|exact IH].
  cbn [text set_text]. split; [reflexivity|].
  split; [apply strip_no_leading_space|].
  split; [apply rstrip_no_trailing_space|].
  repeat split.
Qed.

(** ** Order *)

Lemma is_subsequence_weaken (l : list Row) :
  (forall a s, is_subsequence (a :: s) l = true -> is_subsequence s l = true)
  /\ (forall x s, is_subsequence s l = true -> is_subsequence s (x :: l) = true).
Proof.
  induction l as [|y l [IH1 IH2]].
  - split; [discriminate|]. intros x [|a s]; [reflexivity | discriminate].
  - assert (T : forall a s, is_subsequence (a :: s) (y :: l) = true ->
                            is_subsequence s (y :: l) = true).
    { intros a s. cbn [is_subsequence].
      destruct (row_eqb a y); intros H; apply IH2;
        [exact H | exact (IH1 a s H)]. }
    split; [exact T|].
    intros x [|a s] H; [reflexivity|].
    change (is_subsequence (a :: s) (x :: y :: l))
      with (if row_eqb a x then is_subsequence s (y :: l)
            else is_subsequence (a :: s) (y :: l)).
    destruct (row_eqb a x); [exact (T a s H) | exact H].
Qed.

Lemma filter_dedup_subsequence (g : Row -> bool) (l : list Row) :
  forall seen, is_subsequence (filter g (dedup_from seen l)) l = true.
Proof.
  induction l as [|x l IH]; intros seen; [reflexivity|].
  cbn [dedup_from].
  destruct (existsb (row_eqb x) seen).
  - apply is_subsequence_weaken, IH.
  - cbn [filter]. destruct (g x).
    + cbn [is_subsequence].
      rewrite (proj2 (row_eqb_eq x x) eq_refl). apply IH.
    + apply is_subsequence_weaken, IH.
Qed.

Lemma grouped_single (e : Row -> bool) (gs : list (Row -> bool)) (l : list Row) :
  List.length gs <= 1 ->
  exists g, grouped e gs l = filter g l.
Proof.
  destruct gs as [|g [|g' gs]]; simpl; intros H.
  - exists (fun _ => false). now rewrite filter_none.
  - eexists. now rewrite app_nil_r.
  - lia.
Qed.

(** [C3] (amended) The rows returned are those of the stripped table,
    without repetition, grouped by the first criterion they meet (the
    label set, then the patterns in list order) and in table order inside
    a group; with one criterion at most they follow the table order. *)
Theorem C3_result_grouped_by_first_criterion (rows : list Row) (f : DataFrame) :
  snd (get_filtered_predictions cfg (Frame rows)) = Ok f ->
  iterrows f
  = grouped (fun _ => false) (criteria cfg) (dedup_from [] (stripped rows))
  /\ (List.length (criteria cfg) <= 1 ->
      is_subsequence (iterrows f) (stripped rows) = true).
Proof.
  cbn [get_filtered_predictions snd]. fold (stripped rows). intros H.
  rewrite (filtered_of_rows cfg _ f H), filtered_rows_grouped.
  split; [reflexivity|]. intros Hl.
  destruct (grouped_single (fun _ => false) (criteria cfg)
              (dedup_from [] (stripped rows)) Hl) as [g ->].
  apply filter_dedup_subsequence.
Qed.

(** ** Re-application *)

Lemma stripped_fixed (l : list Row) :
  (forall r, In r l -> text r = Py.strip (text r)) -> stripped l = l.
Proof.
  unfold stripped. induction l as [|r l IH]; intros H; simpl; [reflexivity|].
  rewrite IH by (intros x Hx; apply H; now right).
  f_equal. rewrite <- (H r (or_introl eq_refl)). now destruct r.
Qed.

Lemma stripped_text (rows : list Row) (r : Row) :
  In r (stripped rows) -> text r = Py.strip (text r).
Proof.
  unfold stripped. rewrite in_map_iff. intros (x & <- & _).
  cbn [text set_text]. now rewrite strip_idem.
Qed.

(** [C8] (amended) With a label set or a pattern list enabled, the filter
    applied to its own result returns again, and returns the same rows. *)
Theorem C8_refiltering_returns_the_same_rows (rows : list Row) (f : DataFrame) :
  truthy (labels_to_redact cfg) || truthy (text_patterns_to_redact cfg) = true ->
  snd (get_filtered_predictions cfg (Frame rows)) = Ok f ->
  exists g,
    snd (get_filtered_predictions cfg f) = Ok g
    /\ (forall r, In r (iterrows g) <-> In r (iterrows f))
    /\ Permutation (iterrows g) (iterrows f).
Proof.
  cbn [get_filtered_predictions snd]. fold (stripped rows). intros Ht H.
  pose proof (filtered_of_inv cfg _ f H) as Hpc.
  pose proof (filtered_of_rows cfg _ f H) as Hf.
  rewrite (filtered_of_ok cfg _ Hpc), Ht in H. injection H as <-.
  cbn [iterrows] in *.
  set (F := filtered_rows cfg (stripped rows)) in *.
  assert (HF : stripped F = F).
  { apply stripped_fixed. intros r Hr. apply filtered_rows_In in Hr.
    apply (stripped_text rows). tauto. }
  cbn [get_filtered_predictions snd]. fold (stripped F). rewrite HF.
  rewrite (filtered_of_ok cfg F Hpc), Ht.
  eexists. split; [reflexivity|]. cbn [iterrows].
  assert (Hin : forall r, In r (filtered_rows cfg F) <-> In r F).
  { intros r. rewrite filtered_rows_In. split; [tauto|].
    intros Hr. split; [exact Hr|]. apply filtered_rows_In in Hr. tauto. }
  split; [exact Hin|].
  apply NoDup_Permutation; [apply filtered_rows_NoDup | | exact Hin].
  unfold F. apply filtered_rows_NoDup.
Qed.

End FilterClaims.

(* ================================================================== *)
(** * Faults and file reads *)
(* ================================================================== *)

Section Faults.

Context {RE : ReEngine} {PID : PageIdType}.
Variable cfg : Config.
Variable env : Env.

Lemma selected_ids (r : Row) (i t : string) :
  selected cfg (set_text (set_id r i) t) = selected cfg (set_text r t).
Proof. reflexivity. Qed.




(** [C4] (amended) Nothing is checked at set-up.  A pattern that does not
    compile raises [re.error] when the table of the first document is
    filtered, after that document's page images were pre-loaded, and
    whatever rows the table has; a run without any document returns the
    empty list. *)
Theorem C4_malformed_pattern_raises_at_first_filter_call
    (good : list string) (bad : string) (more : list string) (w : World) :
  has_labelling_model cfg = true ->
  text_patterns_to_redact cfg = Some (good ++ bad :: more) ->
  Forall (fun pat => re_compile pat <> None) good ->
  re_compile bad = None ->
  get_entities cfg env [] w = (w, Ok [])
  /\ forall doc rows rest,
       get_entities cfg env ((doc, Frame rows) :: rest) w
       = (after_preload cfg env doc rows w, Raise (ReError bad)).
Proof.
  intros Hm Hp Hg Hb. unfold get_entities. rewrite Hm. cbn [negb].
  split; [reflexivity|]. intros doc rows rest.
  unfold bind, run_docs. cbn [foldM]. unfold bind.
  rewrite process_doc_frame.
  assert (E : forall l, filtered_of cfg l = Raise (ReError bad)).
  { intros l. unfold filtered_of. rewrite Hp.
    assert (Ht : truthy (Some (good ++ bad :: more)) = true)
      by (destruct good; reflexivity).
    rewrite Ht. cbn [items].
    now rewrite (rmapM_rows_matching_bad l good bad more Hg Hb). }
  now rewrite E.
Qed.

(** ** File reads *)

Lemma img_path_eq_dec (doc : string) (p q : PageId) :
  (if string_dec (img_path cfg doc q) (img_path cfg doc p) then 1 else 0)
  = if pid_eqb q p then 1 else 0.
Proof.
  destruct (string_dec _ _) as [E | E]; destruct (pid_eqb q p) eqn:Eq;
    try reflexivity.
  - apply img_path_inj in E. subst. rewrite pid_eqb_refl in Eq. discriminate.
  - apply pid_eqb_eq in Eq. subst. congruence.
Qed.

(** How often the pre-loading loop reads the file of page [p]. *)
Lemma preload_reads_count (doc : string) (p : PageId) (rows : list Row) :
  forall processed,
    count_occ string_dec (preload_reads cfg env doc processed rows)
      (img_path cfg doc p)
    = if existsb (pid_eqb p) processed then 0
      else if loadable cfg env doc p
           then (if existsb (fun r => pid_eqb (page_id r) p) rows then 1 else 0)
           else List.length (filter (fun r => pid_eqb (page_id r) p) rows).
Proof.
  induction rows as [|r rows IH]; intros processed.
  - cbn. now destruct (existsb (pid_eqb p) processed), (loadable cfg env doc p).
  - cbn [preload_reads existsb filter].
    destruct (existsb (pid_eqb (page_id r)) processed) eqn:Eq.
    + rewrite IH. destruct (existsb (pid_eqb p) processed) eqn:Ep; [reflexivity|].
      assert (Hne : pid_eqb (page_id r) p = false).
      { destruct (pid_eqb (page_id r) p) eqn:E; [|reflexivity].
        apply pid_eqb_eq in E. congruence. }
      now rewrite Hne.
    + cbn [count_occ].
      assert (Hc : forall n,
                 (if string_dec (img_path cfg doc (page_id r)) (img_path cfg doc p)
                  then S n else n)
                 = (if pid_eqb (page_id r) p then 1 else 0) + n).
      { intros n. rewrite <- (img_path_eq_dec doc p (page_id r)).
        now destruct (string_dec _ _). }
      rewrite Hc, IH. clear Hc IH.
      destruct (pid_eqb (page_id r) p) eqn:E.
      * apply pid_eqb_eq in E. subst p. rewrite Eq.
        destruct (loadable cfg env doc (page_id r)).
        -- cbn [existsb]. now rewrite pid_eqb_refl.
        -- rewrite Eq. reflexivity.
      * assert (Ep : existsb (pid_eqb p)
                       (if loadable cfg env doc (page_id r)
                        then page_id r :: processed else processed)
                     = existsb (pid_eqb p) processed).
        { destruct (loadable cfg env doc (page_id r)); [|reflexivity].
          cbn [existsb]. destruct (pid_eqb p (page_id r)) eqn:E'; [|reflexivity].
          apply pid_eqb_eq in E'. subst p. rewrite pid_eqb_refl in E.
          discriminate. }
        rewrite Ep. reflexivity.
Qed.

Lemma get_entities_single_world (doc : string) (rows : list Row) (w : World) :
  has_labelling_model cfg = true ->
  fst (get_entities cfg env [(doc, Frame rows)] w) = after_preload cfg env doc rows w.
Proof.
  intros Hm. unfold get_entities. rewrite Hm. cbn [negb].
  unfold bind, run_docs. cbn [foldM]. unfold bind.
  rewrite process_doc_frame.
  destruct (filtered_of cfg _) as [f|e]; [|reflexivity].
  destruct (first_fault cfg doc _ _); [reflexivity|].
  unfold ret, lift. reflexivity.
Qed.

(** [C7] (amended) In a run over one document, the file of a page that
    loads is read exactly once, however many rows carry its page id; the
    file of a page that does not load is read again for every row that
    carries its page id. *)
Theorem C7_loaded_page_read_once_unloaded_once_per_row
    (doc : string) (rows : list Row) (w : World) :
  has_labelling_model cfg = true ->
  exists new_reads,
    reads (fst (get_entities cfg env [(doc, Frame rows)] w)) = reads w ++ new_reads
    /\ forall p,
         count_occ string_dec new_reads (img_path cfg doc p)
         = if loadable cfg env doc p
           then (if existsb (fun r => pid_eqb (page_id r) p) rows then 1 else 0)
           else List.length (filter (fun r => pid_eqb (page_id r) p) rows).
Proof.
  intros Hm. rewrite (get_entities_single_world doc rows w Hm).
  exists (preload_reads cfg env doc [] rows). split; [reflexivity|].
  intros p. now rewrite preload_reads_count.
Qed.

End Faults.

(* ================================================================== *)
(** * Filled rectangles *)
(* ================================================================== *)

Section Rectangles.

Context {RE : ReEngine} {PID : PageIdType}.

Lemma map_indexed_nth {A B : Type} (f : Z -> A -> B) (l : list A) :
  forall (i : Z) (n : nat),
    nth_error (map_indexed f i l) n
    = option_map (f (i + Z.of_nat n)%Z) (nth_error l n).
Proof.
  induction l as [|a l IH]; intros i [|n]; simpl; try reflexivity.
  - now rewrite Z.add_0_r.
  - rewrite IH. do 2 f_equal. lia.
Qed.

Lemma map_indexed_ext {A B : Type} (f g : Z -> A -> B) (l : list A) :
  forall i, (forall k a, f k a = g k a) ->
            map_indexed f i l = map_indexed g i l.
Proof.
  induction l as [|a l IH]; intros i H; simpl; [reflexivity|].
  now rewrite H, (IH _ H).
Qed.

Lemma map_indexed_compose {A B C : Type} (f : Z -> A -> B) (g : Z -> B -> C)
    (l : list A) :
  forall i, map_indexed g i (map_indexed f i l)
            = map_indexed (fun k a => g k (f k a)) i l.
Proof.
  induction l as [|a l IH]; intros i; simpl; [reflexivity | now rewrite IH].
Qed.

(** The pixel function of [fill_rectangle]. *)
Definition fill (x0 y0 x1 y1 x y : Z) (px : Pixel) : Pixel :=
  if in_span x0 x1 x && in_span y0 y1 y then black else px.

Lemma fill_rectangle_fill (im : Image) (x0 y0 x1 y1 : Z) :
  fill_rectangle im x0 y0 x1 y1
  = map_indexed (fun y line => map_indexed (fun x px => fill x0 y0 x1 y1 x y px) 0%Z line)
      0%Z im.
Proof. reflexivity. Qed.

Lemma pixel_at_map_indexed (h : Z -> Z -> Pixel -> Pixel) (im : Image) (x y : Z) :
  pixel_at
    (map_indexed (fun y line => map_indexed (fun x px => h x y px) 0%Z line) 0%Z im)
    x y
  = option_map (h x y) (pixel_at im x y).
Proof.
  unfold pixel_at.
  destruct ((x <? 0) || (y <? 0))%Z eqn:E; [reflexivity|].
  apply orb_false_iff in E. destruct E as [Ex Ey].
  apply Z.ltb_ge in Ex, Ey.
  rewrite map_indexed_nth.
  destruct (nth_error im (Z.to_nat y)) as [line|]; [|reflexivity].
  cbn [option_map]. rewrite map_indexed_nth.
  rewrite !Z.add_0_l, !Z2Nat.id by assumption. reflexivity.
Qed.

Lemma fill_rectangle_pixel (im : Image) (x0 y0 x1 y1 x y : Z) :
  pixel_at (fill_rectangle im x0 y0 x1 y1) x y
  = option_map (fill x0 y0 x1 y1 x y) (pixel_at im x y).
Proof.
  rewrite fill_rectangle_fill.
  apply (pixel_at_map_indexed (fill x0 y0 x1 y1)).
Qed.

(** [X1] With corner coordinates that are C [int]s, [redact_region]
    returns an image of the same size in which the pixels that lie
    between the two corners (both included) are black and every other
    pixel is as it was: a rectangle partly or wholly outside the image is
    clipped.  With a coordinate that is not a C [int] it raises
    [cv2.error]. *)
Theorem X1_redact_region_fills_rectangle (im : Image) (x0 y0 x1 y1 : Z) :
  (in_c_int x0 && in_c_int y0 && in_c_int x1 && in_c_int y1 = true ->
   exists im',
     redact_region im x0 y0 x1 y1 = Ok im'
     /\ forall x y,
          pixel_at im' x y
          = option_map
              (fun px => if in_span x0 x1 x && in_span y0 y1 y then black else px)
              (pixel_at im x y))
  /\ (in_c_int x0 && in_c_int y0 && in_c_int x1 && in_c_int y1 = false ->
      redact_region im x0 y0 x1 y1 = Raise Cv2Error).
Proof.
  rewrite redact_region_eq. split; intros ->; [|reflexivity].
  eexists. split; [reflexivity|]. intros x y. apply fill_rectangle_pixel.
Qed.

Lemma fill_rectangle_twice (im : Image) (a0 b0 a1 b1 c0 d0 c1 d1 : Z) :
  fill_rectangle (fill_rectangle im a0 b0 a1 b1) c0 d0 c1 d1
  = map_indexed
      (fun y line =>
         map_indexed
           (fun x px => fill c0 d0 c1 d1 x y (fill a0 b0 a1 b1 x y px)) 0%Z line)
      0%Z im.
Proof.
  rewrite !fill_rectangle_fill, map_indexed_compose.
  apply map_indexed_ext. intros y line. apply map_indexed_compose.
Qed.

Lemma fill_rectangle_idem (im : Image) (a0 b0 a1 b1 : Z) :
  fill_rectangle (fill_rectangle im a0 b0 a1 b1) a0 b0 a1 b1
  = fill_rectangle im a0 b0 a1 b1.
Proof.
  rewrite fill_rectangle_twice, fill_rectangle_fill.
  apply map_indexed_ext. intros y line. apply map_indexed_ext. intros x px.
  unfold fill. now destruct (in_span a0 a1 x && in_span b0 b1 y).
Qed.

Lemma fill_rectangle_comm (im : Image) (a0 b0 a1 b1 c0 d0 c1 d1 : Z) :
  fill_rectangle (fill_rectangle im a0 b0 a1 b1) c0 d0 c1 d1
  = fill_rectangle (fill_rectangle im c0 d0 c1 d1) a0 b0 a1 b1.
Proof.
  rewrite !fill_rectangle_twice.
  apply map_indexed_ext. intros y line. apply map_indexed_ext. intros x px.
  unfold fill.
  now destruct (in_span a0 a1 x && in_span b0 b1 y),
               (in_span c0 c1 x && in_span d0 d1 y).
Qed.

(** [X2] Filling is idempotent, and two fills commute; so are two
    redactions, with their raising: the image left by a series of
    redactions does not depend on the order of the rows nor on a row being
    redacted twice, and neither does the series raising. *)
Theorem X2_redact_region_idempotent_and_commutative
    (im : Image) (a0 b0 a1 b1 c0 d0 c1 d1 : Z) :
  (fill_rectangle (fill_rectangle im a0 b0 a1 b1) a0 b0 a1 b1
   = fill_rectangle im a0 b0 a1 b1
   /\ fill_rectangle (fill_rectangle im a0 b0 a1 b1) c0 d0 c1 d1
      = fill_rectangle (fill_rectangle im c0 d0 c1 d1) a0 b0 a1 b1)
  /\ rbind (redact_region im a0 b0 a1 b1)
       (fun im' => redact_region im' a0 b0 a1 b1)
     = redact_region im a0 b0 a1 b1
  /\ rbind (redact_region im a0 b0 a1 b1)
       (fun im' => redact_region im' c0 d0 c1 d1)
     = rbind (redact_region im c0 d0 c1 d1)
         (fun im' => redact_region im' a0 b0 a1 b1).
Proof.
  split; [split; [apply fill_rectangle_idem | apply fill_rectangle_comm]|].
  rewrite !redact_region_eq.
  destruct (in_c_int a0 && in_c_int b0 && in_c_int a1 && in_c_int b1) eqn:Ea;
    destruct (in_c_int c0 && in_c_int d0 && in_c_int c1 && in_c_int d1) eqn:Ec;
    cbn [rbind]; rewrite ?redact_region_eq, ?Ea, ?Ec; split; try reflexivity.
  - now rewrite fill_rectangle_idem.
  - now rewrite fill_rectangle_comm.
  - now rewrite fill_rectangle_idem.
Qed.

(** The pixels after a series of fills. *)
Lemma redact_rows_pixel (rows : list Row) :
  forall (im : Image) (x y : Z),
    pixel_at (redact_rows im rows) x y
    = option_map
        (fun px => if existsb (fun r => covers r x y) rows then black else px)
        (pixel_at im x y).
Proof.
  unfold redact_rows.
  induction rows as [|r rows IH]; intros im x y; cbn [fold_left existsb].
  - now destruct (pixel_at im x y).
  - rewrite IH, fill_rectangle_pixel. unfold fill.
    destruct (pixel_at im x y) as [px|]; [|reflexivity].
    cbn [option_map]. unfold covers at 2.
    destruct (in_span (xmin r) (xmax r) x && in_span (ymin r) (ymax r) y);
      cbn [orb]; [|reflexivity].
    now destruct (existsb (fun r0 => covers r0 x y) rows).
Qed.

End Rectangles.

(* ================================================================== *)
(** * The cache, entry by entry *)
(* ================================================================== *)

Section CacheEntries.

Context {RE : ReEngine} {PID : PageIdType}.
Variable cfg : Config.
Variable env : Env.

Lemma dict_set_absent {V : Type} (k : string) (v : V) (d : dict string V) :
  ~ In k (dict_keys d) -> dict_set String.eqb k v d = d ++ [(k, v)].
Proof.
  unfold dict_keys. induction d as [|[k' v'] d IH]; simpl; intros H;
    [reflexivity|].
  destruct (String.eqb k' k) eqn:E.
  - apply String.eqb_eq in E. tauto.
  - f_equal. apply IH. tauto.
Qed.

(** Assigning to a present key of a dictionary changes that entry only. *)
Lemma dict_set_map {V : Type} (k : string) (f : V -> V) (d : dict string V) :
  NoDup (dict_keys d) ->
  (match dict_get String.eqb k d with
   | Some v => dict_set String.eqb k (f v) d
   | None => d
   end)
  = map (fun item => (fst item, if String.eqb (fst item) k then f (snd item)
                                else snd item)) d.
Proof.
  unfold dict_keys, dict_get.
  induction d as [|[k' v'] d IH]; simpl; intros Hnd; [reflexivity|].
  inversion Hnd as [|? ? Hn Hd]; subst.
  destruct (String.eqb k' k) eqn:E; simpl.
  - f_equal. apply String.eqb_eq in E. subst k'.
    clear IH Hd Hnd. induction d as [|[k2 v2] d IH]; simpl; [reflexivity|].
    simpl in Hn. destruct (String.eqb k2 k) eqn:E2.
    + apply String.eqb_eq in E2. tauto.
    + f_equal. apply IH. tauto.
  - specialize (IH Hd).
    destruct (dict_find (fun k0 => String.eqb k0 k) d); simpl; rewrite ?E;
      now rewrite <- IH.
Qed.

Lemma distinct_from_In (l : list PageId) :
  forall seen p, In p (distinct_from seen l) <-> In p l /\ ~ In p seen.
Proof.
  induction l as [|x l IH]; intros seen p; simpl; [tauto|].
  destruct (existsb (pid_eqb x) seen) eqn:E.
  - apply processed_In in E. rewrite IH. split; [tauto|].
    intros [[-> | H] Hn]; tauto.
  - assert (Hx : ~ In x seen).
    { intros H. apply processed_In in H. congruence. }
    simpl. rewrite IH. simpl. split.
    + intros [-> | [H Hn]]; tauto.
    + intros [[-> | H] Hn]; [now left|].
      destruct (pid_eqb x p) eqn:Exp.
      * apply pid_eqb_eq in Exp. now left.
      * right. split; [exact H|]. intros [-> | Hs]; [|tauto].
        rewrite pid_eqb_refl in Exp. discriminate.
Qed.

Lemma distinct_from_NoDup (l : list PageId) :
  forall seen, NoDup (distinct_from seen l).
Proof.
  induction l as [|x l IH]; intros seen; simpl; [constructor|].
  destruct (existsb (pid_eqb x) seen); [apply IH|].
  constructor; [|apply IH]. rewrite distinct_from_In. simpl. tauto.
Qed.

(** The entry the pre-loading loop stores for a page. *)
Definition entry_of (doc : string) (p : PageId) : string * Image :=
  (preload_filename cfg doc p, source_image cfg env doc p).

Lemma preload_fold_entries (doc : string) (rows : list Row) :
  forall st,
    fst st = map (entry_of doc) (rev (snd st)) ->
    fst (fold_left (preload_step cfg env doc) rows st)
    = fst st
      ++ map (entry_of doc)
           (distinct_from (snd st)
              (filter (loadable cfg env doc) (map page_id rows))).
Proof.
  induction rows as [|r rows IH]; intros [images processed] Hst;
    cbn [fst snd] in Hst.
  - cbn. now rewrite app_nil_r.
  - cbn [fold_left map filter].
    destruct (existsb (pid_eqb (page_id r)) processed) eqn:Ep.
    + assert (Es : preload_step cfg env doc (images, processed) r
                   = (images, processed))
        by (unfold preload_step; cbn [snd]; now rewrite Ep).
      rewrite Es, (IH (images, processed) Hst). cbn [fst snd].
      destruct (loadable cfg env doc (page_id r)); cbn [distinct_from fst snd];
        now rewrite ?Ep.
    + destruct (imread env (img_path cfg doc (page_id r))) as [im|] eqn:Ei.
      * assert (El : loadable cfg env doc (page_id r) = true)
          by (unfold loadable; now rewrite Ei).
        assert (Habs : ~ In (preload_filename cfg doc (page_id r))
                         (dict_keys images)).
        { rewrite Hst. unfold dict_keys. rewrite map_map. cbn [entry_of fst].
          intros Hin. apply in_map_iff in Hin. destruct Hin as (q & E & Hq).
          apply preload_filename_inj in E. subst q.
          apply in_rev in Hq. apply processed_In in Hq. congruence. }
        assert (Ee : entry_of doc (page_id r)
                     = (preload_filename cfg doc (page_id r), im))
          by (unfold entry_of, source_image; now rewrite Ei).
        assert (Es : preload_step cfg env doc (images, processed) r
                     = (images ++ [entry_of doc (page_id r)],
                        page_id r :: processed)).
        { unfold preload_step. cbn [fst snd]. rewrite Ep, Ei, Ee.
          now rewrite (dict_set_absent _ _ _ Habs). }
        rewrite Es, El. cbn [distinct_from fst snd]. rewrite Ep.
        rewrite IH; cbn [fst snd].
        -- now rewrite <- app_assoc.
        -- cbn [rev]. rewrite map_app, Hst. reflexivity.
      * assert (El : loadable cfg env doc (page_id r) = false)
          by (unfold loadable; now rewrite Ei).
        assert (Es : preload_step cfg env doc (images, processed) r
                     = (images, processed))
          by (unfold preload_step; cbn [snd]; now rewrite Ep, Ei).
        rewrite Es, El. now rewrite (IH (images, processed) Hst).
Qed.

(** The cache after pre-loading: one entry per page that loads, in order
    of first appearance, holding the image read. *)
Lemma preloaded_entries (doc : string) (rows : list Row) :
  fst (preloaded cfg env doc rows) = map (entry_of doc) (loaded_pages cfg env doc rows).
Proof.
  unfold preloaded, loaded_pages.
  now rewrite (preload_fold_entries doc rows ([], []) eq_refl).
Qed.

Lemma loaded_pages_In (doc : string) (rows : list Row) (p : PageId) :
  In p (loaded_pages cfg env doc rows)
  <-> (exists r, In r rows /\ page_id r = p) /\ loadable cfg env doc p = true.
Proof.
  unfold loaded_pages. rewrite distinct_from_In, filter_In, in_map_iff.
  simpl. split.
  - intros [[(r & E & Hr) Hl] _]. eauto.
  - intros [(r & Hr & E) Hl]. repeat split; eauto.
Qed.

Lemma NoDup_map_inj {A B : Type} (f : A -> B) (l : list A) :
  (forall a b, f a = f b -> a = b) -> NoDup l -> NoDup (map f l).
Proof.
  intros Hf. induction 1 as [|a l Ha _ IH]; simpl; constructor; [|exact IH].
  intros Hin. apply in_map_iff in Hin. destruct Hin as (b & E & Hb).
  apply Hf in E. now subst.
Qed.

Lemma preloaded_keys_NoDup (doc : string) (rows : list Row) :
  NoDup (dict_keys (fst (preloaded cfg env doc rows))).
Proof.
  rewrite preloaded_entries. unfold dict_keys. rewrite map_map. cbn [entry_of fst].
  apply NoDup_map_inj.
  - intros p q. apply preload_filename_inj.
  - apply distinct_from_NoDup.
Qed.

(** The rows redacted on the image stored under key [k]. *)
Definition rows_of_key (doc k : string) (rows : list Row) : list Row :=
  filter (fun r => String.eqb k (redact_filename cfg doc r)) rows.

Lemma redact_images_map (doc : string) (frows : list Row) :
  forall images,
    NoDup (dict_keys images) ->
    fold_left (redact_image cfg doc) frows images
    = map (fun item => (fst item, redact_rows (snd item)
                                    (rows_of_key doc (fst item) frows)))
        images.
Proof.
  induction frows as [|r frows IH]; intros images Hnd; cbn [fold_left].
  - unfold rows_of_key, redact_rows. cbn. rewrite <- (map_id images) at 1.
    apply map_ext. now intros [k im].
  - assert (Hk : dict_keys (redact_image cfg doc images r) = dict_keys images)
      by apply redact_image_keys.
    rewrite IH by (rewrite Hk; exact Hnd).
    assert (Hset : redact_image cfg doc images r
                   = map (fun item =>
                            (fst item,
                             if String.eqb (fst item) (redact_filename cfg doc r)
                             then fill_rectangle (snd item)
                                    (xmin r) (ymin r) (xmax r) (ymax r)
                             else snd item)) images)
      by exact (dict_set_map (redact_filename cfg doc r)
                  (fun im => fill_rectangle im (xmin r) (ymin r) (xmax r) (ymax r))
                  images Hnd).
    rewrite Hset, map_map. apply map_ext. intros [k im]. cbn [fst snd].
    f_equal. unfold rows_of_key. cbn [filter].
    destruct (String.eqb k (redact_filename cfg doc r)) eqn:E.
    + reflexivity.
    + reflexivity.
Qed.

Lemma rows_of_key_page (doc : string) (p : PageId) (frows : list Row) :
  rows_of_key doc (preload_filename cfg doc p) frows = rows_of_page p frows.
Proof.
  unfold rows_of_key, rows_of_page. apply filter_ext. intros r.
  change (redact_filename cfg doc r) with (preload_filename cfg doc (page_id r)).
  destruct (pid_eqb (page_id r) p) eqn:E.
  - apply pid_eqb_eq in E. subst. apply String.eqb_refl.
  - apply String.eqb_neq. intros H. apply preload_filename_inj in H. subst.
    rewrite pid_eqb_refl in E. discriminate.
Qed.

(** The cache after the redaction loop of a document. *)
Lemma redacted_cache_entries (doc : string) (rows frows : list Row) :
  fold_left (redact_image cfg doc) frows (fst (preloaded cfg env doc rows))
  = map (fun p => (preload_filename cfg doc p,
                   redact_rows (source_image cfg env doc p) (rows_of_page p frows)))
      (loaded_pages cfg env doc rows).
Proof.
  rewrite redact_images_map by apply preloaded_keys_NoDup.
  rewrite preloaded_entries, map_map. apply map_ext. intros p.
  cbn [entry_of fst snd]. now rewrite rows_of_key_page.
Qed.

End CacheEntries.

(* ================================================================== *)
(** * What a run returns *)
(* ================================================================== *)

Section Outcome.

Context {RE : ReEngine} {PID : PageIdType}.
Variable cfg : Config.
Variable env : Env.

(** The result of a run over one document, written out. *)
Lemma get_entities_single (doc : string) (rows : list Row) (w : World) :
  has_labelling_model cfg = true ->
  get_entities cfg env [(doc, Frame rows)] w
  = (after_preload cfg env doc rows w,
     match filtered_of cfg (stripped (with_ids env (uuids w) rows)) with
     | Raise e => Raise e
     | Ok f =>
         match first_fault cfg doc (fst (preloaded cfg env doc rows)) (iterrows f) with
         | Some e => Raise e
         | None =>
             rmapM (make_bundle cfg env (fold_left add_text (iterrows f) []))
               (map (fun p =>
                       (preload_filename cfg doc p,
                        redact_rows (source_image cfg env doc p)
                          (rows_of_page p (iterrows f))))
                  (loaded_pages cfg env doc rows))
         end
     end).
Proof.
  intros Hm. unfold get_entities. rewrite Hm. cbn [negb].
  unfold bind, run_docs. cbn [foldM]. unfold bind.
  rewrite process_doc_frame.
  destruct (filtered_of cfg _) as [f|e]; [|reflexivity].
  destruct (first_fault cfg doc _ _); [reflexivity|].
  unfold ret, lift. cbn [fst snd].
  now rewrite redacted_cache_entries.
Qed.

(** The bundles of a run over one document that returns, page by page. *)
Lemma get_entities_single_bundles (doc : string) (rows : list Row)
    (w w' : World) (bundles : list CustomEntity) :
  has_labelling_model cfg = true ->
  get_entities cfg env [(doc, Frame rows)] w = (w', Ok bundles) ->
  Forall2
    (fun p b =>
       page_index_of cfg (preload_filename cfg doc p) = Ok (pageIndex b)
       /\ image b
          = imencode_b64 env
              (redact_rows (source_image cfg env doc p)
                 (rows_of_page p (redacted_rows cfg env (uuids w) rows))))
    (loaded_pages cfg env doc rows) bundles.
Proof.
  intros Hm. rewrite (get_entities_single doc rows w Hm).
  unfold redacted_rows.
  destruct (filtered_of cfg _) as [f|e] eqn:Ef; [|discriminate].
  rewrite <- (filtered_of_rows cfg _ f Ef).
  destruct (first_fault cfg doc _ _); [discriminate|].
  intros [= _ H]. apply rmapM_Forall2 in H.
  revert H. generalize (loaded_pages cfg env doc rows). intros l.
  revert bundles. induction l as [|p l IH]; intros bundles H;
    inversion H as [|? b ? bs Hb Hl]; subst; constructor; [|auto].
  apply make_bundle_inv in Hb. destruct Hb as (Hpi & _ & Him). auto.
Qed.

Lemma Forall2_impl_In {A B : Type} (R S : A -> B -> Prop) (l : list A)
    (bs : list B) :
  Forall2 R l bs ->
  (forall a b, In a l -> R a b -> S a b) ->
  Forall2 S l bs.
Proof.
  induction 1 as [|a b l bs HR _ IH]; intros H; constructor.
  - apply H; [now left | exact HR].
  - apply IH. intros x y Hx. apply H. now right.
Qed.

(** [X3] In a run over one document that returns, the bundles are those of
    the distinct page ids of the full table whose file loads, one each, in
    the order in which the page ids first appear in the table. *)
Theorem X3_one_bundle_per_loaded_page_in_table_order
    (doc : string) (rows : list Row) (w w' : World)
    (bundles : list CustomEntity) :
  has_labelling_model cfg = true ->
  get_entities cfg env [(doc, Frame rows)] w = (w', Ok bundles) ->
  NoDup (loaded_pages cfg env doc rows)
  /\ (forall p, In p (loaded_pages cfg env doc rows)
                <-> (exists r, In r rows /\ page_id r = p)
                    /\ loadable cfg env doc p = true)
  /\ Forall2
       (fun p b => page_index_of cfg (preload_filename cfg doc p) = Ok (pageIndex b))
       (loaded_pages cfg env doc rows) bundles.
Proof.
  intros Hm Hrun.
  split; [apply distinct_from_NoDup|].
  split; [intros p; apply loaded_pages_In|].
  apply (Forall2_impl_In _ _ _ _
           (get_entities_single_bundles doc rows w w' bundles Hm Hrun)).
  intros p b _ [Hp _]. exact Hp.
Qed.

(** [X4] In a run over one document that returns, the image of a bundle
    is the encoding of the image read for its page with exactly the
    pixels covered by the rectangle of some filtered row of that page
    turned black; when no filtered row is on the page, it is the encoding
    of the image as read. *)
Theorem X4_emitted_image_is_source_with_matched_rectangles_black
    (doc : string) (rows : list Row) (w w' : World)
    (bundles : list CustomEntity) :
  has_labelling_model cfg = true ->
  get_entities cfg env [(doc, Frame rows)] w = (w', Ok bundles) ->
  Forall2
    (fun p b =>
       exists source final,
         imread env (img_path cfg doc p) = Some source
         /\ image b = imencode_b64 env final
         /\ (forall x y,
               pixel_at final x y
               = option_map
                   (fun px =>
                      if existsb (fun r => covers r x y)
                           (rows_of_page p (redacted_rows cfg env (uuids w) rows))
                      then black else px)
                   (pixel_at source x y))
         /\ (rows_of_page p (redacted_rows cfg env (uuids w) rows) = []
             -> final = source))
    (loaded_pages cfg env doc rows) bundles.
Proof.
  intros Hm Hrun.
  apply (Forall2_impl_In _ _ _ _
           (get_entities_single_bundles doc rows w w' bundles Hm Hrun)).
  intros p b Hin [_ Hb].
  apply loaded_pages_In in Hin. destruct Hin as [_ Hp].
  unfold loadable in Hp.
  destruct (imread env (img_path cfg doc p)) as [source|] eqn:Ei;
    [|discriminate].
  assert (Es : source_image cfg env doc p = source)
    by (unfold source_image; now rewrite Ei).
  rewrite Es in Hb.
  exists source, (redact_rows source
                    (rows_of_page p (redacted_rows cfg env (uuids w) rows))).
  split; [reflexivity|]. split; [exact Hb|].
  split; [intros x y; apply redact_rows_pixel|].
  now intros ->.
Qed.

(** ** Page index extraction never fails on an index *)

Lemma split_from_nonempty (sep s : string) :
  forall skip cur, exists a l, Py.split_from sep s skip cur = a :: l.
Proof.
  induction s as [|x s IH]; intros skip cur; cbn [Py.split_from]; [eauto|].
  destruct skip; [|apply IH].
  destruct (String.prefix sep (String x s)); [eauto | apply IH].
Qed.

Lemma split_plus_two (s t : string) :
  forall cur, exists a b l,
    Py.split_from "+" (s ++ String "+" t) 0 cur = a :: b :: l.
Proof.
  induction s as [|x s IH]; intros cur.
  - change ("" ++ String "+" t)%string with ("+" ++ t)%string.
    cbn [Py.split_from String.append]. 
    change (String "+" t) with ("+" ++ t)%string.
    rewrite prefix_append.
    destruct (split_from_nonempty "+" t (String.length "+" - 1) "") as (b & l & ->).
    eauto.
  - change (String x s ++ String "+" t)%string with (String x (s ++ String "+" t)).
    cbn [Py.split_from].
    destruct (String.prefix "+" (String x (s ++ String "+" t))); [|apply IH].
    destruct (split_from_nonempty "+" (s ++ String "+" t)
                (String.length "+" - 1) "") as (b & l & ->).
    eauto.
Qed.

(** [X5] The page index of a derived file name is always found: the split
    on ["+"] has a second piece whatever the document id and the page id;
    the only fault is the [ValueError] of a split on an empty extension. *)
Theorem X5_page_index_of_never_raises_IndexError (doc : string) (p : PageId) :
  (img_extension cfg = ""%string ->
   page_index_of cfg (preload_filename cfg doc p) = Raise ValueError)
  /\ (img_extension cfg <> ""%string ->
      exists s, page_index_of cfg (preload_filename cfg doc p) = Ok s).
Proof.
  destruct (preload_filename_shape cfg doc p) as (stem & rest & -> & _ & _).
  unfold page_index_of, py_split. cbn [String.eqb rbind].
  change (stem ++ "+" ++ pid_str p ++ img_extension cfg)%string
    with (stem ++ String "+" (pid_str p ++ img_extension cfg))%string.
  destruct (split_plus_two stem (pid_str p ++ img_extension cfg) "")
    as (a & b & l & ->).
  cbn [py_index nth_error rbind]. split.
  - intros ->. reflexivity.
  - intros Hne. destruct (String.eqb (img_extension cfg) "") eqn:E.
    + apply String.eqb_eq in E. contradiction.
    + cbn [rbind].
      destruct (split_from_nonempty (img_extension cfg) b 0 "") as (c & l' & ->).
      cbn. eauto.
Qed.

End Outcome.

(* ================================================================== *)
(** * The redacted text of a bundle *)
(* ================================================================== *)

Section RedactedData.

Context {RE : ReEngine} {PID : PageIdType}.
Variable cfg : Config.
Variable env : Env.

(** The rows whose page id equals [str(p)] are the rows of page [p], for
    page ids that equal their own [str]. *)
Lemma texts_for_page (p : PageId) (rows : list Row) :
  (forall q, pid_eq_str q (pid_str p) = pid_eqb q p) ->
  texts_for (pid_str p) rows = page_texts p rows.
Proof.
  intros H. unfold texts_for, page_texts. f_equal.
  apply filter_ext. intros r. apply H.
Qed.

(** [X15] In a run over one document that returns, the bundles are those
    of the loaded pages of the table, in order, and the [redactedData] of
    each is the texts of the filtered rows whose [page_id] equals the
    bundle's [pageIndex] string, in filter-result order and joined with
    [" | "]; the filter result holds no row twice and holds exactly the
    rows of the (stripped) table that meet a criterion, so a row matched
    by a label and by a pattern contributes once.  When the [pageIndex]
    extracted from the file name is the [str] of the page id, and page
    ids equal their own [str] (string page ids), these are the texts of
    the filtered rows of the bundle's page, and the field is empty when
    the page has none. *)
Theorem X15_redacted_data_joins_texts_equal_to_page_index
    (doc : string) (rows : list Row) (w w' : World)
    (bundles : list CustomEntity) :
  has_labelling_model cfg = true ->
  get_entities cfg env [(doc, Frame rows)] w = (w', Ok bundles) ->
  exists filtered,
    snd (get_filtered_predictions cfg (Frame (with_ids env (uuids w) rows)))
    = Ok filtered
    /\ NoDup (iterrows filtered)
    /\ (forall r, In r (iterrows filtered)
                  <-> In r (stripped (with_ids env (uuids w) rows))
                      /\ selected cfg r = true)
    /\ Forall2
         (fun p b =>
            page_index_of cfg (preload_filename cfg doc p) = Ok (pageIndex b)
            /\ redactedData b
               = Py.join " | " (texts_for (pageIndex b) (iterrows filtered))
            /\ (pageIndex b = pid_str p ->
                (forall q, pid_eq_str q (pid_str p) = pid_eqb q p) ->
                redactedData b = Py.join " | " (page_texts p (iterrows filtered))
                /\ (page_texts p (iterrows filtered) = [] ->
                    redactedData b = ""%string)))
         (loaded_pages cfg env doc rows) bundles.
Proof.
  intros Hm Hrun.
  rewrite (get_entities_single cfg env doc rows w Hm) in Hrun.
  cbn [get_filtered_predictions snd].
  fold (stripped (with_ids env (uuids w) rows)).
  set (tbl := stripped (with_ids env (uuids w) rows)) in *.
  destruct (filtered_of cfg tbl) as [f|e] eqn:Ef; [|discriminate].
  pose proof (filtered_of_rows cfg tbl f Ef) as Hrows.
  exists f. split; [reflexivity|]. rewrite Hrows in *.
  split; [apply filtered_rows_NoDup|].
  split; [intros r; apply filtered_rows_In|].
  destruct (first_fault cfg doc _ _); [discriminate|].
  injection Hrun as _ H. apply rmapM_Forall2 in H.
  set (frows := filtered_rows cfg tbl) in *.
  assert (Hdata : forall s,
            lookup_text (fold_left add_text frows []) s
            = Py.join " | " (texts_for s frows)).
  { intros s. apply lookup_text_spec. intros p.
    apply (texts_fold frows [] []). reflexivity. }
  revert H. generalize (loaded_pages cfg env doc rows). intros l.
  revert bundles. induction l as [|p l IH]; intros bundles H;
    inversion H as [|? b ? bs Hb Hl]; subst; constructor; [|auto].
  apply make_bundle_inv in Hb. destruct Hb as (Hpi & Hrd & _).
  rewrite Hdata in Hrd.
  split; [exact Hpi|]. split; [exact Hrd|].
  intros Hidx Hstr. rewrite Hrd, Hidx, (texts_for_page p frows Hstr).
  split; [reflexivity|]. now intros ->.
Qed.

End RedactedData.

(* ================================================================== *)
(** * When a run returns, and what it raises *)
(* ================================================================== *)

Section Success.

Context {RE : ReEngine} {PID : PageIdType}.
Variable cfg : Config.
Variable env : Env.

Lemma stripped_with_ids_inv (n : nat) (rows : list Row) (r' : Row) :
  In r' (stripped (with_ids env n rows)) ->
  exists r i, In r rows /\ r' = set_text (set_id r i) (Py.strip (text r)).
Proof.
  unfold stripped. rewrite in_map_iff. intros (x & <- & Hx).
  apply with_ids_inv in Hx. destruct Hx as (r & i & Hr & ->). eauto.
Qed.

(** With the pages of its matched rows loaded and their rectangles
    drawable, a document passes the redaction loop. *)
Lemma first_fault_available (doc : string) (rows : list Row) (n : nat) :
  (forall r, In r rows ->
             selected cfg (set_text r (Py.strip (text r))) = true ->
             loadable cfg env doc (page_id r) = true) ->
  (forall r, In r rows ->
             selected cfg (set_text r (Py.strip (text r))) = true ->
             drawable r = true) ->
  first_fault cfg doc (fst (preloaded cfg env doc rows))
    (redacted_rows cfg env n rows) = None.
Proof.
  intros H Hd. apply first_fault_none. intros r' Hr'.
  unfold redacted_rows in Hr'. apply filtered_rows_In in Hr'.
  destruct Hr' as [Hin Hs].
  apply stripped_with_ids_inv in Hin. destruct Hin as (r & i & Hr & ->).
  rewrite selected_ids in Hs.
  change (redact_filename cfg doc (set_text (set_id r i) (Py.strip (text r))))
    with (preload_filename cfg doc (page_id r)).
  split.
  - apply preloaded_keys. split; [eauto | auto].
  - exact (Hd r Hr Hs).
Qed.

(** Every key of the cache is a derived file name. *)
Definition keys_derived (st : Images * Texts) : Prop :=
  forall k, In k (dict_keys (fst st)) ->
            exists doc p, k = preload_filename cfg doc p.

Lemma run_docs_available (docs : list (string * DataFrame)) :
  patterns_compile cfg ->
  pages_available cfg env docs ->
  rectangles_drawable cfg docs ->
  forall st w, keys_derived st ->
    exists w' st',
      foldM (process_doc cfg env) st docs w = (w', Ok st') /\ keys_derived st'.
Proof.
  intros Hpc. induction docs as [|[doc df] docs IH]; intros Hav Hdr st w Hst.
  - exists w, st. split; [reflexivity | exact Hst].
  - destruct (Hav doc df (or_introl eq_refl)) as (rows & -> & Hrows).
    cbn [foldM]. unfold bind. rewrite process_doc_frame.
    pose proof (filtered_of_ok cfg (stripped (with_ids env (uuids w) rows)) Hpc)
      as Hok.
    rewrite Hok.
    rewrite (filtered_of_rows cfg _ _ Hok).
    fold (redacted_rows cfg env (uuids w) rows).
    rewrite (first_fault_available doc rows (uuids w) Hrows
               (fun r => Hdr doc rows r (or_introl eq_refl))).
    apply IH.
    + intros d f Hd. apply Hav. now right.
    + intros d rs r Hd Hr Hs. exact (Hdr d rs r (or_intror Hd) Hr Hs).
    + intros k Hk. cbn [fst] in Hk. rewrite redact_images_keys in Hk.
      apply preloaded_keys_inv in Hk. destruct Hk as (r & _ & -> & _). eauto.
Qed.

Lemma rmapM_ok {A B : Type} (f : A -> result B) (l : list A) :
  (forall a, In a l -> exists b, f a = Ok b) -> exists bs, rmapM f l = Ok bs.
Proof.
  induction l as [|a l IH]; intros H; simpl; [eauto|].
  destruct (H a (or_introl eq_refl)) as [b ->].
  destruct IH as [bs ->]; [intros x Hx; apply H; now right|].
  simpl. eauto.
Qed.

Lemma page_index_of_derived (doc : string) (p : PageId) :
  exists a b l,
    Py.split_from "+" (preload_filename cfg doc p) 0 "" = a :: b :: l.
Proof.
  destruct (preload_filename_shape cfg doc p) as (stem & rest & -> & _ & _).
  change (stem ++ "+" ++ pid_str p ++ img_extension cfg)%string
    with (stem ++ String "+" (pid_str p ++ img_extension cfg))%string.
  apply split_plus_two.
Qed.

Lemma page_index_of_ok (doc : string) (p : PageId) :
  img_extension cfg <> ""%string ->
  exists s, page_index_of cfg (preload_filename cfg doc p) = Ok s.
Proof.
  intros Hne. unfold page_index_of, py_split. cbn [String.eqb rbind].
  destruct (page_index_of_derived doc p) as (a & b & l & ->).
  cbn [py_index nth_error rbind].
  destruct (String.eqb (img_extension cfg) "") eqn:E.
  - apply String.eqb_eq in E. contradiction.
  - cbn [rbind].
    destruct (split_from_nonempty (img_extension cfg) b 0 "") as (c & l' & ->).
    cbn. eauto.
Qed.

Lemma page_index_of_empty_extension (doc : string) (p : PageId) :
  img_extension cfg = ""%string ->
  page_index_of cfg (preload_filename cfg doc p) = Raise ValueError.
Proof.
  intros He. unfold page_index_of, py_split. cbn [String.eqb rbind].
  destruct (page_index_of_derived doc p) as (a & b & l & ->).
  cbn [py_index nth_error rbind]. now rewrite He.
Qed.

(** [X6] A run returns a bundle list, and raises nothing, when every
    pattern compiles, the image extension is not empty, every document of
    the merged output has columns, and every row that meets the criteria
    sits on a page whose file loads and has corner coordinates that are
    C [int]s. *)
Theorem X6_run_returns_when_matched_pages_loaded
    (docs : list (string * DataFrame)) (w : World) :
  has_labelling_model cfg = true ->
  patterns_compile cfg ->
  img_extension cfg <> ""%string ->
  pages_available cfg env docs ->
  rectangles_drawable cfg docs ->
  exists w' bundles, get_entities cfg env docs w = (w', Ok bundles).
Proof.
  intros Hm Hpc Hext Hav Hdr. unfold get_entities. rewrite Hm. cbn [negb].
  unfold bind, run_docs.
  destruct (run_docs_available docs Hpc Hav Hdr ([], []) w)
    as (w' & st & -> & Hst).
  { intros k []. }
  unfold lift.
  destruct (rmapM_ok (make_bundle cfg env (snd st)) (fst st)) as [bs ->]; [|eauto].
  intros [k im] Hin. unfold make_bundle.
  destruct (Hst k) as (doc & p & ->).
  { unfold dict_keys. apply in_map_iff. exists (k, im). auto. }
  destruct (page_index_of_ok doc p Hext) as [s ->]. cbn [rbind]. eauto.
Qed.

(** [X7] In a run over one document, a [KeyError] comes from the
    redaction loop only: there is a row of the table that meets the
    criteria and whose page did not load, and the error names the cache
    key of that row. *)
Theorem X7_KeyError_names_matched_row_of_unloaded_page
    (doc : string) (rows : list Row) (w w' : World) (k : string) :
  get_entities cfg env [(doc, Frame rows)] w = (w', Raise (KeyError k)) ->
  exists r,
    In r rows
    /\ selected cfg (set_text r (Py.strip (text r))) = true
    /\ loadable cfg env doc (page_id r) = false
    /\ k = preload_filename cfg doc (page_id r).
Proof.
  intros Hrun.
  destruct (has_labelling_model cfg) eqn:Hm.
  2:{ rewrite (get_entities_no_model _ _ _ _ Hm) in Hrun. discriminate. }
  rewrite (get_entities_single cfg env doc rows w Hm) in Hrun.
  destruct (filtered_of cfg _) as [f|e] eqn:Ef.
  - destruct (first_fault cfg doc _ (iterrows f)) as [e'|] eqn:Em.
    + injection Hrun as _ ->.
      apply first_fault_some in Em.
      destruct Em as [(r' & Hr' & Hn & E) | (E & _)]; [|discriminate].
      injection E as ->.
      rewrite (filtered_of_rows cfg _ f Ef) in Hr'.
      apply filtered_rows_In in Hr'. destruct Hr' as [Hin Hs].
      apply stripped_with_ids_inv in Hin. destruct Hin as (r & i & Hr & ->).
      rewrite selected_ids in Hs.
      change (redact_filename cfg doc (set_text (set_id r i) (Py.strip (text r))))
        with (preload_filename cfg doc (page_id r)) in *.
      exists r. repeat split; auto.
      destruct (loadable cfg env doc (page_id r)) eqn:El; [|reflexivity].
      exfalso. apply Hn. apply preloaded_keys. eauto.
    + exfalso. injection Hrun as _ Hrun.
      set (texts := fold_left add_text (iterrows f) []) in Hrun.
      revert Hrun. generalize (loaded_pages cfg env doc rows).
      intros l. induction l as [|p l IH]; cbn [map rmapM]; [discriminate|].
      unfold make_bundle at 1.
      destruct (String.eqb (img_extension cfg) "") eqn:E.
      * apply String.eqb_eq in E.
        rewrite (page_index_of_empty_extension doc p E). discriminate.
      * apply String.eqb_neq in E.
        destruct (page_index_of_ok doc p E) as [s ->]. cbn [rbind].
        destruct (rmapM _ _) as [bs|e]; cbn [rbind]; [discriminate|].
        intros H. apply IH. exact H.
  - exfalso. injection Hrun as _ ->.
    unfold filtered_of in Ef.
    destruct (truthy (text_patterns_to_redact cfg)) eqn:Et.
    + destruct (rmapM (rows_matching _) _) as [frames|e] eqn:Er.
      * cbn [rbind] in Ef.
        destruct (text_patterns_to_redact cfg) as [[|pat ps]|]; try discriminate.
        cbn [items rmapM] in Er.
        destruct (rows_matching _ pat) as [fr|]; [|discriminate].
        cbn [rbind] in Er. destruct (rmapM _ ps); [|discriminate].
        injection Er as <-. cbn in Ef.
        destruct (truthy (labels_to_redact cfg)); discriminate.
      * cbn [rbind] in Ef. injection Ef as ->.
        clear Et. revert Er.
        induction (items (text_patterns_to_redact cfg)) as [|pat ps IH];
          cbn [rmapM]; [discriminate|].
        unfold rows_matching at 1. destruct (re_compile pat).
        -- cbn [rbind]. destruct (rmapM _ ps) as [x|e']; cbn [rbind];
             [discriminate|]. intros [= ->]. now apply IH.
        -- cbn [rbind]. discriminate.
    + cbn in Ef. destruct (truthy (labels_to_redact cfg)); discriminate.
Qed.

End Success.

(* ================================================================== *)
(** * Files read, repeated calls, identifiers, keys *)
(* ================================================================== *)

Section MoreProperties.

Context {RE : ReEngine} {PID : PageIdType}.
Variable cfg : Config.
Variable env : Env.

Lemma preload_reads_In (doc : string) (rows : list Row) (path : string) :
  forall processed,
    In path (preload_reads cfg env doc processed rows) ->
    exists r, In r rows /\ path = img_path cfg doc (page_id r).
Proof.
  induction rows as [|r rows IH]; intros processed; cbn [preload_reads];
    [intros []|].
  destruct (existsb (pid_eqb (page_id r)) processed).
  - intros H. destruct (IH _ H) as (x & Hx & E). exists x. split; [now right | exact E].
  - intros [<- | H].
    + exists r. split; [now left | reflexivity].
    + destruct (IH _ H) as (x & Hx & E). exists x. split; [now right | exact E].
Qed.

Lemma run_docs_reads (docs : list (string * DataFrame)) :
  forall st w,
    exists new_reads,
      reads (fst (foldM (process_doc cfg env) st docs w)) = reads w ++ new_reads
      /\ forall path, In path new_reads -> path_of_docs cfg docs path.
Proof.
  induction docs as [|[doc df] docs IH]; intros st w.
  - exists []. split; [cbn; now rewrite app_nil_r | intros path []].
  - cbn [foldM]. unfold bind.
    destruct df as [|rows].
    + rewrite process_doc_nocolumns. exists []. cbn.
      split; [now rewrite app_nil_r | intros path []].
    + rewrite process_doc_frame.
      set (out := match filtered_of cfg _ with Ok _ => _ | Raise e => Raise e end).
      destruct out as [st1|e].
      * destruct (IH st1 (after_preload cfg env doc rows w)) as (new & Hn & Hp).
        exists (preload_reads cfg env doc [] rows ++ new). split.
        -- rewrite Hn. cbn [after_preload reads]. now rewrite app_assoc.
        -- intros path Hin. apply in_app_iff in Hin. destruct Hin as [Hin | Hin].
           ++ apply preload_reads_In in Hin. destruct Hin as (r & Hr & ->).
              exists doc, rows, r. repeat split; [now left | exact Hr].
           ++ destruct (Hp path Hin) as (d & rs & r & Hd & Hr & E).
              exists d, rs, r. repeat split; [now right | exact Hr | exact E].
      * exists (preload_reads cfg env doc [] rows). split; [reflexivity|].
        intros path Hin. apply preload_reads_In in Hin.
        destruct Hin as (r & Hr & ->).
        exists doc, rows, r. repeat split; [now left | exact Hr].
Qed.

(** [X8] Whatever a run returns or raises, the only files it hands to
    [cv2.imread] are the ones derived, under the resource directory, from a
    document key and the page id of a row of that document's table. *)
Theorem X8_only_files_of_table_pages_are_read
    (docs : list (string * DataFrame)) (w : World) :
  exists new_reads,
    reads (fst (get_entities cfg env docs w)) = reads w ++ new_reads
    /\ forall path, In path new_reads -> path_of_docs cfg docs path.
Proof.
  unfold get_entities. destruct (has_labelling_model cfg); cbn [negb].
  - unfold bind, run_docs.
    destruct (run_docs_reads docs ([], []) w) as (new & Hn & Hp).
    exists new. split; [|exact Hp].
    destruct (foldM (process_doc cfg env) ([], []) docs w) as [w1 [st|e]];
      exact Hn.
  - exists []. split; [cbn; now rewrite app_nil_r | intros path []].
Qed.

Lemma stripped_idem (rows : list Row) : stripped (stripped rows) = stripped rows.
Proof.
  apply stripped_fixed. intros r Hr. now apply (stripped_text rows).
Qed.

(** [X9] A second call of the filter on the table the first call left
    behind changes the table no further and returns (or raises) the same
    as the first call. *)
Theorem X9_filter_call_is_repeatable (df : DataFrame) :
  get_filtered_predictions cfg (fst (get_filtered_predictions cfg df))
  = get_filtered_predictions cfg df.
Proof.
  destruct df as [|rows]; [reflexivity|].
  cbn [get_filtered_predictions fst]. fold (stripped rows).
  fold (stripped (stripped rows)). now rewrite stripped_idem.
Qed.

Lemma stripped_ids (rows : list Row) : map id (stripped rows) = map id rows.
Proof.
  unfold stripped. rewrite map_map. apply map_ext. now intros r.
Qed.

(** [X10] When the [id] column has no value twice, no row is lost to
    [drop_duplicates]: the filter returns, in some order, exactly the rows
    of the stripped table that meet a criterion, each as often as it is in
    the table, also when rows agree on every other column. *)
Theorem X10_unique_ids_keep_every_matched_row
    (rows : list Row) (f : DataFrame) :
  NoDup (map id rows) ->
  snd (get_filtered_predictions cfg (Frame rows)) = Ok f ->
  Permutation (iterrows f) (filter (selected cfg) (stripped rows))
  /\ List.length (iterrows f)
     = List.length (filter (selected cfg) (stripped rows)).
Proof.
  cbn [get_filtered_predictions snd]. fold (stripped rows). intros Hnd Hf.
  rewrite (filtered_of_rows cfg _ f Hf).
  assert (Hp : Permutation (filtered_rows cfg (stripped rows))
                 (filter (selected cfg) (stripped rows))).
  { apply NoDup_Permutation.
    - apply filtered_rows_NoDup.
    - apply NoDup_filter. apply (NoDup_map_inv id). now rewrite stripped_ids.
    - intros r. now rewrite filtered_rows_In, filter_In. }
  split; [exact Hp | now apply Permutation_length].
Qed.

(** [X11] Within a document, two page ids never share a cache key nor a
    file path: the derived file name and the path joined with the resource
    directory determine the page id. *)
Theorem X11_page_ids_do_not_collide (doc : string) (p q : PageId) :
  (preload_filename cfg doc p = preload_filename cfg doc q -> p = q)
  /\ (Py.path_join (_resource_dir cfg) (preload_filename cfg doc p)
      = Py.path_join (_resource_dir cfg) (preload_filename cfg doc q)
      -> p = q).
Proof.
  split; [apply preload_filename_inj | apply (img_path_inj cfg doc)].
Qed.

(** [X12] Deriving the file name of a page and extracting the page index
    from it gives back [str(page_id)], when neither the document id nor
    [str(page_id)] followed by the extension holds a ["+"] and the first
    character of the (non-empty) extension does not occur in
    [str(page_id)]. *)
Theorem X12_page_index_round_trip (doc : string) (p : PageId)
    (c0 : ascii) (e' : string) :
  img_extension cfg = String c0 e' ->
  occurs "+" doc = false ->
  occurs "+" (pid_str p ++ img_extension cfg) = false ->
  occurs c0 (pid_str p) = false ->
  page_index_of cfg (preload_filename cfg doc p) = Ok (pid_str p).
Proof. apply page_index_of_preload_filename. Qed.

Lemma with_ids_ids (n : nat) (rows : list Row) :
  map id (with_ids env n rows)
  = map (uuid4 env) (seq n (List.length rows)).
Proof.
  revert n. induction rows as [|r rows IH]; intros n; cbn; [reflexivity|].
  now rewrite IH.
Qed.

Lemma with_ids_columns (n : nat) (rows : list Row) :
  Forall2 (fun r r' => r' = set_id r (id r')) rows (with_ids env n rows).
Proof.
  revert n. induction rows as [|r rows IH]; intros n; cbn; constructor;
    [reflexivity | apply IH].
Qed.

(** [X13] The assignment of the [id] column draws one identifier per row,
    in row order, overwrites nothing but the [id] column and reads no
    file; when the draws are pairwise distinct, no two rows of the table
    share an id. *)
Theorem X13_assigned_ids_are_distinct_draws (rows : list Row) (w : World) :
  (forall i j, uuid4 env i = uuid4 env j -> i = j) ->
  exists rows',
    assign_ids env (Frame rows) w
    = ({| reads := reads w; uuids := uuids w + List.length rows |},
       Ok (Frame rows'))
    /\ map id rows' = map (uuid4 env) (seq (uuids w) (List.length rows))
    /\ NoDup (map id rows')
    /\ Forall2 (fun r r' => r' = set_id r (id r')) rows rows'.
Proof.
  intros Hinj. exists (with_ids env (uuids w) rows).
  split; [apply assign_ids_frame|].
  split; [apply with_ids_ids|].
  split; [|apply with_ids_columns].
  rewrite with_ids_ids. apply NoDup_map_inj; [exact Hinj | apply seq_NoDup].
Qed.

(** [X14] With both criteria disabled, a run over one document whose
    table has columns returns (the image extension being non-empty), and
    nothing is redacted: each bundle carries the encoding of the image as
    read and an empty [redactedData]. *)
Theorem X14_disabled_criteria_redact_nothing
    (doc : string) (rows : list Row) (w : World) :
  has_labelling_model cfg = true ->
  truthy (labels_to_redact cfg) = false ->
  truthy (text_patterns_to_redact cfg) = false ->
  img_extension cfg <> ""%string ->
  exists bundles,
    get_entities cfg env [(doc, Frame rows)] w
    = (after_preload cfg env doc rows w, Ok bundles)
    /\ Forall2
         (fun p b =>
            page_index_of cfg (preload_filename cfg doc p) = Ok (pageIndex b)
            /\ redactedData b = ""%string
            /\ image b = imencode_b64 env (source_image cfg env doc p)
            /\ imread env (img_path cfg doc p) = Some (source_image cfg env doc p))
         (loaded_pages cfg env doc rows) bundles.
Proof.
  intros Hm Hl Hp Hext.
  rewrite (get_entities_single cfg env doc rows w Hm).
  assert (Ef : forall l, filtered_of cfg l = Ok NoColumns)
    by (intros l; unfold filtered_of; now rewrite Hl, Hp).
  rewrite Ef. cbn [iterrows first_fault fold_left].
  unfold rows_of_page, redact_rows. cbn [filter fold_left].
  assert (Hload : forall p, In p (loaded_pages cfg env doc rows) ->
                            imread env (img_path cfg doc p)
                            = Some (source_image cfg env doc p)).
  { intros p Hin. apply loaded_pages_In in Hin. destruct Hin as [_ Hin].
    unfold loadable in Hin. unfold source_image.
    now destruct (imread env (img_path cfg doc p)). }
  revert Hload. generalize (loaded_pages cfg env doc rows). intros l.
  induction l as [|p l IH]; intros Hload; cbn [map rmapM].
  - exists []. split; [reflexivity | constructor].
  - destruct IH as (bs & Hbs & HF); [intros q Hq; apply Hload; now right|].
    injection Hbs as Hbs.
    unfold make_bundle at 1.
    destruct (page_index_of_ok cfg doc p Hext) as [s Hs].
    rewrite Hs. cbn [rbind]. rewrite Hbs. cbn [rbind].
    eexists. split; [reflexivity|]. constructor; [|exact HF].
    cbn [pageIndex redactedData image dict_find].
    repeat split; [exact Hs | apply Hload; now left].
Qed.

End MoreProperties.

(* ================================================================== *)
(** * The properties on the concrete run *)
(* ================================================================== *)

Module Checks.

Import Scenario.
#[local] Existing Instance str_page_id.

(** The primitives on small inputs. *)
Example strip_ex : Py.strip "  123 456 789 " = "123 456 789"%string.
Proof. reflexivity. Qed.

Example splitext_ex :
  Py.splitext "scan.jpeg" = ("scan", ".jpeg")%string
  /\ Py.splitext "dir.d/.hidden" = ("dir.d/.hidden", "")%string
  /\ Py.splitext "a/..x.tar.gz" = ("a/..x.tar", ".gz")%string.
Proof. repeat split. Qed.

Example split_ex :
  py_split "+" "inv+12.png" = Ok ["inv"; "12.png"]%string
  /\ py_split ".png" "12.png" = Ok ["12"; ""]%string
  /\ py_split "aa" "aaa" = Ok [""; "a"]%string
  /\ py_split "" "12" = Raise ValueError.
Proof. repeat split. Qed.

Example path_join_ex :
  Py.path_join "/res" "inv+12.png" = "/res/inv+12.png"%string
  /\ Py.path_join "/res/" "inv+12.png" = "/res/inv+12.png"%string
  /\ Py.path_join "/res" "/abs+1.png" = "/abs+1.png"%string.
Proof. repeat split. Qed.

Example filename_ex :
  preload_filename cfg0 "inv.pdf" "3" = "inv.pdf+3.png"%string
  /\ preload_filename cfg0 "scan.jpeg" "0" = "scan+0.png"%string
  /\ page_index_of cfg0 "inv.pdf+3.png" = Ok "3"%string
  /\ page_index_of cfg0 "a+b.pdf+3.png" = Ok "b.pdf"%string.
Proof. repeat split. Qed.

Definition found (pat s : string) : option bool :=
  option_map (fun r => re_search r s) (re_compile pat).

Example shipped_patterns_ex :
  found "^\d{3} \d{3} \d{3}$" "123 456 789" = Some true
  /\ found "^\d{3} \d{3} \d{3}$" "no 123 456 789" = Some false
  /\ found "\b\d{9}\b" "id 123456789." = Some true
  /\ found "\b\d{9}\b" "1234567890" = Some false
  /\ found "[A-Za-z]{3}\d{6}" "xxABC123456" = Some true
  /\ found "(" "x" = None.
Proof. repeat split; vm_compute; reflexivity. Qed.

(** Corners of the [re] syntax. *)
Example re_syntax_ex :
  found "c\Z" "abc" = Some true
  /\ found "b\Z" "abc" = Some false
  /\ found "\x41" "xAx" = Some true
  /\ found "\0" "a" = Some false
  /\ found "\_" "a_b" = Some true
  /\ found "(?=a)b" "ab" = Some false
  /\ found "a(?!b)" "ac" = Some true
  /\ found "[\d-a]" "x" = None
  /\ found "[+-\.]" "," = Some true
  /\ found "^a{,}$" "aaa" = Some true
  /\ found "^a{,2}$" "aaa" = Some false
  /\ found "a{}" "a{}" = Some true
  /\ found "{3}" "{3}" = None
  /\ found "a**" "a" = None.
Proof. repeat split; vm_compute; reflexivity. Qed.

Example redact_region_ex :
  redact_region white 1 0 1 0
  = Ok [[(255, 255, 255); (0, 0, 0)]; [(255, 255, 255); (255, 255, 255)]]%N
  /\ redact_region white 1 (-5) 7 0
     = Ok [[(255, 255, 255); (0, 0, 0)]; [(255, 255, 255); (255, 255, 255)]]%N
  /\ redact_region white 0 0 2147483647 0
     = Ok [[(0, 0, 0); (0, 0, 0)]; [(255, 255, 255); (255, 255, 255)]]%N
  /\ redact_region white 0 0 2147483648 0 = Raise Cv2Error
  /\ redact_region white (-2147483649) 0 0 0 = Raise Cv2Error.
Proof. repeat split. Qed.

(** The redaction loop stops at the first row it cannot handle: the
    missing page of [r_lost], or the rectangle of [r_wide] when that row
    comes first. *)
Example redaction_faults_ex :
  snd (get_entities cfg0 env0 [("inv.pdf", Frame [r_nine; r_lost])] w0)
  = Raise (KeyError "inv.pdf+7.png")
  /\ snd (get_entities cfg0 env0 [("inv.pdf", Frame [r_wide; r_lost])] w0)
     = Raise Cv2Error
  /\ snd (get_entities cfg0 env0 [("inv.pdf", Frame [r_lost; r_wide])] w0)
     = Raise (KeyError "inv.pdf+7.png").
Proof. repeat split; vm_compute; reflexivity. Qed.

(** With integer page ids the same table yields the same pages, and no
    text. *)
Example int_page_ids_ex :
  snd (get_entities (PID := int_page_id) cfg0 env0
         [("inv.pdf",
           Frame [Build_Row (PID := int_page_id)
                    "O" "123456789" 0 0 0 0 0%Z "inv.pdf" ""])] w0)
  = Ok [{| pageIndex := "0"; redactedData := ""; image := "redacted" |}].
Proof. vm_compute; reflexivity. Qed.

(** [C1] on [docs1]: both pages have rows and load, both have a bundle. *)
Lemma C1_witness :
  (has_labelling_model cfg0 = true
   /\ get_entities cfg0 env0 ([] ++ [("inv.pdf", Frame table)]) w0
      = (w1, Ok bundles1))
  /\ exists cache texts,
       run_docs cfg0 env0 ([] ++ [("inv.pdf", Frame table)]) w0
       = (w1, Ok (cache, texts))
       /\ Forall2 (fun item b => make_bundle cfg0 env0 texts item = Ok b)
            cache bundles1
       /\ (forall p,
             In (preload_filename cfg0 "inv.pdf" p) (dict_keys cache)
             <-> (exists r, In r (iterrows (Frame table)) /\ page_id r = p)
                 /\ loadable cfg0 env0 "inv.pdf" p = true)
       /\ forall p,
            In (pid_str p) (map pageIndex bundles1)
            <-> In (preload_filename cfg0 "inv.pdf" p) (dict_keys cache).
Proof.
  split; [split; [reflexivity | vm_compute; reflexivity]|].
  destruct (C1_bundle_iff_cached_iff_loaded cfg0 env0 [] "inv.pdf" (Frame table)
              w0 w1 bundles1) as (cache & texts & H1 & H2 & H3 & H4).
  - reflexivity.
  - vm_compute; reflexivity.
  - exists cache, texts.
    split; [exact H1|]. split; [exact H2|]. split; [exact H3|].
    apply H4.
    intros r [<- | [<- | [<- | [<- | []]]]]; vm_compute; reflexivity.
Defined.

(** [C2] The claim fails where the page index extracted from the file
    name is not the page id.  The only row of document [a+b.pdf] is
    matched and sits on page 0, whose image is loaded and redacted; the
    bundle of that page carries the page index [b.pdf] and an empty
    [redactedData], where the texts of the filtered rows of page 0 join
    to ["123456789"]. *)
Theorem C2_redacted_data_empty_for_redacted_page :
  get_entities cfg0 env_plus [("a+b.pdf", Frame [r_plus])] w0
  = ({| reads := ["/res/a+b.pdf+0.png"]; uuids := 1 |},
     Ok [{| pageIndex := "b.pdf"; redactedData := ""; image := "redacted" |}])
  /\ loaded_pages cfg0 env_plus "a+b.pdf" [r_plus] = ["0"%string]
  /\ snd (get_filtered_predictions cfg0
            (Frame (with_ids env_plus (uuids w0) [r_plus])))
     = Ok (Frame [set_id r_plus "0"])
  /\ Py.join " | " (page_texts "0"%string [set_id r_plus "0"])
     = "123456789"%string.
Proof. repeat split; vm_compute; reflexivity. Qed.

(** [C3] as stated fails on the shipped patterns: the row matched by the
    first pattern is returned before the row matched by the second one,
    which precedes it in the table. *)
Lemma C3_counterexample :
  snd (get_filtered_predictions cfg0 (Frame [r_nine; r_spaced]))
  = Ok (Frame [r_spaced; r_nine])
  /\ is_subsequence [r_spaced; r_nine] [r_nine; r_spaced] = false.
Proof. split; vm_compute; reflexivity. Defined.

Lemma C3_witness :
  snd (get_filtered_predictions cfg0 (Frame [r_nine; r_spaced]))
  = Ok (Frame [r_spaced; r_nine])
  /\ iterrows (Frame [r_spaced; r_nine])
     = grouped (fun _ => false) (criteria cfg0)
         (dedup_from [] (stripped [r_nine; r_spaced]))
  /\ (List.length (criteria cfg0) <= 1 ->
      is_subsequence (iterrows (Frame [r_spaced; r_nine]))
        (stripped [r_nine; r_spaced]) = true).
Proof.
  split; [vm_compute; reflexivity|].
  apply (C3_result_grouped_by_first_criterion cfg0 [r_nine; r_spaced]).
  vm_compute; reflexivity.
Defined.

(** [C4] as stated fails: with a malformed pattern configured, a run
    without documents returns normally, and a run with a document raises
    only after reading that document's page images. *)
Lemma C4_counterexample :
  re_compile "(" = None
  /\ get_entities cfg_bad env0 [] w0 = (w0, Ok [])
  /\ get_entities cfg_bad env0 docs1 w0 = (w1, Raise (ReError "(")).
Proof. repeat split; vm_compute; reflexivity. Defined.

Lemma C4_witness :
  get_entities cfg_bad env0 [] w0 = (w0, Ok [])
  /\ forall doc rows rest,
       get_entities cfg_bad env0 ((doc, Frame rows) :: rest) w0
       = (after_preload cfg_bad env0 doc rows w0, Raise (ReError "(")).
Proof.
  apply (C4_malformed_pattern_raises_at_first_filter_call cfg_bad env0
           [] "(" [] w0).
  - reflexivity.
  - reflexivity.
  - constructor.
  - vm_compute; reflexivity.
Defined.


(** [C6] on the first row of the table. *)
Lemma C6_witness :
  preload_filename cfg0 "inv.pdf" (page_id r_nine)
  = redact_filename cfg0 "inv.pdf" r_nine
  /\ dict_get String.eqb (redact_filename cfg0 "inv.pdf" r_nine)
       (fst (preloaded cfg0 env0 "inv.pdf" table)) <> None.
Proof.
  destruct (C6_same_filename_at_preload_and_redaction cfg0 env0 "inv.pdf")
    as [H1 H2].
  split; [apply H1|].
  apply (H2 table r_nine r_nine).
  - left; reflexivity.
  - reflexivity.
  - vm_compute; reflexivity.
Defined.

(** [C7] as stated fails: page 7 has no file, two rows name it, and its
    path is handed to [cv2.imread] twice. *)
Lemma C7_counterexample :
  count_occ string_dec
    (reads (fst (get_entities cfg0 env0 [("inv.pdf", Frame [r_lost; r_lost'])] w0)))
    (img_path cfg0 "inv.pdf" (page_id r_lost))
  = 2.
Proof. vm_compute; reflexivity. Defined.

Lemma C7_witness :
  exists new_reads,
    reads (fst (get_entities cfg0 env0 [("inv.pdf", Frame table)] w0))
    = reads w0 ++ new_reads
    /\ forall p,
         count_occ string_dec new_reads (img_path cfg0 "inv.pdf" p)
         = if loadable cfg0 env0 "inv.pdf" p
           then (if existsb (fun r => pid_eqb (page_id r) p) table then 1 else 0)
           else List.length (filter (fun r => pid_eqb (page_id r) p) table).
Proof.
  apply (C7_loaded_page_read_once_unloaded_once_per_row cfg0 env0 "inv.pdf"
           table w0).
  reflexivity.
Defined.

(** [C8] as stated fails with both criteria disabled: the filter returns
    [pd.DataFrame()], which has no [text] column to strip. *)
Lemma C8_counterexample :
  snd (get_filtered_predictions cfg_off (Frame table)) = Ok NoColumns
  /\ snd (get_filtered_predictions cfg_off NoColumns) = Raise (KeyError "text").
Proof. split; reflexivity. Defined.

Lemma C8_witness :
  snd (get_filtered_predictions cfg0 (Frame table))
  = Ok (Frame [r_spaced; r_nine])
  /\ exists g,
       snd (get_filtered_predictions cfg0 (Frame [r_spaced; r_nine])) = Ok g
       /\ (forall r, In r (iterrows g) <-> In r (iterrows (Frame [r_spaced; r_nine])))
       /\ Permutation (iterrows g) (iterrows (Frame [r_spaced; r_nine])).
Proof.
  split; [vm_compute; reflexivity|].
  apply (C8_refiltering_returns_the_same_rows cfg0 table).
  - reflexivity.
  - vm_compute; reflexivity.
Defined.

(** [C9] on [docs2]: the bundles are those of [inv.pdf] alone, and the
    text of the row of [a.pdf] is still in the text map. *)
Lemma C9_witness :
  get_entities cfg0 env0 docs2 w0 = (w2, Ok bundles2)
  /\ exists w1 images_prev texts_prev images texts,
       run_docs cfg0 env0 [("a.pdf", Frame [r_first])] w0
       = (w1, Ok (images_prev, texts_prev))
       /\ run_docs cfg0 env0 docs2 w0 = (w2, Ok (images, texts))
       /\ dict_keys images
          = dict_keys (fst (preloaded cfg0 env0 "inv.pdf" (iterrows (Frame table))))
       /\ rmapM (page_index_of cfg0) (dict_keys images)
          = Ok (map pageIndex bundles2)
       /\ (forall b, In b bundles2 ->
                     redactedData b = lookup_text texts (pageIndex b))
       /\ (forall p t, dict_get pid_eqb p texts_prev = Some t ->
                       exists t', dict_get pid_eqb p texts = Some (t ++ t')%string).
Proof.
  split; [vm_compute; reflexivity|].
  apply (C9_cache_of_last_document_texts_of_all cfg0 env0
           [("a.pdf", Frame [r_first])] "inv.pdf" (Frame table) w0 w2 bundles2).
  - reflexivity.
  - vm_compute; reflexivity.
Defined.

End Checks.

(* ================================================================== *)
(** * Further properties on the concrete run *)
(* ================================================================== *)

Module MoreChecks.

Import Scenario.
#[local] Existing Instance str_page_id.

(** The run over [docs1], and the run that stops on page 7. *)
Lemma run1 : get_entities cfg0 env0 [("inv.pdf", Frame table)] w0 = (w1, Ok bundles1).
Proof. vm_compute; reflexivity. Qed.

Definition w_lost : World :=
  {| reads := ["/res/inv.pdf+7.png"; "/res/inv.pdf+7.png"]; uuids := 2 |}.

Lemma X1_witness :
  (exists im',
     redact_region white 1 0 1 0 = Ok im'
     /\ forall x y,
          pixel_at im' x y
          = option_map
              (fun px => if in_span 1 1 x && in_span 0 0 y then black else px)
              (pixel_at white x y))
  /\ redact_region white 0 0 2147483648 0 = Raise Cv2Error.
Proof.
  split.
  - apply (X1_redact_region_fills_rectangle white 1 0 1 0). reflexivity.
  - apply (X1_redact_region_fills_rectangle white 0 0 2147483648 0).
    reflexivity.
Defined.

Lemma X3_witness :
  NoDup (loaded_pages cfg0 env0 "inv.pdf" table)
  /\ (forall p, In p (loaded_pages cfg0 env0 "inv.pdf" table)
                <-> (exists r, In r table /\ page_id r = p)
                    /\ loadable cfg0 env0 "inv.pdf" p = true)
  /\ Forall2
       (fun p b =>
          page_index_of cfg0 (preload_filename cfg0 "inv.pdf" p) = Ok (pageIndex b))
       (loaded_pages cfg0 env0 "inv.pdf" table) bundles1.
Proof.
  apply (X3_one_bundle_per_loaded_page_in_table_order cfg0 env0 "inv.pdf" table
           w0 w1 bundles1).
  - reflexivity.
  - vm_compute; reflexivity.
Defined.

Lemma X4_witness :
  Forall2
    (fun p b =>
       exists source final,
         imread env0 (img_path cfg0 "inv.pdf" p) = Some source
         /\ image b = imencode_b64 env0 final
         /\ (forall x y,
               pixel_at final x y
               = option_map
                   (fun px =>
                      if existsb (fun r => covers r x y)
                           (rows_of_page p (redacted_rows cfg0 env0 (uuids w0) table))
                      then black else px)
                   (pixel_at source x y))
         /\ (rows_of_page p (redacted_rows cfg0 env0 (uuids w0) table) = []
             -> final = source))
    (loaded_pages cfg0 env0 "inv.pdf" table) bundles1.
Proof.
  apply (X4_emitted_image_is_source_with_matched_rectangles_black cfg0 env0
           "inv.pdf" table w0 w1 bundles1).
  - reflexivity.
  - vm_compute; reflexivity.
Defined.

Lemma X5_witness :
  exists s, page_index_of cfg0 (preload_filename cfg0 "a+b.pdf" "3") = Ok s.
Proof.
  apply (X5_page_index_of_never_raises_IndexError (PID := str_page_id)
           cfg0 "a+b.pdf" "3").
  vm_compute; discriminate.
Defined.

Lemma X6_witness :
  exists w' bundles, get_entities cfg0 env0 docs1 w0 = (w', Ok bundles).
Proof.
  apply (X6_run_returns_when_matched_pages_loaded cfg0 env0 docs1 w0).
  - reflexivity.
  - intros _. repeat constructor; vm_compute; discriminate.
  - vm_compute; discriminate.
  - intros doc df [E | []]. injection E as <- <-.
    exists table. split; [reflexivity|].
    intros r [<- | [<- | [<- | [<- | []]]]] _; vm_compute; reflexivity.
  - intros doc rows r [E | []] Hr _. injection E as <- <-.
    destruct Hr as [<- | [<- | [<- | [<- | []]]]]; reflexivity.
Defined.

Lemma X7_witness :
  exists r,
    In r [r_lost; r_lost']
    /\ selected cfg0 (set_text r (Py.strip (text r))) = true
    /\ loadable cfg0 env0 "inv.pdf" (page_id r) = false
    /\ "inv.pdf+7.png"%string = preload_filename cfg0 "inv.pdf" (page_id r).
Proof.
  apply (X7_KeyError_names_matched_row_of_unloaded_page cfg0 env0 "inv.pdf"
           [r_lost; r_lost'] w0 w_lost "inv.pdf+7.png").
  vm_compute; reflexivity.
Defined.

(** Two rows that agree on every column but [id]. *)
Definition twins : list Row := [set_id r_nine "a"; set_id r_nine "b"].

Lemma X10_witness :
  Permutation (iterrows (Frame twins)) (filter (selected cfg0) (stripped twins))
  /\ List.length (iterrows (Frame twins))
     = List.length (filter (selected cfg0) (stripped twins)).
Proof.
  apply (X10_unique_ids_keep_every_matched_row cfg0 twins (Frame twins)).
  - vm_compute. repeat constructor; simpl; intuition discriminate.
  - vm_compute; reflexivity.
Defined.

Lemma X12_witness :
  page_index_of cfg0 (preload_filename cfg0 "scan.jpeg" "12")
  = Ok (pid_str "12"%string).
Proof.
  apply (X12_page_index_round_trip (PID := str_page_id)
           cfg0 "scan.jpeg" "12" "."%char "png");
    reflexivity.
Defined.

Lemma uuid4_env0_inj (i j : nat) : uuid4 env0 i = uuid4 env0 j -> i = j.
Proof. cbn. intros H. apply str_of_int_inj in H. lia. Qed.

Lemma X13_witness :
  exists rows',
    assign_ids env0 (Frame table) w0
    = ({| reads := reads w0; uuids := uuids w0 + List.length table |},
       Ok (Frame rows'))
    /\ map id rows' = map (uuid4 env0) (seq (uuids w0) (List.length table))
    /\ NoDup (map id rows')
    /\ Forall2 (fun r r' => r' = set_id r (id r')) table rows'.
Proof.
  apply (X13_assigned_ids_are_distinct_draws env0 table w0).
  exact uuid4_env0_inj.
Defined.

Lemma X14_witness :
  exists bundles,
    get_entities cfg_off env0 [("inv.pdf", Frame table)] w0
    = (after_preload cfg_off env0 "inv.pdf" table w0, Ok bundles)
    /\ Forall2
         (fun p b =>
            page_index_of cfg_off (preload_filename cfg_off "inv.pdf" p)
            = Ok (pageIndex b)
            /\ redactedData b = ""%string
            /\ image b = imencode_b64 env0 (source_image cfg_off env0 "inv.pdf" p)
            /\ imread env0 (img_path cfg_off "inv.pdf" p)
               = Some (source_image cfg_off env0 "inv.pdf" p))
         (loaded_pages cfg_off env0 "inv.pdf" table) bundles.
Proof.
  apply (X14_disabled_criteria_redact_nothing cfg_off env0 "inv.pdf" table w0).
  - reflexivity.
  - reflexivity.
  - reflexivity.
  - vm_compute; discriminate.
Defined.

(** On [docs1]: the bundle of page 0 lists the two matched texts of that
    page in the order of the filter result, the bundle of page 1 is
    empty. *)
Lemma X15_witness :
  (has_labelling_model cfg0 = true
   /\ get_entities cfg0 env0 [("inv.pdf", Frame table)] w0 = (w1, Ok bundles1))
  /\ exists filtered,
       snd (get_filtered_predictions cfg0 (Frame (with_ids env0 (uuids w0) table)))
       = Ok filtered
       /\ NoDup (iterrows filtered)
       /\ (forall r, In r (iterrows filtered)
                     <-> In r (stripped (with_ids env0 (uuids w0) table))
                         /\ selected cfg0 r = true)
       /\ Forall2
            (fun p b =>
               page_index_of cfg0 (preload_filename cfg0 "inv.pdf" p)
               = Ok (pageIndex b)
               /\ redactedData b
                  = Py.join " | " (texts_for (pageIndex b) (iterrows filtered))
               /\ (pageIndex b = pid_str p ->
                   (forall q, pid_eq_str q (pid_str p) = pid_eqb q p) ->
                   redactedData b
                   = Py.join " | " (page_texts p (iterrows filtered))
                   /\ (page_texts p (iterrows filtered) = [] ->
                       redactedData b = ""%string)))
            (loaded_pages cfg0 env0 "inv.pdf" table) bundles1.
Proof.
  split; [split; [reflexivity | vm_compute; reflexivity]|].
  apply (X15_redacted_data_joins_texts_equal_to_page_index cfg0 env0 "inv.pdf" table
           w0 w1 bundles1).
  - reflexivity.
  - vm_compute; reflexivity.
Defined.

End MoreChecks.
